(** * Workspaces: stored folders, relocation and the recently-opened store

    A shallow embedding of [src/vs/platform/workspaces/common/workspaces.ts]
    (with the two stored-folder shapes of
    [vs/platform/workspace/common/workspace.ts]) and the properties its
    specification states about it.

    The TypeScript code inspects untyped data ([typeof], truthiness, property
    reads on values that came out of a JSON parser), so the embedding works on
    an explicit type of JavaScript values.  Code of [vs/base/common] that the
    file calls ([URI], [IExtUri], [json], [jsonEdit], [labels], [extpath],
    [path], [platform]) is taken as an interface: a type class whose members
    are the functions called, with the exceptions they may raise made explicit
    in their result type. *)

From Stdlib Require Import ZArith Lia Ascii String.
From stdpp Require Import base option list strings gmap pretty.

Set Warnings "-register-all".

Local Open Scope string_scope.

(** ** JavaScript values *)

Module JS.

Inductive Value : Type :=
| Undefined
| Null
| Bool (b : bool)
| Num (n : Z)
| Str (s : string)
| Arr (items : list Value)
| Obj (props : list (string * Value)).

Inductive Type_ : Set := TUndefined | TObject | TBoolean | TNumber | TString.

(** [typeof v]; [null] and arrays are objects. *)
Definition typeof (v : Value) : Type_ :=
  match v with
  | Undefined => TUndefined
  | Null | Arr _ | Obj _ => TObject
  | Bool _ => TBoolean
  | Num _ => TNumber
  | Str _ => TString
  end.

Definition isString (v : Value) : bool :=
  match v with Str _ => true | _ => false end.

Definition isObject (v : Value) : bool :=
  match typeof v with TObject => true | _ => false end.

Definition isArray (v : Value) : bool :=
  match v with Arr _ => true | _ => false end.

(** Conversion to boolean as done by [if], [!], [&&] and [||]. *)
Definition truthy (v : Value) : bool :=
  match v with
  | Undefined | Null => false
  | Bool b => b
  | Num n => negb (n =? 0)%Z
  | Str s => negb (String.eqb s "")
  | Arr _ | Obj _ => true
  end.

Definition nullish (v : Value) : bool :=
  match v with Undefined | Null => true | _ => false end.

(** [a || b] *)
Definition or (a b : Value) : Value := if truthy a then a else b.

Fixpoint assoc (k : string) (ps : list (string * Value)) : Value :=
  match ps with
  | [] => Undefined
  | (k', v) :: ps' => if String.eqb k k' then v else assoc k ps'
  end.

(** [v?.k], which is also [v.k] wherever [v] is known not to be nullish.
    None of the property names read by the code is an inherited property of
    arrays, strings, numbers or booleans, so only objects answer. *)
Definition get (k : string) (v : Value) : Value :=
  match v with
  | Obj ps => assoc k ps
  | _ => Undefined
  end.

(** [o.hasOwnProperty(k)] *)
Definition hasOwnProperty (k : string) (v : Value) : bool :=
  match v with
  | Obj ps => bool_decide (k ∈ ps.*1)
  | _ => false
  end.

(** [a[i]]: [undefined] out of range. *)
Definition at_ (i : nat) (v : Value) : Value :=
  match v with
  | Arr items => default Undefined (items !! i)
  | _ => Undefined
  end.

(** The string held by a value for which [typeof] answered ['string']. *)
Definition str (v : Value) : string :=
  match v with Str s => s | _ => "" end.

(** Exceptions raised by the code or by its collaborators. *)
Inductive Error : Type :=
| TypeError                          (* property read on null or undefined *)
| UriError (input : string)          (* raised by URI.parse *)
| InvalidWorkspaceFile (path : string).

(** The outcome of evaluating code that may throw. *)
Inductive Completion (A : Type) : Type :=
| Normal (a : A)
| Throw (e : Error).
Arguments Normal {A} a.
Arguments Throw {A} e.

#[global] Instance Completion_ret : MRet Completion := @Normal.
#[global] Instance Completion_bind : MBind Completion := fun A B k c =>
  match c with
  | Normal a => k a
  | Throw e => Throw e
  end.
#[global] Instance Completion_fmap : FMap Completion := fun A B f c =>
  match c with
  | Normal a => Normal (f a)
  | Throw e => Throw e
  end.

(** [v.k] where [v] may be [null] or [undefined]. *)
Definition member (k : string) (v : Value) : Completion Value :=
  if nullish v then Throw TypeError else Normal (get k v).

Fixpoint mapM {A B} (f : A -> Completion B) (l : list A) : Completion (list B) :=
  match l with
  | [] => Normal []
  | a :: l' =>
      b ← f a; bs ← mapM f l'; Normal (b :: bs)
  end.

End JS.

(** ** Collaborators *)

Module URI.

(** The components of [vs/base/common/uri]'s [URI]. *)
Record t : Type := Build {
  scheme : string;
  authority : string;
  path : string;
  query : string;
  fragment : string
}.

(** [uri.with({ path })] *)
Definition with_path (u : t) (p : string) : t :=
  Build (scheme u) (authority u) p (query u) (fragment u).

(** The operations of [URI] the code calls.  [parse] validates its input
    and throws on a malformed one: [None]. *)
Class Ops : Type := {
  parse : string -> option t;
  toString : t -> bool -> string;       (* toString(skipEncoding) *)
  fsPath : t -> string
}.

Definition parse_ `{Ops} (s : string) : JS.Completion t :=
  match parse s with
  | Some u => JS.Normal u
  | None => JS.Throw (JS.UriError s)
  end.

End URI.

Module Schemas.
Definition file : string := "file".
End Schemas.

(** [vs/base/common/platform] *)
Class Platform : Type := {
  isWindows : bool;
  isLinux : bool;
  isMacintosh : bool
}.

(** [IExtUri] of [vs/base/common/resources], passed to the functions as
    [extUri]. *)
Class IExtUri : Type := {
  relativePath : URI.t -> URI.t -> option string;   (* undefined: None *)
  resolvePath : URI.t -> string -> URI.t;
  dirname : URI.t -> URI.t;
  basenameOrAuthority : URI.t -> string;
  getComparisonKey : URI.t -> string;
  isEqualAuthority : string -> string -> bool
}.

(** [normalizeDriveLetter] of [labels], [toSlashes] of [extpath],
    [isAbsolute] of [path]. *)
Class PathOps : Type := {
  normalizeDriveLetter : string -> string;
  toSlashes : string -> string;
  isAbsolute : string -> bool
}.

(** ** Workspaces recently opened *)

Module IWorkspaceIdentifier.
Record t : Type := Build {
  id : string;
  configPath : URI.t
}.
End IWorkspaceIdentifier.

(** An element of [IRecentlyOpened.workspaces]. The restore code stores
    whatever value the persisted entry has under [label] and
    [remoteAuthority]. *)
Inductive IRecentWorkspaceOrFolder : Type :=
  | IRecentWorkspace (label remoteAuthority : JS.Value) (workspace : IWorkspaceIdentifier.t)
  | IRecentFolder (label remoteAuthority : JS.Value) (folderUri : URI.t).

Inductive IRecentFile : Type :=
  | RecentFile (label remoteAuthority : JS.Value) (fileUri : URI.t).

Record IRecentlyOpened : Type := {
  workspaces : list IRecentWorkspaceOrFolder;
  files : list IRecentFile
}.

(** [curr.hasOwnProperty('folderUri')] on an element of [workspaces]. *)
Definition isRecentFolder (curr : IRecentWorkspaceOrFolder) : bool :=
  match curr with
  | IRecentFolder _ _ _ => true
  | IRecentWorkspace _ _ _ => false
  end.

Definition isRecentWorkspace (curr : IRecentWorkspaceOrFolder) : bool :=
  match curr with
  | IRecentWorkspace _ _ _ => true
  | IRecentFolder _ _ _ => false
  end.

Definition pushWorkspace (r : IRecentlyOpened) (w : IRecentWorkspaceOrFolder) : IRecentlyOpened :=
  {| workspaces := workspaces r ++ [w]; files := files r |}.

Definition pushFile (r : IRecentlyOpened) (f : IRecentFile) : IRecentlyOpened :=
  {| workspaces := workspaces r; files := files r ++ [f] |}.

Definition isSerializedRecentWorkspace (data : JS.Value) : bool :=
  let workspace := JS.get "workspace" data in
  JS.truthy workspace
  && JS.isObject workspace
  && JS.isString (JS.get "id" workspace)
  && JS.isString (JS.get "configPath" workspace).

Definition isSerializedRecentFolder (data : JS.Value) : bool :=
  JS.isString (JS.get "folderUri" data).

Definition isSerializedRecentFile (data : JS.Value) : bool :=
  JS.isString (JS.get "fileUri" data).

(** What [restoreRecentlyOpened] has built and what it has passed to
    [logService.warn]: the entry it could not restore and the error. *)
Record Restored : Type := {
  recents : IRecentlyOpened;
  warnings : list (JS.Value * JS.Error)
}.

Definition emptyRecents : IRecentlyOpened := {| workspaces := []; files := [] |}.

(** The local function [restoreGracefully]: the loop from index [i] on. A
    callback that throws has not pushed anything, as every callback pushes
    last. *)
Fixpoint restoreGracefully_from
    (func : JS.Value -> nat -> IRecentlyOpened -> JS.Completion IRecentlyOpened)
    (i : nat) (entries : list JS.Value) (st : Restored) : Restored :=
  match entries with
  | [] => st
  | entry :: rest =>
      let st' :=
        match func entry i (recents st) with
        | JS.Normal r => {| recents := r; warnings := warnings st |}
        | JS.Throw e => {| recents := recents st; warnings := warnings st ++ [(entry, e)] |}
        end in
      restoreGracefully_from func (S i) rest st'
  end.

Definition restoreGracefully func (entries : list JS.Value) (st : Restored) : Restored :=
  restoreGracefully_from func 0 entries st.

Section Recents.
Context `{UO : URI.Ops}.

(** The callback for an element of [entries]. *)
Definition restoreEntry (entry : JS.Value) (_ : nat) (result : IRecentlyOpened)
    : JS.Completion IRecentlyOpened :=
  label ← JS.member "label" entry;
  remoteAuthority ← JS.member "remoteAuthority" entry;
  if isSerializedRecentWorkspace entry then
    let workspace := JS.get "workspace" entry in
    configPath ← URI.parse_ (JS.str (JS.get "configPath" workspace));
    JS.Normal (pushWorkspace result
      (IRecentWorkspace label remoteAuthority
         (IWorkspaceIdentifier.Build (JS.str (JS.get "id" workspace)) configPath)))
  else if isSerializedRecentFolder entry then
    folderUri ← URI.parse_ (JS.str (JS.get "folderUri" entry));
    JS.Normal (pushWorkspace result (IRecentFolder label remoteAuthority folderUri))
  else if isSerializedRecentFile entry then
    fileUri ← URI.parse_ (JS.str (JS.get "fileUri" entry));
    JS.Normal (pushFile result (RecentFile label remoteAuthority fileUri))
  else JS.Normal result.

(** [(Array.isArray(labels) && labels[i]) || undefined] *)
Definition legacyLabel (labels : JS.Value) (i : nat) : JS.Value :=
  JS.or (if JS.isArray labels then JS.at_ i labels else JS.Bool false) JS.Undefined.

(** [typeof workspace === 'object' && typeof workspace.id === 'string' &&
    typeof workspace.configURIPath === 'string'].  [typeof null] is
    ['object'], so the read of [workspace.id] may throw. *)
Definition isLegacyWorkspace (workspace : JS.Value) : JS.Completion bool :=
  if JS.isObject workspace then
    wid ← JS.member "id" workspace;
    if JS.isString wid then
      cfg ← JS.member "configURIPath" workspace;
      JS.Normal (JS.isString cfg)
    else JS.Normal false
  else JS.Normal false.

(** The callback for an element of [workspaces3]. *)
Definition restoreLegacyWorkspace (labels : JS.Value) (workspace : JS.Value) (i : nat)
    (result : IRecentlyOpened) : JS.Completion IRecentlyOpened :=
  let label := legacyLabel labels i in
  isWorkspace ← isLegacyWorkspace workspace;
  if (isWorkspace : bool) then
    configPath ← URI.parse_ (JS.str (JS.get "configURIPath" workspace));
    JS.Normal (pushWorkspace result
      (IRecentWorkspace label JS.Undefined
         (IWorkspaceIdentifier.Build (JS.str (JS.get "id" workspace)) configPath)))
  else if JS.isString workspace then
    folderUri ← URI.parse_ (JS.str workspace);
    JS.Normal (pushWorkspace result (IRecentFolder label JS.Undefined folderUri))
  else JS.Normal result.

(** The callback for an element of [files2]. *)
Definition restoreLegacyFile (labels : JS.Value) (file : JS.Value) (i : nat)
    (result : IRecentlyOpened) : JS.Completion IRecentlyOpened :=
  let label := legacyLabel labels i in
  if JS.isString file then
    fileUri ← URI.parse_ (JS.str file);
    JS.Normal (pushFile result (RecentFile label JS.Undefined fileUri))
  else JS.Normal result.

Definition restoreRecentlyOpened (data : JS.Value) : Restored :=
  let st := {| recents := emptyRecents; warnings := [] |} in
  if JS.truthy data then
    match JS.get "entries" data with
    | JS.Arr entries => restoreGracefully restoreEntry entries st
    | _ =>
        let st :=
          match JS.get "workspaces3" data with
          | JS.Arr workspaces3 =>
              restoreGracefully
                (restoreLegacyWorkspace (JS.get "workspaceLabels" data)) workspaces3 st
          | _ => st
          end in
        match JS.get "files2" data with
        | JS.Arr files2 =>
            restoreGracefully (restoreLegacyFile (JS.get "fileLabels" data)) files2 st
        | _ => st
        end
    end
  else st.

Definition serializeWorkspaceOrFolder (recent : IRecentWorkspaceOrFolder) : JS.Value :=
  match recent with
  | IRecentFolder label remoteAuthority folderUri =>
      JS.Obj [("folderUri", JS.Str (URI.toString folderUri false));
              ("label", label); ("remoteAuthority", remoteAuthority)]
  | IRecentWorkspace label remoteAuthority workspace =>
      JS.Obj [("workspace",
                 JS.Obj [("id", JS.Str (IWorkspaceIdentifier.id workspace));
                         ("configPath",
                          JS.Str (URI.toString (IWorkspaceIdentifier.configPath workspace)
                                    false))]);
              ("label", label); ("remoteAuthority", remoteAuthority)]
  end.

Definition serializeFile (recent : IRecentFile) : JS.Value :=
  match recent with
  | RecentFile label remoteAuthority fileUri =>
      JS.Obj [("fileUri", JS.Str (URI.toString fileUri false));
              ("label", label); ("remoteAuthority", remoteAuthority)]
  end.

Definition toStoreData (recents : IRecentlyOpened) : JS.Value :=
  JS.Obj [("entries",
           JS.Arr (map serializeWorkspaceOrFolder (workspaces recents)
                   ++ map serializeFile (files recents)))].

End Recents.

(** ** Workspace file utilities *)

(** [typeof candidate?.path === 'string' &&
     (!candidate.name || typeof candidate.name === 'string')] *)
Definition isRawFileWorkspaceFolder (obj : JS.Value) : bool :=
  JS.isString (JS.get "path" obj)
  && (negb (JS.truthy (JS.get "name" obj)) || JS.isString (JS.get "name" obj)).

Definition isRawUriWorkspaceFolder (obj : JS.Value) : bool :=
  JS.isString (JS.get "uri" obj)
  && (negb (JS.truthy (JS.get "name" obj)) || JS.isString (JS.get "name" obj)).

Definition isStoredWorkspaceFolder (obj : JS.Value) : bool :=
  isRawFileWorkspaceFolder obj || isRawUriWorkspaceFolder obj.

(** The two object literals [getStoredWorkspaceFolder] returns.  [name] is
    the [folderName] argument as it was passed. *)
Inductive IStoredWorkspaceFolder : Type :=
| IRawFileWorkspaceFolder (name : JS.Value) (path : string)
| IRawUriWorkspaceFolder (name : JS.Value) (uri : string).

Definition storedFolderToValue (f : IStoredWorkspaceFolder) : JS.Value :=
  match f with
  | IRawFileWorkspaceFolder name path => JS.Obj [("name", name); ("path", JS.Str path)]
  | IRawUriWorkspaceFolder name uri => JS.Obj [("name", name); ("uri", JS.Str uri)]
  end.

(** [s.replace(/c/g, d)] for single characters. *)
Fixpoint replaceAll (c d : ascii) (s : string) : string :=
  match s with
  | EmptyString => EmptyString
  | String a s' => String (if Ascii.eqb a c then d else a) (replaceAll c d s')
  end.

(** [s.indexOf(c) >= 0] *)
Fixpoint contains (c : ascii) (s : string) : bool :=
  match s with
  | EmptyString => false
  | String a s' => Ascii.eqb a c || contains c s'
  end.

(** The line ends ['\n'] and ['\r\n']. *)
Definition LF : string := String "010" EmptyString.
Definition CRLF : string := String "013" (String "010" EmptyString).

Definition slash : ascii := "/"%char.
Definition backslash : ascii := "\"%char.

Section StoredFolders.
Context `{PF : Platform} `{UO : URI.Ops} `{PO : PathOps} `{extUri : IExtUri}.

(** [useSlashForPath] is [None] where the caller leaves the argument out:
    the default is [!isWindows]. *)
Definition getStoredWorkspaceFolder (folderURI : URI.t) (forceAbsolute : bool)
    (folderName : JS.Value) (targetConfigFolderURI : URI.t)
    (useSlashForPath : option bool) : IStoredWorkspaceFolder :=
  let useSlashForPath := default (negb isWindows) useSlashForPath in
  if negb (String.eqb (URI.scheme folderURI) (URI.scheme targetConfigFolderURI)) then
    IRawUriWorkspaceFolder folderName (URI.toString folderURI true)
  else
    match (if negb forceAbsolute then relativePath targetConfigFolderURI folderURI else None) with
    | Some folderPath =>
        if (String.length folderPath =? 0)%nat then
          IRawFileWorkspaceFolder folderName "."
        else if isWindows && String.eqb (URI.scheme folderURI) Schemas.file
                && negb useSlashForPath then
          IRawFileWorkspaceFolder folderName (replaceAll slash backslash folderPath)
        else
          IRawFileWorkspaceFolder folderName folderPath
    | None =>
        if String.eqb (URI.scheme folderURI) Schemas.file then
          let folderPath := URI.fsPath folderURI in
          if isWindows then
            let folderPath := normalizeDriveLetter folderPath in
            if useSlashForPath then
              IRawFileWorkspaceFolder folderName (toSlashes folderPath)
            else
              IRawFileWorkspaceFolder folderName folderPath
          else
            IRawFileWorkspaceFolder folderName folderPath
        else if negb (isEqualAuthority (URI.authority folderURI)
                        (URI.authority targetConfigFolderURI)) then
          IRawUriWorkspaceFolder folderName (URI.toString folderURI true)
        else
          IRawFileWorkspaceFolder folderName (URI.path folderURI)
    end.

(** [storedFolders.some(folder => isRawFileWorkspaceFolder(folder) &&
     folder.path.indexOf('/') >= 0)] on Windows, [true] elsewhere. *)
Definition useSlashForPath (storedFolders : list JS.Value) : bool :=
  if isWindows then
    existsb (fun folder => isRawFileWorkspaceFolder folder
                           && contains slash (JS.str (JS.get "path" folder)))
            storedFolders
  else true.

End StoredFolders.

Module WorkspaceFolder.
(** [new WorkspaceFolder({ uri, name, index }, raw)] *)
Record t : Type := Build {
  uri : URI.t;
  name : JS.Value;
  index : nat;
  raw : JS.Value
}.
End WorkspaceFolder.

Section ToWorkspaceFolders.
Context `{UO : URI.Ops} `{extUri : IExtUri}.

(** The location of one configured folder: the first half of the loop body of
    [toWorkspaceFolders].  [None] is [uri] left [undefined]: a path-form entry
    with an empty path, a uri-form entry whose uri [URI.parse] rejects (the
    exception is caught and passed to [console.warn]), or an entry of neither
    form. *)
Definition configuredFolderUri (relativeTo : URI.t) (configuredFolder : JS.Value)
    : option URI.t :=
  if isRawFileWorkspaceFolder configuredFolder then
    if JS.truthy (JS.get "path" configuredFolder) then
      Some (resolvePath relativeTo (JS.str (JS.get "path" configuredFolder)))
    else None
  else if isRawUriWorkspaceFolder configuredFolder then
    match URI.parse (JS.str (JS.get "uri" configuredFolder)) with
    | Some uri =>
        match URI.path uri with
        | String "/" _ => Some uri
        | _ => Some (URI.with_path uri ("/" ++ URI.path uri))
        end
    | None => None
    end
  else None.

(** The loop of [toWorkspaceFolders] over the remaining folders, with the
    [result] array and the [seen] set built so far. *)
Fixpoint toWorkspaceFolders_loop (relativeTo : URI.t) (configuredFolders : list JS.Value)
    (result : list WorkspaceFolder.t) (seen : gset string) : list WorkspaceFolder.t :=
  match configuredFolders with
  | [] => result
  | configuredFolder :: rest =>
      match configuredFolderUri relativeTo configuredFolder with
      | Some uri =>
          let comparisonKey := getComparisonKey uri in
          if decide (comparisonKey ∈ seen) then
            toWorkspaceFolders_loop relativeTo rest result seen
          else
            let name := JS.or (JS.get "name" configuredFolder)
                              (JS.Str (basenameOrAuthority uri)) in
            toWorkspaceFolders_loop relativeTo rest
              (result ++ [WorkspaceFolder.Build uri name (length result) configuredFolder])
              ({[comparisonKey]} ∪ seen)
      | None => toWorkspaceFolders_loop relativeTo rest result seen
      end
  end.

Definition toWorkspaceFolders (configuredFolders : list JS.Value)
    (workspaceConfigFile : URI.t) : list WorkspaceFolder.t :=
  toWorkspaceFolders_loop (dirname workspaceConfigFile) configuredFolders [] ∅.

End ToWorkspaceFolders.

(** ** Rewriting a workspace file for a new location *)

(** [FormattingOptions] of [vs/base/common/jsonFormatter] *)
Record FormattingOptions : Type := {
  insertSpaces : bool;
  tabSize : nat;
  eol : string
}.

Module json.
(** The fault tolerant parser of [vs/base/common/json]. *)
Class Ops : Type := {
  parse : string -> JS.Value
}.
End json.

Module jsonEdit.
(** [vs/base/common/jsonEdit] *)
Class Ops : Type := {
  Edit : Type;
  setProperty : string -> list string -> JS.Value -> FormattingOptions -> list Edit;
  removeProperty : string -> list string -> FormattingOptions -> list Edit;
  applyEdits : string -> list Edit -> string
}.
End jsonEdit.

(** [isEqualAuthority] of [vs/base/common/resources] and [getRemoteAuthority]
    of [vs/platform/remote/common/remoteHosts]; an authority is a string or
    [undefined]. *)
Class RemoteOps : Type := {
  resources_isEqualAuthority : JS.Value -> JS.Value -> bool;
  getRemoteAuthority : URI.t -> JS.Value
}.

(** What the code reads of the [IStoredWorkspace] that
    [doParseStoredWorkspace] returns. *)
Module IStoredWorkspace.
Record t : Type := Build {
  folders : list JS.Value;
  remoteAuthority : JS.Value
}.
End IStoredWorkspace.

Section Rewrite.
Context `{PF : Platform} `{UO : URI.Ops} `{PO : PathOps} `{extUri : IExtUri}
        `{JP : json.Ops} `{JE : jsonEdit.Ops} `{RO : RemoteOps}.

Definition doParseStoredWorkspace (path : URI.t) (contents : string)
    : JS.Completion IStoredWorkspace.t :=
  let storedWorkspace := json.parse contents in
  if JS.truthy storedWorkspace && JS.isArray (JS.get "folders" storedWorkspace) then
    match JS.get "folders" storedWorkspace with
    | JS.Arr folders =>
        JS.Normal (IStoredWorkspace.Build
                     (List.filter isStoredWorkspaceFolder folders)
                     (JS.get "remoteAuthority" storedWorkspace))
    | _ => JS.Throw (JS.InvalidWorkspaceFile (URI.toString path false))
    end
  else JS.Throw (JS.InvalidWorkspaceFile (URI.toString path false)).

(** The body of the loop over [storedWorkspace.folders]: the stored folder
    pushed to [rewrittenFolders]. *)
Definition rewriteFolder (sourceConfigFolder targetConfigFolder : URI.t)
    (isFromUntitledWorkspace slashForPath : bool) (folder : JS.Value)
    : JS.Completion IStoredWorkspaceFolder :=
  folderURI ←
    (if isRawFileWorkspaceFolder folder then
       JS.Normal (resolvePath sourceConfigFolder (JS.str (JS.get "path" folder)))
     else URI.parse_ (JS.str (JS.get "uri" folder)));
  let absolute :=
    if isFromUntitledWorkspace then false
    else negb (isRawFileWorkspaceFolder folder)
         || isAbsolute (JS.str (JS.get "path" folder)) in
  JS.Normal (getStoredWorkspaceFolder folderURI absolute (JS.get "name" folder)
               targetConfigFolder (Some slashForPath)).

Definition formattingOptions : FormattingOptions :=
  {| insertSpaces := false;
     tabSize := 4;
     eol := if isLinux || isMacintosh then LF else CRLF |}.

(** The two edits of the text, given the rewritten folders. *)
Definition editWorkspaceFile (rawWorkspaceContents : string)
    (rewrittenFolders : list IStoredWorkspaceFolder)
    (storedWorkspace : IStoredWorkspace.t) (targetConfigPathURI : URI.t) : string :=
  let edits := jsonEdit.setProperty rawWorkspaceContents ["folders"]
                 (JS.Arr (map storedFolderToValue rewrittenFolders)) formattingOptions in
  let newContent := jsonEdit.applyEdits rawWorkspaceContents edits in
  if resources_isEqualAuthority (IStoredWorkspace.remoteAuthority storedWorkspace)
       (getRemoteAuthority targetConfigPathURI) then
    jsonEdit.applyEdits newContent
      (jsonEdit.removeProperty newContent ["remoteAuthority"] formattingOptions)
  else newContent.

Definition rewriteWorkspaceFileForNewLocation (rawWorkspaceContents : string)
    (configPathURI : URI.t) (isFromUntitledWorkspace : bool) (targetConfigPathURI : URI.t)
    : JS.Completion string :=
  storedWorkspace ← doParseStoredWorkspace configPathURI rawWorkspaceContents;
  let sourceConfigFolder := dirname configPathURI in
  let targetConfigFolder := dirname targetConfigPathURI in
  let slashForPath := useSlashForPath (IStoredWorkspace.folders storedWorkspace) in
  rewrittenFolders ←
    JS.mapM (rewriteFolder sourceConfigFolder targetConfigFolder
               isFromUntitledWorkspace slashForPath)
            (IStoredWorkspace.folders storedWorkspace);
  JS.Normal (editWorkspaceFile rawWorkspaceContents rewrittenFolders storedWorkspace
               targetConfigPathURI).

End Rewrite.

(** ** A reference implementation of the collaborators

    Small implementations of the interfaces above, used to run the functions
    on concrete inputs: URIs without percent-encoding, posix paths made of
    segments, and a JSON reader and printer for integers, strings, arrays and
    objects. *)

Module Sample.

Definition dquote : ascii := "034"%char.

Definition nonEmpty (s : string) : bool := negb (String.eqb s EmptyString).

Definition startsWith (c : ascii) (s : string) : bool :=
  match s with
  | String a _ => Ascii.eqb a c
  | EmptyString => false
  end.

(** The longest prefix with no character satisfying [stop], and the rest. *)
Fixpoint span (stop : ascii -> bool) (s : string) : string * string :=
  match s with
  | EmptyString => (EmptyString, EmptyString)
  | String a s' =>
      if stop a then (EmptyString, s)
      else let '(p, r) := span stop s' in (String a p, r)
  end.

Definition oneOf (cs : string) (a : ascii) : bool := contains a cs.

Fixpoint allChars (p : ascii -> bool) (s : string) : bool :=
  match s with
  | EmptyString => true
  | String a s' => p a && allChars p s'
  end.

Definition isDigit (a : ascii) : bool :=
  let n := nat_of_ascii a in (48 <=? n)%nat && (n <=? 57)%nat.

Definition isLetter (a : ascii) : bool :=
  let n := nat_of_ascii a in
  ((65 <=? n)%nat && (n <=? 90)%nat) || ((97 <=? n)%nat && (n <=? 122)%nat).

Definition isSchemeChar (a : ascii) : bool :=
  isLetter a || isDigit a || oneOf "_+.-" a.

(** Paths as segments. *)
Fixpoint splitOn (c : ascii) (s : string) : list string :=
  match s with
  | EmptyString => [EmptyString]
  | String a s' =>
      if Ascii.eqb a c then EmptyString :: splitOn c s'
      else match splitOn c s' with
           | h :: t => String a h :: t
           | [] => [String a EmptyString]
           end
  end.

Definition segments (p : string) : list string :=
  List.filter nonEmpty (splitOn slash p).

(** Resolves [.] and [..]; [acc] holds the segments kept, last first. *)
Fixpoint normalizeSegments (acc segs : list string) : list string :=
  match segs with
  | [] => rev acc
  | s :: segs' =>
      if String.eqb s "." then normalizeSegments acc segs'
      else if String.eqb s ".." then normalizeSegments (tail acc) segs'
      else normalizeSegments (s :: acc) segs'
  end.

Definition joinSegments (segs : list string) : string :=
  "/" ++ String.concat "/" segs.

Fixpoint dropCommon (a b : list string) : list string * list string :=
  match a, b with
  | x :: a', y :: b' => if String.eqb x y then dropCommon a' b' else (a, b)
  | _, _ => (a, b)
  end.

Definition posixRelative (from to : string) : string :=
  let '(up, down) := dropCommon (normalizeSegments [] (segments from))
                                (normalizeSegments [] (segments to)) in
  String.concat "/" (map (fun _ => "..") up ++ down).

Definition sample_parse (s : string) : option URI.t :=
  let '(pre, rest) := span (oneOf ":/?#") s in
  let '(scheme, rest) :=
    if startsWith ":" rest && nonEmpty pre then (pre, String.substring 1 (String.length rest) rest)
    else (EmptyString, s) in
  if nonEmpty scheme && negb (allChars isSchemeChar scheme) then None
  else
    let scheme := if nonEmpty scheme then scheme else "file" in
    let '(authority, rest) :=
      match rest with
      | String "/" (String "/" r) => span (oneOf "/?#") r
      | _ => (EmptyString, rest)
      end in
    let '(path, rest) := span (oneOf "?#") rest in
    let '(query, rest) :=
      if startsWith "?" rest
      then span (oneOf "#") (String.substring 1 (String.length rest) rest)
      else (EmptyString, rest) in
    let fragment := String.substring 1 (String.length rest) rest in
    let path :=
      if String.eqb scheme "file" || String.eqb scheme "http" || String.eqb scheme "https"
      then (if startsWith slash path then path else "/" ++ path)
      else path in
    if negb (nonEmpty authority) && startsWith slash path
       && startsWith slash (String.substring 1 (String.length path) path)
    then None
    else Some (URI.Build scheme authority path query fragment).

Definition sample_toString (u : URI.t) (skipEncoding : bool) : string :=
  URI.scheme u ++ ":"
  ++ (if nonEmpty (URI.authority u) || String.eqb (URI.scheme u) "file"
      then "//" ++ URI.authority u else EmptyString)
  ++ URI.path u
  ++ (if nonEmpty (URI.query u) then "?" ++ URI.query u else EmptyString)
  ++ (if nonEmpty (URI.fragment u) then "#" ++ URI.fragment u else EmptyString).

#[export] Instance uriOps : URI.Ops := {|
  URI.parse := sample_parse;
  URI.toString := sample_toString;
  URI.fsPath := URI.path
|}.

#[export] Instance extUri : IExtUri := {|
  relativePath from to :=
    if String.eqb (URI.scheme from) (URI.scheme to)
       && String.eqb (URI.authority from) (URI.authority to)
    then Some (posixRelative (URI.path from) (URI.path to))
    else None;
  resolvePath base rel :=
    URI.with_path base
      (joinSegments
         (normalizeSegments []
            (if startsWith slash rel then segments rel
             else segments (URI.path base) ++ segments rel)));
  dirname u :=
    URI.with_path u (joinSegments (removelast (segments (URI.path u))));
  basenameOrAuthority u :=
    match rev (segments (URI.path u)) with
    | s :: _ => s
    | [] => URI.authority u
    end;
  getComparisonKey u := sample_toString (URI.Build (URI.scheme u) (URI.authority u)
                                           (URI.path u) (URI.query u) EmptyString) true;
  isEqualAuthority a b := String.eqb a b
|}.

Definition upcase (a : ascii) : ascii :=
  let n := nat_of_ascii a in
  if (97 <=? n)%nat && (n <=? 122)%nat then ascii_of_nat (n - 32) else a.

#[export] Instance pathOps : PathOps := {|
  normalizeDriveLetter p :=
    match p with
    | String a (String ":" r) => String (upcase a) (String ":" r)
    | _ => p
    end;
  toSlashes p := replaceAll backslash slash p;
  isAbsolute p :=
    startsWith slash p || startsWith backslash p
    || match p with String a (String ":" _) => isLetter a | _ => false end
|}.

Definition linux : Platform :=
  {| isWindows := false; isLinux := true; isMacintosh := false |}.

Definition windows : Platform :=
  {| isWindows := true; isLinux := false; isMacintosh := false |}.

#[export] Instance remoteOps : RemoteOps := {|
  resources_isEqualAuthority a b :=
    match a, b with
    | JS.Undefined, JS.Undefined => true
    | JS.Str x, JS.Str y => String.eqb x y
    | _, _ => false
    end;
  getRemoteAuthority u :=
    if String.eqb (URI.scheme u) "vscode-remote" then JS.Str (URI.authority u)
    else JS.Undefined
|}.

(** *** JSON text *)

Definition isSpace (a : ascii) : bool :=
  let n := nat_of_ascii a in
  (n =? 32)%nat || (n =? 9)%nat || (n =? 10)%nat || (n =? 13)%nat.

Fixpoint skipSpaces (s : string) : string :=
  match s with
  | String a s' => if isSpace a then skipSpaces s' else s
  | EmptyString => s
  end.

Fixpoint readDigits (acc : Z) (s : string) : Z * string :=
  match s with
  | String a s' =>
      if isDigit a then readDigits (10 * acc + Z.of_nat (nat_of_ascii a - 48)) s'
      else (acc, s)
  | EmptyString => (acc, s)
  end.

(** A string literal after its opening quote: its characters and the text
    after the closing quote. *)
Definition readString (s : string) : string * string :=
  let '(chars, rest) := span (Ascii.eqb dquote) s in
  (chars, String.substring 1 (String.length rest) rest).

Definition dropPrefix (n : nat) (s : string) : string :=
  String.substring n (String.length s) s.

(** What the reader is in the middle of. *)
Inductive Pending : Type :=
| PValue
| PItems (acc : list JS.Value)
| PMembers (acc : list (string * JS.Value)).

(** A recursive descent reader; commas are separators that may also trail. *)
Fixpoint read (fuel : nat) (p : Pending) (s : string) : option (JS.Value * string) :=
  match fuel with
  | O => None
  | S fuel =>
      let s := skipSpaces s in
      match p with
      | PValue =>
          match s with
          | String "[" r => read fuel (PItems []) r
          | String "{" r => read fuel (PMembers []) r
          | String "-" r =>
              let '(n, r') := readDigits 0 r in Some (JS.Num (- n), r')
          | String a r =>
              if Ascii.eqb a dquote then
                let '(chars, r') := readString r in Some (JS.Str chars, r')
              else if isDigit a then
                let '(n, r') := readDigits 0 s in Some (JS.Num n, r')
              else if String.prefix "null" s then Some (JS.Null, dropPrefix 4 s)
              else if String.prefix "true" s then Some (JS.Bool true, dropPrefix 4 s)
              else if String.prefix "false" s then Some (JS.Bool false, dropPrefix 5 s)
              else None
          | EmptyString => None
          end
      | PItems acc =>
          match s with
          | String "]" r => Some (JS.Arr (rev acc), r)
          | String "," r => read fuel (PItems acc) r
          | _ =>
              match read fuel PValue s with
              | Some (v, r) => read fuel (PItems (v :: acc)) r
              | None => None
              end
          end
      | PMembers acc =>
          match s with
          | String "}" r => Some (JS.Obj (rev acc), r)
          | String "," r => read fuel (PMembers acc) r
          | String a r =>
              if Ascii.eqb a dquote then
                let '(key, r') := readString r in
                match skipSpaces r' with
                | String ":" r'' =>
                    match read fuel PValue r'' with
                    | Some (v, r3) => read fuel (PMembers ((key, v) :: acc)) r3
                    | None => None
                    end
                | _ => None
                end
              else None
          | EmptyString => None
          end
      end
  end.

Definition sample_json_parse (text : string) : JS.Value :=
  match read (S (String.length text)) PValue text with
  | Some (v, _) => v
  | None => JS.Undefined
  end.

Definition quoted (s : string) : string :=
  String dquote s ++ String dquote EmptyString.

Fixpoint repeatString (n : nat) (s : string) : string :=
  match n with
  | O => EmptyString
  | S n' => s ++ repeatString n' s
  end.

Definition indentUnit (fo : FormattingOptions) : string :=
  if insertSpaces fo then repeatString (tabSize fo) " " else String "009" EmptyString.

(** Prints a value at nesting depth [depth]; properties whose value is
    [undefined] are left out, as [JSON.stringify] does. *)
Fixpoint print (fo : FormattingOptions) (depth : nat) (v : JS.Value) : string :=
  let inner := eol fo ++ repeatString (S depth) (indentUnit fo) in
  let outer := eol fo ++ repeatString depth (indentUnit fo) in
  match v with
  | JS.Undefined | JS.Null => "null"
  | JS.Bool b => if b then "true" else "false"
  | JS.Num n => pretty n
  | JS.Str s => quoted s
  | JS.Arr [] => "[]"
  | JS.Arr items =>
      "[" ++ inner
      ++ String.concat ("," ++ inner) (map (print fo (S depth)) items)
      ++ outer ++ "]"
  | JS.Obj props =>
      "{" ++
      (fix members (ps : list (string * JS.Value)) (first : bool) : string :=
         match ps with
         | [] => (if first then EmptyString else outer) ++ "}"
         | (k, JS.Undefined) :: ps' => members ps' first
         | (k, x) :: ps' =>
             (if first then EmptyString else ",") ++ inner
             ++ quoted k ++ ": " ++ print fo (S depth) x ++ members ps' false
         end) props true
  end.

Definition sample_print (fo : FormattingOptions) (v : JS.Value) : string :=
  print fo 0 v.

Fixpoint setAssoc (k : string) (v : JS.Value) (ps : list (string * JS.Value))
    : list (string * JS.Value) :=
  match ps with
  | [] => [(k, v)]
  | (k', x) :: ps' => if String.eqb k k' then (k, v) :: ps' else (k', x) :: setAssoc k v ps'
  end.

(** Sets the property at a path of keys; a missing or non-object parent
    becomes an object. *)
Fixpoint setAt (path : list string) (v : JS.Value) (doc : JS.Value) : JS.Value :=
  match path with
  | [] => v
  | k :: path' =>
      let ps := match doc with JS.Obj ps => ps | _ => [] end in
      JS.Obj (setAssoc k (setAt path' v (JS.assoc k ps)) ps)
  end.

Record TextEdit : Type := {
  offset : nat;
  length_ : nat;
  content : string
}.

Definition applyEdit (text : string) (e : TextEdit) : string :=
  String.substring 0 (offset e) text
  ++ content e
  ++ dropPrefix (offset e + length_ e) text.

(** An editor that replaces the whole document by the print of the changed
    value. *)
Definition wholeDocument (text : string) (fo : FormattingOptions) (v : JS.Value)
    : list TextEdit :=
  [{| offset := 0; length_ := String.length text; content := sample_print fo v |}].

#[export] Instance jsonOps : json.Ops := {| json.parse := sample_json_parse |}.

#[export] Instance jsonEditOps : jsonEdit.Ops := {|
  jsonEdit.Edit := TextEdit;
  jsonEdit.setProperty text path v fo :=
    wholeDocument text fo (setAt path v (sample_json_parse text));
  jsonEdit.removeProperty text path fo :=
    wholeDocument text fo (setAt path JS.Undefined (sample_json_parse text));
  jsonEdit.applyEdits text edits := fold_left applyEdit edits text
|}.

End Sample.

(** ** Statements about the model *)

Section Statements.
Context `{PF : Platform} `{UO : URI.Ops} `{PO : PathOps} `{extUri : IExtUri}.

(** What the absolute branch of [getStoredWorkspaceFolder] stores is what the
    URI gives: the file system path, with the Windows treatment, or the path
    component. *)
Definition absoluteFormNotEmpty (folderURI : URI.t) : Prop :=
  if String.eqb (URI.scheme folderURI) Schemas.file then
    URI.fsPath folderURI ≠ EmptyString
    ∧ normalizeDriveLetter (URI.fsPath folderURI) ≠ EmptyString
    ∧ toSlashes (normalizeDriveLetter (URI.fsPath folderURI)) ≠ EmptyString
  else URI.path folderURI ≠ EmptyString.

(** The configured folders that have a location, with it, in input order. *)
Definition resolvedFolders (relativeTo : URI.t) (configuredFolders : list JS.Value)
    : list (URI.t * JS.Value) :=
  omap (λ folder, (λ uri, (uri, folder)) <$> configuredFolderUri relativeTo folder)
       configuredFolders.

Definition comparisonKeyOf (resolved : URI.t * JS.Value) : string :=
  getComparisonKey resolved.1.

(** Deduplication as the specification words it: an element is kept when no
    element before it ([earlier], then the elements passed) has its
    comparison key. *)
Fixpoint keepFirstFrom (earlier l : list (URI.t * JS.Value)) : list (URI.t * JS.Value) :=
  match l with
  | [] => []
  | x :: l' =>
      (if decide (comparisonKeyOf x ∈ comparisonKeyOf <$> earlier) then [] else [x])
      ++ keepFirstFrom (earlier ++ [x]) l'
  end.

Definition keepFirst (l : list (URI.t * JS.Value)) : list (URI.t * JS.Value) :=
  keepFirstFrom [] l.

Definition locationAndRaw (f : WorkspaceFolder.t) : URI.t * JS.Value :=
  (WorkspaceFolder.uri f, WorkspaceFolder.raw f).

(** The name of a workspace folder: the stored one, or the default. *)
Definition nameOrDefault (f : WorkspaceFolder.t) : JS.Value :=
  JS.or (JS.get "name" (WorkspaceFolder.raw f))
        (JS.Str (basenameOrAuthority (WorkspaceFolder.uri f))).

(** The persisted recently-opened data of the current schema. *)
Definition currentData (entries : list JS.Value) : JS.Value :=
  JS.Obj [("entries", JS.Arr entries)].

(** The persisted recently-opened data of the legacy schema. *)
Definition legacyData (workspaces3 workspaceLabels files2 fileLabels : JS.Value) : JS.Value :=
  JS.Obj [("workspaces3", workspaces3); ("workspaceLabels", workspaceLabels);
          ("files2", files2); ("fileLabels", fileLabels)].

(** An array of labels without its element of index [n]. *)
Definition removeAt (n : nat) (labels : JS.Value) : JS.Value :=
  match labels with
  | JS.Arr items => JS.Arr (take n items ++ drop (S n) items)
  | _ => labels
  end.

Definition uriOfWorkspaceOrFolder (recent : IRecentWorkspaceOrFolder) : URI.t :=
  match recent with
  | IRecentWorkspace _ _ workspace => IWorkspaceIdentifier.configPath workspace
  | IRecentFolder _ _ folderUri => folderUri
  end.

Definition uriOfFile (recent : IRecentFile) : URI.t :=
  match recent with RecentFile _ _ fileUri => fileUri end.

(** A persisted entry for a workspace, without label. *)
Definition workspaceEntry (id configPath : string) : JS.Value :=
  JS.Obj [("workspace", JS.Obj [("id", JS.Str id); ("configPath", JS.Str configPath)])].

(** A URI that [URI.parse] gives back from its [toString()]. *)
Definition roundTrips (u : URI.t) : Prop :=
  URI.parse (URI.toString u false) = Some u.

End Statements.

(** The stored folder shapes as the interfaces [IRawFileWorkspaceFolder] and
    [IRawUriWorkspaceFolder] declare them: a string [path] or [uri], and a
    [name] that is a string when it is there. *)
Definition isDeclaredStoredWorkspaceFolder (obj : JS.Value) : bool :=
  (JS.isString (JS.get "path" obj) || JS.isString (JS.get "uri" obj))
  && match JS.get "name" obj with
     | JS.Undefined | JS.Str _ => true
     | _ => false
     end.

Definition storedFolderName (f : IStoredWorkspaceFolder) : JS.Value :=
  match f with
  | IRawFileWorkspaceFolder name _ => name
  | IRawUriWorkspaceFolder name _ => name
  end.

(** A call of [jsonEdit.setProperty] or [jsonEdit.removeProperty] whose edits
    are applied to the text it was computed from. *)
Inductive EditRequest : Type :=
| SetProperty (path : list string) (value : JS.Value) (options : FormattingOptions)
| RemoveProperty (path : list string) (options : FormattingOptions).

Definition requestPath (request : EditRequest) : list string :=
  match request with
  | SetProperty path _ _ => path
  | RemoveProperty path _ => path
  end.

Definition requestOptions (request : EditRequest) : FormattingOptions :=
  match request with
  | SetProperty _ _ options => options
  | RemoveProperty _ options => options
  end.

Section EditRequests.
Context `{PF : Platform} `{JE : jsonEdit.Ops} `{RO : RemoteOps}.

Definition applyRequest (text : string) (request : EditRequest) : string :=
  match request with
  | SetProperty path value options =>
      jsonEdit.applyEdits text (jsonEdit.setProperty text path value options)
  | RemoveProperty path options =>
      jsonEdit.applyEdits text (jsonEdit.removeProperty text path options)
  end.

(** The edits of [rewriteWorkspaceFileForNewLocation], in order. *)
Definition editRequests (rewrittenFolders : list IStoredWorkspaceFolder)
    (storedWorkspace : IStoredWorkspace.t) (targetConfigPathURI : URI.t)
    : list EditRequest :=
  SetProperty ["folders"] (JS.Arr (map storedFolderToValue rewrittenFolders))
    formattingOptions
  :: (if resources_isEqualAuthority (IStoredWorkspace.remoteAuthority storedWorkspace)
           (getRemoteAuthority targetConfigPathURI)
      then [RemoveProperty ["remoteAuthority"] formattingOptions]
      else []).

End EditRequests.

(** ** Concrete inputs *)

Module Examples.
Import Sample.

Definition fileURI (path : string) : URI.t :=
  URI.Build "file" EmptyString path EmptyString EmptyString.

Definition remoteURI (authority path : string) : URI.t :=
  URI.Build "vscode-remote" authority path EmptyString EmptyString.

(** Three persisted workspaces; [URI.parse] rejects the scheme of the second. *)
Definition threeEntries : list JS.Value :=
  [workspaceEntry "w1" "file:///a/one.code-workspace";
   workspaceEntry "w2" "not a scheme://two";
   workspaceEntry "w3" "file:///c/three.code-workspace"].

(** One workspace, one folder and one file, each with a label. *)
Definition recentlyOpened : IRecentlyOpened :=
  {| workspaces :=
       [IRecentWorkspace (JS.Str "One") JS.Undefined
          (IWorkspaceIdentifier.Build "w1" (fileURI "/a/one.code-workspace"));
        IRecentFolder (JS.Str "Sources") (JS.Str "host") (remoteURI "host" "/srv/src")];
     files := [RecentFile (JS.Str "Notes") JS.Undefined (fileURI "/a/notes.txt")] |}.

(** An entry that is a workspace and also has a [folderUri]. *)
Definition workspaceWithFolderUri : JS.Value :=
  JS.Obj [("workspace", JS.Obj [("id", JS.Str "w");
                                ("configPath", JS.Str "file:///a/w.code-workspace")]);
          ("folderUri", JS.Str "file:///f")].

(** An entry with a [workspace] property that has no [configPath], and a
    [folderUri]. *)
Definition workspaceKeyWithFolderUri : JS.Value :=
  JS.Obj [("workspace", JS.Obj [("id", JS.Str "w")]);
          ("folderUri", JS.Str "file:///f")].

(** [{ path: a, name: 0 }]: its name is not a string. *)
Definition folderNamedZero : JS.Value :=
  JS.Obj [("path", JS.Str "a"); ("name", JS.Num 0)].

(** A workspace file whose [folders] are: the number 5, [folderNamedZero],
    an object whose path is a number, and the folder [lib/b]; it also has
    settings. *)
Definition workspaceFile : string :=
  "{" ++ quoted "folders" ++ ": [5, {" ++ quoted "path" ++ ": " ++ quoted "a" ++ ", "
  ++ quoted "name" ++ ": 0}, {" ++ quoted "path" ++ ": 7}, {" ++ quoted "path" ++ ": "
  ++ quoted "lib/b" ++ "}], " ++ quoted "settings" ++ ": {" ++ quoted "tabs" ++ ": 2}}".

Definition workspaceFileFolders : list JS.Value :=
  [JS.Num 5; folderNamedZero; JS.Obj [("path", JS.Num 7)]; JS.Obj [("path", JS.Str "lib/b")]].

(** What [workspaceFile] is rewritten to for [/ws/sub], as a value. *)
Definition rewrittenWorkspace : JS.Value :=
  JS.Obj [("folders",
           JS.Arr [JS.Obj [("name", JS.Num 0); ("path", JS.Str "../a")];
                   JS.Obj [("path", JS.Str "../lib/b")]]);
          ("settings", JS.Obj [("tabs", JS.Num 2)])].

(** A workspace file on a remote host with one folder: the root of the host,
    in the uri form and without a path. *)
Definition remoteWorkspaceFile : string :=
  "{" ++ quoted "folders" ++ ": [{" ++ quoted "uri" ++ ": "
  ++ quoted "vscode-remote://host" ++ "}]}".

End Examples.

(** ** Workspace identifiers and the workspace object

    The functions and classes of
    [vs/platform/workspace/common/workspace.ts]. *)

Module ISingleFolderWorkspaceIdentifier.
Record t : Type := Build {
  id : string;
  uri : URI.t
}.
End ISingleFolderWorkspaceIdentifier.

(** [IWorkspace]; a [configuration] that is [undefined] or [null] is [None]. *)
Module IWorkspace.
Record t : Type := Build {
  id : string;
  folders : list WorkspaceFolder.t;
  transient : option bool;
  configuration : option URI.t
}.
End IWorkspace.

(** [IWorkspaceIdentifier | ISingleFolderWorkspaceIdentifier] *)
Inductive WorkspaceOrFolderIdentifier : Type :=
| MultiRootIdentifier (identifier : IWorkspaceIdentifier.t)
| SingleFolderIdentifier (identifier : ISingleFolderWorkspaceIdentifier.t).

(** [None] is [undefined]: the empty workspace. *)
Definition toWorkspaceIdentifier (workspace : IWorkspace.t)
    : option WorkspaceOrFolderIdentifier :=
  match IWorkspace.configuration workspace with
  | Some configuration =>
      Some (MultiRootIdentifier
              (IWorkspaceIdentifier.Build (IWorkspace.id workspace) configuration))
  | None =>
      match IWorkspace.folders workspace with
      | [folder] =>
          Some (SingleFolderIdentifier
                  (ISingleFolderWorkspaceIdentifier.Build (IWorkspace.id workspace)
                     (WorkspaceFolder.uri folder)))
      | _ => None
      end
  end.

(** [URI.revive] of [vs/base/common/uri], on a value that is not falsy;
    [None]: it throws. *)
Class UriRevive : Type := {
  URI_revive : JS.Value -> option URI.t
}.

(** The three object literals [reviveIdentifier] returns; [id] is copied as
    it is. *)
Inductive RevivedIdentifier : Type :=
| RevivedSingleFolder (id : JS.Value) (uri : URI.t)
| RevivedWorkspace (id : JS.Value) (configPath : URI.t)
| RevivedEmpty (id : JS.Value).

Section ReviveIdentifier.
Context `{UR : UriRevive}.

Definition revive_ (data : JS.Value) : JS.Completion URI.t :=
  match URI_revive data with
  | Some u => JS.Normal u
  | None => JS.Throw JS.TypeError
  end.

(** [identifier] is the serialized identifier, or [undefined]; the result
    [None] is [undefined]. *)
Definition reviveIdentifier (identifier : JS.Value)
    : JS.Completion (option RevivedIdentifier) :=
  if JS.truthy (JS.get "uri" identifier) then
    uri ← revive_ (JS.get "uri" identifier);
    JS.Normal (Some (RevivedSingleFolder (JS.get "id" identifier) uri))
  else if JS.truthy (JS.get "configPath" identifier) then
    configPath ← revive_ (JS.get "configPath" identifier);
    JS.Normal (Some (RevivedWorkspace (JS.get "id" identifier) configPath))
  else if JS.truthy (JS.get "id" identifier) then
    JS.Normal (Some (RevivedEmpty (JS.get "id" identifier)))
  else JS.Normal None.

End ReviveIdentifier.

(** [candidate && typeof candidate === 'object' && typeof candidate.id ===
    'string' && Array.isArray(candidate.folders)] *)
Definition isWorkspace (thing : JS.Value) : bool :=
  JS.truthy thing && JS.isObject thing && JS.isString (JS.get "id" thing)
  && JS.isArray (JS.get "folders" thing).

(** [TernarySearchTree.forUris] of [vs/base/common/map], with the two
    methods the workspace calls; [set] gives the tree after the call. *)
Module TernarySearchTree.
Class Ops : Type := {
  t : Type;
  forUris : (URI.t -> bool) -> t;
  set : URI.t -> WorkspaceFolder.t -> t -> t;
  findSubstr : URI.t -> t -> option WorkspaceFolder.t
}.
End TernarySearchTree.

(** The class [Workspace]: its fields, and each method as a function of the
    object before the call that gives the object after it. *)
Module Workspace.
Section Methods.
Context `{TST : TernarySearchTree.Ops}.

Record t : Type := Build {
  _id : string;
  _folders : list WorkspaceFolder.t;
  _transient : bool;
  _configuration : option URI.t;
  _ignorePathCasing : URI.t -> bool;
  _foldersMap : TernarySearchTree.t
}.

Definition updateFoldersMap (this : t) : t :=
  Build (_id this) (_folders this) (_transient this) (_configuration this)
    (_ignorePathCasing this)
    (fold_left (fun map folder => TernarySearchTree.set (WorkspaceFolder.uri folder) folder map)
       (_folders this) (TernarySearchTree.forUris (_ignorePathCasing this))).

(** [set folders(folders)] *)
Definition set_folders (folders : list WorkspaceFolder.t) (this : t) : t :=
  updateFoldersMap
    (Build (_id this) folders (_transient this) (_configuration this)
       (_ignorePathCasing this) (_foldersMap this)).

(** The constructor: the fields are initialized, then [this.folders] is
    set. *)
Definition new (id : string) (folders : list WorkspaceFolder.t) (transient : bool)
    (configuration : option URI.t) (ignorePathCasing : URI.t -> bool) : t :=
  set_folders folders
    (Build id [] transient configuration ignorePathCasing
       (TernarySearchTree.forUris ignorePathCasing)).

Definition update (workspace : t) (this : t) : t :=
  set_folders (_folders workspace)
    (Build (_id workspace) (_folders this) (_transient workspace)
       (_configuration workspace) (_ignorePathCasing workspace) (_foldersMap this)).

(** [set configuration(configuration)] *)
Definition set_configuration (configuration : option URI.t) (this : t) : t :=
  Build (_id this) (_folders this) (_transient this) configuration
    (_ignorePathCasing this) (_foldersMap this).

(** [resource] is [None] when it is falsy. [resource.with] is given the
    components the resource has. *)
Definition getFolder (resource : option URI.t) (this : t) : option WorkspaceFolder.t :=
  match resource with
  | None => None
  | Some resource =>
      TernarySearchTree.findSubstr
        (URI.Build (URI.scheme resource) (URI.authority resource) (URI.path resource)
           (URI.query resource) (URI.fragment resource))
        (_foldersMap this)
  end.

Definition toJSON (this : t) : IWorkspace.t :=
  IWorkspace.Build (_id this) (_folders this) (Some (_transient this)) (_configuration this).

End Methods.
End Workspace.

(** [basenameOrAuthority] as [workspace.ts] imports it from
    [vs/base/common/resources]. *)
Class ResourcesOps : Type := {
  resources_basenameOrAuthority : URI.t -> string
}.

Section ToWorkspaceFolder.
Context `{UO : URI.Ops} `{RS : ResourcesOps}.

Definition toWorkspaceFolder (resource : URI.t) : WorkspaceFolder.t :=
  WorkspaceFolder.Build resource (JS.Str (resources_basenameOrAuthority resource)) 0
    (JS.Obj [("uri", JS.Str (URI.toString resource false))]).

End ToWorkspaceFolder.

(** ** Statements about the rest of the model *)

(** A call of a method of [Workspace] that changes the object. *)
Inductive WorkspaceCall `{TST : TernarySearchTree.Ops} : Type :=
| CallUpdate (workspace : Workspace.t)
| CallSetFolders (folders : list WorkspaceFolder.t)
| CallSetConfiguration (configuration : option URI.t).

Section MoreStatements.
Context `{PF : Platform} `{UO : URI.Ops} `{PO : PathOps} `{extUri : IExtUri}
        `{TST : TernarySearchTree.Ops}.

Definition call (this : Workspace.t) (c : WorkspaceCall) : Workspace.t :=
  match c with
  | CallUpdate workspace => Workspace.update workspace this
  | CallSetFolders folders => Workspace.set_folders folders this
  | CallSetConfiguration configuration => Workspace.set_configuration configuration this
  end.

(** The index of a list of folders: every folder set under its location, in
    order, in a new tree. *)
Definition indexOf (ignorePathCasing : URI.t -> bool) (folders : list WorkspaceFolder.t)
    : TernarySearchTree.t :=
  fold_left (fun map folder => TernarySearchTree.set (WorkspaceFolder.uri folder) folder map)
    folders (TernarySearchTree.forUris ignorePathCasing).

(** The workspace folder of a resolved folder at position [i]. *)
Definition folderAt (i : nat) (resolved : URI.t * JS.Value) : WorkspaceFolder.t :=
  WorkspaceFolder.Build resolved.1
    (JS.or (JS.get "name" resolved.2) (JS.Str (basenameOrAuthority resolved.1)))
    i resolved.2.

Definition startsWithSlash (s : string) : Prop := ∃ rest, s = String "/" rest.

Definition labelOfWorkspaceOrFolder (recent : IRecentWorkspaceOrFolder) : JS.Value :=
  match recent with
  | IRecentWorkspace label _ _ => label
  | IRecentFolder label _ _ => label
  end.

Definition remoteAuthorityOfWorkspaceOrFolder (recent : IRecentWorkspaceOrFolder)
    : JS.Value :=
  match recent with
  | IRecentWorkspace _ remoteAuthority _ => remoteAuthority
  | IRecentFolder _ remoteAuthority _ => remoteAuthority
  end.

Definition labelOfFile (recent : IRecentFile) : JS.Value :=
  match recent with RecentFile label _ _ => label end.

Definition remoteAuthorityOfFile (recent : IRecentFile) : JS.Value :=
  match recent with RecentFile _ remoteAuthority _ => remoteAuthority end.

(** The number of entries restored. *)
Definition restoredCount (r : IRecentlyOpened) : nat :=
  (length (workspaces r) + length (files r))%nat.

(** The persisted entries that [restoreRecentlyOpened] visits, in the order
    of the visit. *)
Definition visitedEntries (data : JS.Value) : list JS.Value :=
  let items v := match v with JS.Arr items => items | _ => [] end in
  if JS.truthy data then
    match JS.get "entries" data with
    | JS.Arr entries => entries
    | _ => items (JS.get "workspaces3" data) ++ items (JS.get "files2" data)
    end
  else [].

(** A label as the legacy schema gives it: absent or truthy. *)
Definition legacyLabelled (label remoteAuthority : JS.Value) : Prop :=
  remoteAuthority = JS.Undefined ∧ (label = JS.Undefined ∨ JS.truthy label = true).

End MoreStatements.

(** ** Statements about the recently opened list and the identifiers *)

Definition appendRecents (a b : IRecentlyOpened) : IRecentlyOpened :=
  {| workspaces := workspaces a ++ workspaces b; files := files a ++ files b |}.

(** What two runs of [restoreGracefully] give, one after the other. *)
Definition appendRestored (a b : Restored) : Restored :=
  {| recents := appendRecents (recents a) (recents b);
     warnings := warnings a ++ warnings b |}.

(** A callback that adds to the result it is given, whatever that is. *)
Definition adds (func : JS.Value → nat → IRecentlyOpened → JS.Completion IRecentlyOpened)
    : Prop :=
  ∀ e j r, func e j r = match func e j emptyRecents with
                        | JS.Normal d => JS.Normal (appendRecents r d)
                        | JS.Throw err => JS.Throw err
                        end.

(** An identifier as it is sent to another process: [id], and the URI as the
    value [components] makes of it; [undefined] for none. *)
Definition serializedIdentifier (components : URI.t -> JS.Value)
    (identifier : option WorkspaceOrFolderIdentifier) : JS.Value :=
  match identifier with
  | Some (MultiRootIdentifier identifier) =>
      JS.Obj [("id", JS.Str (IWorkspaceIdentifier.id identifier));
              ("configPath", components (IWorkspaceIdentifier.configPath identifier))]
  | Some (SingleFolderIdentifier identifier) =>
      JS.Obj [("id", JS.Str (ISingleFolderWorkspaceIdentifier.id identifier));
              ("uri", components (ISingleFolderWorkspaceIdentifier.uri identifier))]
  | None => JS.Undefined
  end.

(** The revived identifier that stands for an identifier. *)
Definition revivedOf (identifier : option WorkspaceOrFolderIdentifier)
    : option RevivedIdentifier :=
  match identifier with
  | Some (MultiRootIdentifier identifier) =>
      Some (RevivedWorkspace (JS.Str (IWorkspaceIdentifier.id identifier))
              (IWorkspaceIdentifier.configPath identifier))
  | Some (SingleFolderIdentifier identifier) =>
      Some (RevivedSingleFolder (JS.Str (ISingleFolderWorkspaceIdentifier.id identifier))
              (ISingleFolderWorkspaceIdentifier.uri identifier))
  | None => None
  end.

Definition revivedId (identifier : RevivedIdentifier) : JS.Value :=
  match identifier with
  | RevivedSingleFolder id _ => id
  | RevivedWorkspace id _ => id
  | RevivedEmpty id => id
  end.

(** More of the reference implementation: [UriComponents] as an object of
    five strings, revived when [scheme] and [path] are strings; and the base
    name of [vs/base/common/resources], which is the one of [extUri]. *)
Module SampleMore.
Import Sample.

Definition components (u : URI.t) : JS.Value :=
  JS.Obj [("scheme", JS.Str (URI.scheme u)); ("authority", JS.Str (URI.authority u));
          ("path", JS.Str (URI.path u)); ("query", JS.Str (URI.query u));
          ("fragment", JS.Str (URI.fragment u))].

Definition sample_revive (data : JS.Value) : option URI.t :=
  if JS.isString (JS.get "scheme" data) && JS.isString (JS.get "path" data) then
    Some (URI.Build (JS.str (JS.get "scheme" data)) (JS.str (JS.get "authority" data))
            (JS.str (JS.get "path" data)) (JS.str (JS.get "query" data))
            (JS.str (JS.get "fragment" data)))
  else None.

#[export] Instance uriRevive : UriRevive := {| URI_revive := sample_revive |}.

#[export] Instance resourcesOps : ResourcesOps := {|
  resources_basenameOrAuthority := basenameOrAuthority
|}.

End SampleMore.

(** What one call of a callback of [restoreGracefully] leaves behind: the
    result the callback returned, or the warning logged for the entry when it
    threw. *)
Definition outcome (entry : JS.Value) (c : JS.Completion IRecentlyOpened) : Restored :=
  match c with
  | JS.Normal r => {| recents := r; warnings := [] |}
  | JS.Throw e => {| recents := emptyRecents; warnings := [(entry, e)] |}
  end.

Definition concatRestored (l : list Restored) : Restored :=
  foldr appendRestored {| recents := emptyRecents; warnings := [] |} l.

(** The elements of an array; none for any other value. *)
Definition itemsOf (v : JS.Value) : list JS.Value :=
  match v with JS.Arr items => items | _ => [] end.

(** ** The contract of the edit utility *)

(** [text'] is [text] but for the characters of [span], an offset and a
    length: what stands before the span and what stands after it is kept,
    character by character. *)
Definition replacesOnly (span : nat * nat) (text text' : string) : Prop :=
  ∃ before old new after : string,
    text = (before ++ old ++ after)%string
    ∧ text' = (before ++ new ++ after)%string
    ∧ String.length before = span.1
    ∧ String.length old = span.2.

(** Modelled from the spec: the structural-edit utility
    ([vs/base/common/jsonEdit], which is not among the sources), of which the
    specification says that it makes "a minimal structural edit that replaces
    only the [folders] property of [rawText], preserving all other content,
    comments, and formatting". The edits that [setProperty] or
    [removeProperty] compute for a text and a path, applied to that text,
    replace the characters of one span of it, the one the property at the path
    occupies ([region]; for a property that is missing, the place where one is
    put, of length 0), and keep every character before and after the span. *)
Definition minimalEdits `{JE : jsonEdit.Ops} (region : string → list string → nat * nat)
    : Prop :=
  ∀ text path options,
    (∀ value,
       replacesOnly (region text path) text
         (jsonEdit.applyEdits text (jsonEdit.setProperty text path value options)))
    ∧ replacesOnly (region text path) text
        (jsonEdit.applyEdits text (jsonEdit.removeProperty text path options)).

(** An editor that edits in place, for texts with comments: a comment is
    read as blanks, the member of the top-level object with the key asked for
    is located by reading the members before it, and the one edit replaces the
    characters of that member, from its key to the comma after its value. *)
Module SampleInPlace.
Import Sample.

Inductive Where : Type := InCode | InString | InLineComment | InBlockComment.

(** The text with every character of a comment replaced by a space; offsets
    are kept. *)
Fixpoint blank (w : Where) (s : string) : string :=
  match s with
  | EmptyString => EmptyString
  | String a s' =>
      match w with
      | InCode =>
          if Ascii.eqb a dquote then String a (blank InString s')
          else if Ascii.eqb a slash then
            match s' with
            | String "/" s'' => String " " (String " " (blank InLineComment s''))
            | String "*" s'' => String " " (String " " (blank InBlockComment s''))
            | _ => String a (blank InCode s')
            end
          else String a (blank InCode s')
      | InString => String a (blank (if Ascii.eqb a dquote then InCode else InString) s')
      | InLineComment =>
          if (nat_of_ascii a =? 10)%nat then String a (blank InCode s')
          else String " " (blank InLineComment s')
      | InBlockComment =>
          if Ascii.eqb a "*" then
            match s' with
            | String "/" s'' => String " " (String " " (blank InCode s''))
            | _ => String " " (blank InBlockComment s')
            end
          else String " " (blank InBlockComment s')
      end
  end.

Definition parseWithComments (text : string) : JS.Value :=
  sample_json_parse (blank InCode text).

(** In the text of an object after its opening brace: the text from the key
    of the member [key] on, and the text after its value and the comma that
    follows it. *)
Fixpoint findMember (fuel : nat) (key : string) (s : string) : option (string * string) :=
  match fuel with
  | O => None
  | S fuel =>
      let s := skipSpaces s in
      match s with
      | String "," r => findMember fuel key r
      | String a r =>
          if Ascii.eqb a dquote then
            let '(k, r') := readString r in
            match skipSpaces r' with
            | String ":" r'' =>
                match read (S (String.length r'')) PValue r'' with
                | Some (_, r3) =>
                    if String.eqb k key then
                      Some (s, match skipSpaces r3 with
                               | String "," r4 => r4
                               | _ => r3
                               end)
                    else findMember fuel key r3
                | None => None
                end
            | _ => None
            end
          else None
      | EmptyString => None
      end
  end.

Definition memberSpan (text key : string) : option (nat * nat) :=
  match skipSpaces (blank InCode text) with
  | String "{" r =>
      match findMember (S (String.length r)) key r with
      | Some (from, to) =>
          Some ((String.length text - String.length from)%nat,
                (String.length from - String.length to)%nat)
      | None => None
      end
  | _ => None
  end.

(** Where a missing member is put: after the opening brace. *)
Definition insertionPoint (text : string) : nat :=
  match skipSpaces (blank InCode text) with
  | String "{" r => (String.length text - String.length r)%nat
  | _ => 0%nat
  end.

Definition clamp (text : string) (span : nat * nat) : nat * nat :=
  let offset := Nat.min span.1 (String.length text) in
  (offset, Nat.min span.2 (String.length text - offset)).

Definition region (text : string) (path : list string) : nat * nat :=
  clamp text
    match path with
    | [key] =>
        match memberSpan text key with
        | Some span => span
        | None => (insertionPoint text, 0%nat)
        end
    | _ => (0%nat, String.length text)
    end.

Fixpoint endsWithComma (s : string) : bool :=
  match s with
  | EmptyString => false
  | String a EmptyString => Ascii.eqb a ","
  | String _ s' => endsWithComma s'
  end.

Definition memberText (fo : FormattingOptions) (key : string) (v : JS.Value) : string :=
  quoted key ++ ": " ++ print fo 1 v.

Definition setMember (text : string) (path : list string) (v : JS.Value)
    (fo : FormattingOptions) : string :=
  let span := region text path in
  match path with
  | [key] =>
      match memberSpan text key with
      | Some _ =>
          memberText fo key v
          ++ (if endsWithComma (String.substring span.1 span.2 text) then "," else EmptyString)
      | None => eol fo ++ indentUnit fo ++ memberText fo key v ++ ","
      end
  | _ => sample_print fo (setAt path v (parseWithComments text))
  end.

Definition removeMember (text : string) (path : list string) (fo : FormattingOptions)
    : string :=
  match path with
  | [_] => EmptyString
  | _ => sample_print fo (setAt path JS.Undefined (parseWithComments text))
  end.

Definition editAt (span : nat * nat) (content : string) : list TextEdit :=
  [{| offset := span.1; length_ := span.2; content := content |}].

#[export] Instance jsonOps : json.Ops := {| json.parse := parseWithComments |}.

#[export] Instance jsonEditOps : jsonEdit.Ops := {|
  jsonEdit.Edit := TextEdit;
  jsonEdit.setProperty text path v fo := editAt (region text path) (setMember text path v fo);
  jsonEdit.removeProperty text path fo := editAt (region text path) (removeMember text path fo);
  jsonEdit.applyEdits text edits := fold_left applyEdit edits text
|}.

(** A workspace file on a remote host, with comments and spacing of its
    own, a folder in the uri form and the [remoteAuthority] of the host. *)
Definition commentedWorkspaceFile : string :=
  "{ /* roots */ " ++ quoted "folders" ++ " : [ {" ++ quoted "uri" ++ ": "
  ++ quoted "vscode-remote://host/ws/a" ++ "} ],  " ++ quoted "remoteAuthority" ++ ": "
  ++ quoted "host" ++ ", // kept" ++ LF ++ "   " ++ quoted "settings" ++ ":{"
  ++ quoted "tabs" ++ ":2} /* end */ }".

End SampleInPlace.

(** * Properties *)

Local Open Scope nat_scope.
Local Open Scope list_scope.

(** ** Strings *)

Lemma replaceAll_length c d s : String.length (replaceAll c d s) = String.length s.
Proof. induction s as [|a s IH]; simpl; [reflexivity | now rewrite IH]. Qed.

Lemma replaceAll_removes c d s : c ≠ d → contains c (replaceAll c d s) = false.
Proof.
  intros Hcd. induction s as [|a s IH]; simpl; [reflexivity|].
  rewrite IH, orb_false_r.
  destruct (Ascii.eqb a c) eqn:Hac.
  - apply Ascii.eqb_neq. congruence.
  - exact Hac.
Qed.

Lemma replaceAll_get c d s i :
  String.get i (replaceAll c d s)
  = (λ a, if Ascii.eqb a c then d else a) <$> String.get i s.
Proof.
  revert i. induction s as [|a s IH]; intros [|i]; simpl; try reflexivity.
  apply IH.
Qed.

Lemma length_zero_empty s : (String.length s =? 0)%nat = true ↔ s = EmptyString.
Proof.
  destruct s; simpl; split; intros; try reflexivity; discriminate.
Qed.

Lemma replaceAll_not_empty c d s : s ≠ EmptyString → replaceAll c d s ≠ EmptyString.
Proof. destruct s; simpl; [congruence | discriminate]. Qed.

(** ** The folder path resolver *)

Section GetStoredWorkspaceFolder.
Context `{PF : Platform} `{UO : URI.Ops} `{PO : PathOps} `{extUri : IExtUri}.

(** C2. A folder whose scheme is not the scheme of the target config folder
    is stored in the absolute-uri form [{ name, uri: folderURI.toString(true) }],
    whatever [forceAbsolute] and the slash flag are. *)
Theorem getStoredWorkspaceFolder_other_scheme
    (folderURI : URI.t) (forceAbsolute : bool) (folderName : JS.Value)
    (targetConfigFolderURI : URI.t) (useSlash : option bool) :
  URI.scheme folderURI ≠ URI.scheme targetConfigFolderURI →
  getStoredWorkspaceFolder folderURI forceAbsolute folderName targetConfigFolderURI useSlash
  = IRawUriWorkspaceFolder folderName (URI.toString folderURI true).
Proof.
  intros Hne. unfold getStoredWorkspaceFolder.
  apply String.eqb_neq in Hne. now rewrite Hne.
Qed.

(** C8, as the code has it. On Windows, in the relative branch (not forced
    absolute, the schemes equal, a non-empty relative path): for a folder of
    the [file] scheme and with the slash flag off, the relative path is stored
    with every [/] replaced by [\]: the stored path has the same length, no
    [/] is left in it, and every other character is unchanged; the relative
    path [a/b] is stored as [a\b]. For a folder of another scheme the
    relative path is stored as it is, with its slashes, whatever the flag. *)
Theorem getStoredWorkspaceFolder_windows_backslashes
    (folderURI : URI.t) (folderName : JS.Value) (targetConfigFolderURI : URI.t)
    (folderPath : string) :
  isWindows = true →
  URI.scheme folderURI = URI.scheme targetConfigFolderURI →
  relativePath targetConfigFolderURI folderURI = Some folderPath →
  folderPath ≠ EmptyString →
  (URI.scheme folderURI = Schemas.file →
   getStoredWorkspaceFolder folderURI false folderName targetConfigFolderURI (Some false)
   = IRawFileWorkspaceFolder folderName (replaceAll slash backslash folderPath)
   ∧ contains slash (replaceAll slash backslash folderPath) = false
   ∧ String.length (replaceAll slash backslash folderPath) = String.length folderPath
   ∧ (∀ i, String.get i (replaceAll slash backslash folderPath)
           = (λ a, if Ascii.eqb a slash then backslash else a) <$> String.get i folderPath)
   ∧ (folderPath = "a/b" → replaceAll slash backslash folderPath = "a\b"))
  ∧ (URI.scheme folderURI ≠ Schemas.file →
     ∀ useSlash,
       getStoredWorkspaceFolder folderURI false folderName targetConfigFolderURI useSlash
       = IRawFileWorkspaceFolder folderName folderPath).
Proof.
  intros Hwin Hscheme Hrel Hne.
  assert ((String.length folderPath =? 0)%nat = false) as Hlen.
  { destruct (String.length folderPath =? 0)%nat eqn:Hlen; [|reflexivity].
    apply length_zero_empty in Hlen. contradiction. }
  split.
  - intros Hfile. split; [|split; [|split; [|split]]].
    + unfold getStoredWorkspaceFolder.
      rewrite <- Hscheme, String.eqb_refl. simpl.
      rewrite Hrel, Hlen, Hwin, Hfile. reflexivity.
    + apply replaceAll_removes. discriminate.
    + apply replaceAll_length.
    + apply replaceAll_get.
    + intros ->. reflexivity.
  - intros Hother useSlash. unfold getStoredWorkspaceFolder.
    apply String.eqb_neq in Hother.
    rewrite <- Hscheme, String.eqb_refl. simpl.
    rewrite Hrel, Hlen, Hwin, Hother. reflexivity.
Qed.

(** C9, as the code has it. A folder whose relative path to the target
    config folder is empty (the folder is that directory) is stored, when not
    forced absolute, with the path [.]. A path stored by the relative branch
    is never empty; a path stored by the absolute branch is the one the URI
    gives, so it is not empty when that one is not. *)
Theorem getStoredWorkspaceFolder_path_not_empty
    (folderURI : URI.t) (forceAbsolute : bool) (folderName : JS.Value)
    (targetConfigFolderURI : URI.t) (useSlash : option bool) :
  (URI.scheme folderURI = URI.scheme targetConfigFolderURI →
   relativePath targetConfigFolderURI folderURI = Some EmptyString →
   getStoredWorkspaceFolder folderURI false folderName targetConfigFolderURI useSlash
   = IRawFileWorkspaceFolder folderName ".")
  ∧ (∀ name path,
       (forceAbsolute = false ∧ is_Some (relativePath targetConfigFolderURI folderURI))
       ∨ absoluteFormNotEmpty folderURI →
       getStoredWorkspaceFolder folderURI forceAbsolute folderName
         targetConfigFolderURI useSlash
       = IRawFileWorkspaceFolder name path →
       path ≠ EmptyString).
Proof.
  split.
  - intros Hs Hrel. unfold getStoredWorkspaceFolder.
    rewrite Hs, String.eqb_refl, Hrel. reflexivity.
  - intros name path Hbranch. unfold getStoredWorkspaceFolder, absoluteFormNotEmpty in *.
    destruct (negb (URI.scheme folderURI =? URI.scheme targetConfigFolderURI)%string);
      [discriminate|].
    destruct (if negb forceAbsolute then relativePath targetConfigFolderURI folderURI else None)
      as [folderPath|] eqn:Hrel.
    + destruct (String.length folderPath =? 0)%nat eqn:Hlen.
      * intros [= <- <-]. discriminate.
      * assert (folderPath ≠ EmptyString) as Hne.
        { intros ->. discriminate. }
        destruct (isWindows && _ && _); intros [= <- <-];
          [now apply replaceAll_not_empty | exact Hne].
    + destruct Hbranch as [[-> [p Hp]]|Habs].
      { simpl in Hrel. congruence. }
      destruct (URI.scheme folderURI =? Schemas.file)%string.
      * destruct Habs as (H1 & H2 & H3).
        destruct isWindows; [destruct (default _ useSlash)|]; intros [= <- <-]; assumption.
      * destruct (negb (isEqualAuthority _ _)); [discriminate|].
        intros [= <- <-]. exact Habs.
Qed.

End GetStoredWorkspaceFolder.

(** ** Resolving the stored folders *)

Section ToWorkspaceFoldersProperties.
Context `{UO : URI.Ops} `{extUri : IExtUri}.

Lemma keepFirstFrom_keys earlier l :
  NoDup (comparisonKeyOf <$> keepFirstFrom earlier l)
  ∧ ∀ x, x ∈ keepFirstFrom earlier l → comparisonKeyOf x ∉ comparisonKeyOf <$> earlier.
Proof.
  revert earlier. induction l as [|x l IH]; intros earlier; simpl.
  - split; [constructor | intros x Hx; inversion Hx].
  - destruct (IH (earlier ++ [x])) as [Hnd Hnot].
    assert (∀ y, y ∈ keepFirstFrom (earlier ++ [x]) l →
                 (comparisonKeyOf y ∉ (comparisonKeyOf <$> earlier))
                 ∧ comparisonKeyOf y ≠ comparisonKeyOf x) as Hlater.
    { intros y Hy. specialize (Hnot y Hy).
      rewrite fmap_app, elem_of_app in Hnot. simpl in Hnot.
      rewrite list_elem_of_singleton in Hnot. tauto. }
    case_decide as Hin; simpl.
    + split; [exact Hnd | intros y Hy; apply Hlater, Hy].
    + split.
      * constructor; [|exact Hnd].
        intros (y & Hk & Hy)%list_elem_of_fmap.
        destruct (Hlater y Hy) as [_ Hne]. congruence.
      * intros y [->|Hy]%elem_of_cons; [exact Hin | apply Hlater, Hy].
Qed.

Lemma keepFirstFrom_sublist earlier l : keepFirstFrom earlier l `sublist_of` l.
Proof.
  revert earlier. induction l as [|x l IH]; intros earlier; simpl.
  - constructor.
  - case_decide; simpl.
    + apply sublist_cons, IH.
    + apply sublist_skip, IH.
Qed.

(** An element is dropped only when an earlier one has its key. *)
Lemma keepFirstFrom_first earlier l i x :
  l !! i = Some x →
  comparisonKeyOf x ∉ comparisonKeyOf <$> (earlier ++ take i l) →
  x ∈ keepFirstFrom earlier l.
Proof.
  revert earlier i. induction l as [|y l IH]; intros earlier [|i] Hi Hnew;
    simpl in *; try discriminate.
  - injection Hi as ->. rewrite app_nil_r in Hnew.
    rewrite decide_False by exact Hnew. left.
  - apply elem_of_app. right. apply (IH _ i Hi).
    now rewrite <- app_assoc.
Qed.

Lemma resolvedFolders_cons relativeTo folder rest :
  resolvedFolders relativeTo (folder :: rest)
  = match configuredFolderUri relativeTo folder with
    | Some uri => (uri, folder) :: resolvedFolders relativeTo rest
    | None => resolvedFolders relativeTo rest
    end.
Proof.
  unfold resolvedFolders. simpl.
  destruct (configuredFolderUri relativeTo folder); reflexivity.
Qed.

(** What the loop keeps of the invariant of the arrays it builds. *)
Lemma toWorkspaceFolders_loop_spec relativeTo configuredFolders :
  ∀ earlier result seen,
    (∀ k, k ∈ seen ↔ k ∈ comparisonKeyOf <$> earlier) →
    WorkspaceFolder.index <$> result = seq 0 (length result) →
    Forall (λ f, WorkspaceFolder.name f = nameOrDefault f) result →
    let r := toWorkspaceFolders_loop relativeTo configuredFolders result seen in
    locationAndRaw <$> r
    = (locationAndRaw <$> result)
      ++ keepFirstFrom earlier (resolvedFolders relativeTo configuredFolders)
    ∧ WorkspaceFolder.index <$> r = seq 0 (length r)
    ∧ Forall (λ f, WorkspaceFolder.name f = nameOrDefault f) r.
Proof.
  induction configuredFolders as [|folder rest IH]; intros earlier result seen Hseen Hidx Hname.
  - simpl. rewrite app_nil_r. auto.
  - rewrite resolvedFolders_cons. cbn [toWorkspaceFolders_loop].
    destruct (configuredFolderUri relativeTo folder) as [uri|]; [|now apply IH].
    cbn [keepFirstFrom]. unfold comparisonKeyOf at 1. cbn [fst].
    destruct (decide (getComparisonKey uri ∈ seen)) as [Hin|Hnotin].
    + rewrite decide_True by (apply Hseen, Hin). simpl.
      apply IH; [|assumption..].
      intros k. rewrite fmap_app, elem_of_app, <- Hseen. simpl.
      rewrite list_elem_of_singleton. unfold comparisonKeyOf at 1. simpl.
      split; [tauto | intros [H| ->]; assumption].
    + rewrite decide_False by (rewrite <- Hseen; exact Hnotin). simpl.
      set (new := WorkspaceFolder.Build uri _ (length result) folder).
      destruct (IH (earlier ++ [(uri, folder)]) (result ++ [new])
                  ({[getComparisonKey uri]} ∪ seen)) as (Hl & Hi & Hn).
      * intros k. rewrite fmap_app, elem_of_app, elem_of_union, elem_of_singleton.
        simpl. rewrite list_elem_of_singleton, <- Hseen.
        unfold comparisonKeyOf at 1. simpl. tauto.
      * rewrite fmap_app, length_app, Hidx. simpl.
        now rewrite Nat.add_1_r, seq_S.
      * apply Forall_app. split; [assumption|]. constructor; [reflexivity|constructor].
      * split; [|split; assumption].
        rewrite Hl, fmap_app, <- app_assoc. reflexivity.
Qed.

Lemma toWorkspaceFolders_spec configuredFolders workspaceConfigFile :
  let r := toWorkspaceFolders configuredFolders workspaceConfigFile in
  locationAndRaw <$> r
  = keepFirst (resolvedFolders (dirname workspaceConfigFile) configuredFolders)
  ∧ WorkspaceFolder.index <$> r = seq 0 (length r)
  ∧ Forall (λ f, WorkspaceFolder.name f = nameOrDefault f) r.
Proof.
  apply (toWorkspaceFolders_loop_spec (dirname workspaceConfigFile) configuredFolders [] [] ∅).
  - intros k. simpl. rewrite elem_of_empty, elem_of_nil. tauto.
  - reflexivity.
  - constructor.
Qed.

Lemma toWorkspaceFolders_twice (folder : JS.Value) (workspaceConfigFile uri : URI.t) :
  configuredFolderUri (dirname workspaceConfigFile) folder = Some uri →
  toWorkspaceFolders [folder; folder] workspaceConfigFile
  = [WorkspaceFolder.Build uri
       (JS.or (JS.get "name" folder) (JS.Str (basenameOrAuthority uri))) 0 folder].
Proof.
  intros Huri. unfold toWorkspaceFolders. cbn [toWorkspaceFolders_loop].
  rewrite Huri.
  rewrite decide_False by apply not_elem_of_empty.
  rewrite decide_True by (apply elem_of_union_l, elem_of_singleton; reflexivity).
  reflexivity.
Qed.

(** C3. [toWorkspaceFolders] keeps, of the configured folders that have a
    location, the first one of every comparison key, in their order: no two
    folders of the result share a key, the result is a sub-sequence of the
    resolved folders, and a resolved folder that no earlier one shares its
    key with is in the result. The index of a folder is its position in the
    result, so the indices are 0, 1, ... without a gap. The name is the
    stored name or, when that is missing (or otherwise falsy), the basename
    or authority of the location. The stored folders [{path: src}, {path:
    src}] resolve to one folder, of index 0, at the location that [src]
    resolves to from the directory of the config file: [/ws/src] for
    [/ws/w.code-workspace]. *)
Theorem toWorkspaceFolders_dedup_index_name
    (configuredFolders : list JS.Value) (workspaceConfigFile : URI.t) :
  let r := toWorkspaceFolders configuredFolders workspaceConfigFile in
  let resolved := resolvedFolders (dirname workspaceConfigFile) configuredFolders in
  let src := JS.Obj [("path", JS.Str "src")] in
  locationAndRaw <$> r = keepFirst resolved
  ∧ NoDup (comparisonKeyOf <$> (locationAndRaw <$> r))
  ∧ (locationAndRaw <$> r) `sublist_of` resolved
  ∧ (∀ i x, resolved !! i = Some x →
            comparisonKeyOf x ∉ (comparisonKeyOf <$> take i resolved) →
            x ∈ locationAndRaw <$> r)
  ∧ WorkspaceFolder.index <$> r = seq 0 (length r)
  ∧ (∀ i f, r !! i = Some f → WorkspaceFolder.index f = i)
  ∧ (∀ f, f ∈ r →
          WorkspaceFolder.name f = nameOrDefault f
          ∧ (JS.get "name" (WorkspaceFolder.raw f) = JS.Undefined →
             WorkspaceFolder.name f
             = JS.Str (basenameOrAuthority (WorkspaceFolder.uri f))))
  ∧ toWorkspaceFolders [src; src] workspaceConfigFile
    = [WorkspaceFolder.Build (resolvePath (dirname workspaceConfigFile) "src")
         (JS.Str (basenameOrAuthority (resolvePath (dirname workspaceConfigFile) "src")))
         0 src]
  ∧ @toWorkspaceFolders Sample.uriOps Sample.extUri [src; src]
      (URI.Build "file" EmptyString "/ws/w.code-workspace" EmptyString EmptyString)
    = [WorkspaceFolder.Build
         (URI.Build "file" EmptyString "/ws/src" EmptyString EmptyString)
         (JS.Str "src") 0 src].
Proof.
  intros r resolved src.
  destruct (toWorkspaceFolders_spec configuredFolders workspaceConfigFile)
    as (Hkeep & Hidx & Hname).
  fold r resolved in Hkeep, Hidx, Hname.
  split_and!.
  - exact Hkeep.
  - rewrite Hkeep. apply keepFirstFrom_keys.
  - rewrite Hkeep. apply keepFirstFrom_sublist.
  - intros i x Hi Hfirst. rewrite Hkeep. apply (keepFirstFrom_first [] resolved i x Hi Hfirst).
  - exact Hidx.
  - intros i f Hf.
    assert ((WorkspaceFolder.index <$> r) !! i = Some (WorkspaceFolder.index f)) as Hl.
    { rewrite list_lookup_fmap, Hf. reflexivity. }
    rewrite Hidx in Hl. apply lookup_seq in Hl. lia.
  - intros f Hf. rewrite Forall_forall in Hname. split; [now apply Hname|].
    intros Hundef. rewrite (Hname f) by assumption.
    unfold nameOrDefault. rewrite Hundef. reflexivity.
  - apply (toWorkspaceFolders_twice src). reflexivity.
  - vm_compute. reflexivity.
Qed.

End ToWorkspaceFoldersProperties.

(** ** The recently-opened store *)

Section RecentsProperties.
Context `{UO : URI.Ops}.

Implicit Types func : JS.Value → nat → IRecentlyOpened → JS.Completion IRecentlyOpened.

Lemma restoreGracefully_from_app func i l1 l2 st :
  restoreGracefully_from func i (l1 ++ l2) st
  = restoreGracefully_from func (i + length l1) l2 (restoreGracefully_from func i l1 st).
Proof.
  revert i st. induction l1 as [|e l1 IH]; intros i st; simpl.
  - now rewrite Nat.add_0_r.
  - rewrite IH. f_equal. lia.
Qed.

(** The warnings already logged play no part in the loop. *)
Lemma restoreGracefully_from_warnings func i l r w :
  restoreGracefully_from func i l {| recents := r; warnings := w |}
  = let st := restoreGracefully_from func i l {| recents := r; warnings := [] |} in
    {| recents := recents st; warnings := w ++ warnings st |}.
Proof.
  revert i r w. induction l as [|e l IH]; intros i r w; simpl.
  - now rewrite app_nil_r.
  - destruct (func e i r) as [r'|err]; simpl.
    + apply IH.
    + rewrite IH. rewrite (IH _ _ [(e, err)]). simpl. now rewrite <- app_assoc.
Qed.

Lemma restoreGracefully_from_ext func func' i l st :
  (∀ j e r, (i ≤ j < i + length l)%nat → func e j r = func' e j r) →
  restoreGracefully_from func i l st = restoreGracefully_from func' i l st.
Proof.
  revert i st. induction l as [|e l IH]; intros i st Hext; simpl; [reflexivity|].
  rewrite Hext by (simpl; lia). apply IH.
  intros j e' r Hj. apply Hext. simpl. lia.
Qed.

Lemma restoreGracefully_from_shift func func' i l st :
  (∀ j e r, (i ≤ j)%nat → func e (S j) r = func' e j r) →
  restoreGracefully_from func (S i) l st = restoreGracefully_from func' i l st.
Proof.
  revert i st. induction l as [|e l IH]; intros i st Hshift; simpl; [reflexivity|].
  rewrite Hshift by lia. apply IH.
  intros j e' r Hj. apply Hshift. lia.
Qed.

(** The entry that throws adds a warning and nothing else: the entries after
    it are restored, each at its own index, onto what the entries before it
    gave. [func'] is the callback for the array without the entry. *)
Lemma restoreGracefully_drop func func' l1 e l2 err st :
  (∀ r, func e (length l1) r = JS.Throw err) →
  (∀ j e' r, (j < length l1)%nat → func e' j r = func' e' j r) →
  (∀ j e' r, (length l1 ≤ j)%nat → func e' (S j) r = func' e' j r) →
  let full := restoreGracefully func (l1 ++ e :: l2) st in
  let rest := restoreGracefully func' (l1 ++ l2) st in
  recents full = recents rest
  ∧ ∃ w1 w2, warnings rest = w1 ++ w2 ∧ warnings full = w1 ++ (e, err) :: w2.
Proof.
  intros Hthrow Hbefore Hafter. unfold restoreGracefully.
  rewrite !restoreGracefully_from_app. simpl.
  rewrite (restoreGracefully_from_ext func func' 0 l1)
    by (intros; apply Hbefore; lia).
  destruct (restoreGracefully_from func' 0 l1 st) as [r1 w1]. simpl.
  rewrite Hthrow.
  rewrite (restoreGracefully_from_shift func func' (length l1)) by exact Hafter.
  rewrite (restoreGracefully_from_warnings func' _ l2 r1 w1).
  rewrite (restoreGracefully_from_warnings func' _ l2 r1 (w1 ++ [(e, err)])).
  simpl. split; [reflexivity|].
  eexists w1, _. split; [reflexivity|]. now rewrite <- app_assoc.
Qed.

(** Whether a callback throws does not depend on what has been restored. *)
Lemma restoreEntry_throw entry i r err :
  restoreEntry entry i r = JS.Throw err →
  ∀ i' r', restoreEntry entry i' r' = JS.Throw err.
Proof.
  unfold restoreEntry, URI.parse_. intros H i' r'.
  destruct (JS.member "label" entry); simpl in *; [|exact H].
  destruct (JS.member "remoteAuthority" entry); simpl in *; [|exact H].
  repeat (case_match; simpl in *; try discriminate; try exact H).
Qed.

Lemma restoreLegacyWorkspace_throw labels workspace i r err :
  restoreLegacyWorkspace labels workspace i r = JS.Throw err →
  ∀ r', restoreLegacyWorkspace labels workspace i r' = JS.Throw err.
Proof.
  unfold restoreLegacyWorkspace, URI.parse_. intros H r'.
  destruct (isLegacyWorkspace workspace) as [[]|]; simpl in *; try exact H;
    repeat (case_match; simpl in *; try discriminate; try exact H).
Qed.

Lemma restoreLegacyFile_throw labels file i r err :
  restoreLegacyFile labels file i r = JS.Throw err →
  ∀ r', restoreLegacyFile labels file i r' = JS.Throw err.
Proof.
  unfold restoreLegacyFile, URI.parse_. intros H r'.
  repeat (case_match; simpl in *; try discriminate; try exact H).
Qed.

Lemma lookup_without {A} (l : list A) n j :
  (take n l ++ drop (S n) l) !! j = l !! (if decide (j < n) then j else S j).
Proof.
  destruct (decide (n ≤ length l)) as [Hn|Hn].
  - case_decide as Hj.
    + rewrite lookup_app_l by (rewrite length_take_le; lia).
      now apply lookup_take_lt.
    + rewrite lookup_app_r by (rewrite length_take_le; lia).
      rewrite length_take_le, lookup_drop by lia. f_equal. lia.
  - rewrite take_ge, drop_ge, app_nil_r by lia.
    case_decide as Hj; [reflexivity|].
    rewrite !lookup_ge_None_2 by lia. reflexivity.
Qed.

Lemma legacyLabel_removeAt n labels j :
  legacyLabel (removeAt n labels) j
  = legacyLabel labels (if decide (j < n) then j else S j).
Proof.
  unfold legacyLabel. destruct labels as [| | | | |items|]; try reflexivity.
  simpl. now rewrite lookup_without.
Qed.

(** Two states that differ by one warning still do after the loop. *)
Lemma restoreGracefully_one_more_warning func l st st' w1 w2 x :
  recents st = recents st' →
  warnings st' = w1 ++ w2 →
  warnings st = w1 ++ x :: w2 →
  recents (restoreGracefully func l st) = recents (restoreGracefully func l st')
  ∧ ∃ w1 w2, warnings (restoreGracefully func l st') = w1 ++ w2
             ∧ warnings (restoreGracefully func l st) = w1 ++ x :: w2.
Proof.
  destruct st as [r w], st' as [r' w']. simpl. intros <- -> ->.
  unfold restoreGracefully.
  rewrite (restoreGracefully_from_warnings func 0 l r (w1 ++ w2)).
  rewrite (restoreGracefully_from_warnings func 0 l r (w1 ++ x :: w2)).
  simpl. split; [reflexivity|].
  eexists w1, _. split; [symmetry; apply app_assoc|].
  rewrite <- app_assoc. reflexivity.
Qed.

(** The entry whose interpretation raises. [restoreRecentlyOpened] reads
    the data as the current schema when [entries] is an array and as the
    legacy schema otherwise; the exception that the interpretation of one
    entry raises is caught in [restoreGracefully] and logged, and what is
    restored is what the data without that entry restores (for the legacy
    arrays, without its label too, so that the other entries keep the label
    of their own index), with the warning for that entry added. *)
Lemma restoreRecentlyOpened_drops_throwing_entry :
  (∀ data, JS.truthy data = false →
     restoreRecentlyOpened data = {| recents := emptyRecents; warnings := [] |})
  ∧ (∀ data entries, JS.get "entries" data = JS.Arr entries →
       restoreRecentlyOpened data = restoreRecentlyOpened (currentData entries))
  ∧ (∀ data, JS.truthy data = true → JS.isArray (JS.get "entries" data) = false →
       restoreRecentlyOpened data
       = restoreRecentlyOpened
           (legacyData (JS.get "workspaces3" data) (JS.get "workspaceLabels" data)
              (JS.get "files2" data) (JS.get "fileLabels" data)))
  ∧ (∀ l1 e l2 err,
     restoreEntry e (length l1) emptyRecents = JS.Throw err →
     let full := restoreRecentlyOpened (currentData (l1 ++ e :: l2)) in
     let rest := restoreRecentlyOpened (currentData (l1 ++ l2)) in
     recents full = recents rest
     ∧ ∃ w1 w2, warnings rest = w1 ++ w2 ∧ warnings full = w1 ++ (e, err) :: w2)
  ∧ (∀ labels files2 fileLabels l1 e l2 err,
       restoreLegacyWorkspace labels e (length l1) emptyRecents = JS.Throw err →
       let full := restoreRecentlyOpened
                     (legacyData (JS.Arr (l1 ++ e :: l2)) labels files2 fileLabels) in
       let rest := restoreRecentlyOpened
                     (legacyData (JS.Arr (l1 ++ l2)) (removeAt (length l1) labels)
                        files2 fileLabels) in
       recents full = recents rest
       ∧ ∃ w1 w2, warnings rest = w1 ++ w2 ∧ warnings full = w1 ++ (e, err) :: w2)
  ∧ (∀ workspaces3 workspaceLabels labels l1 e l2 err,
       restoreLegacyFile labels e (length l1) emptyRecents = JS.Throw err →
       let full := restoreRecentlyOpened
                     (legacyData workspaces3 workspaceLabels (JS.Arr (l1 ++ e :: l2)) labels) in
       let rest := restoreRecentlyOpened
                     (legacyData workspaces3 workspaceLabels (JS.Arr (l1 ++ l2))
                        (removeAt (length l1) labels)) in
       recents full = recents rest
       ∧ ∃ w1 w2, warnings rest = w1 ++ w2 ∧ warnings full = w1 ++ (e, err) :: w2)
  ∧ (∀ id1 configPath1 id2 configPath2 id3 configPath3 uri1 uri3,
       URI.parse configPath1 = Some uri1 →
       URI.parse configPath2 = None →
       URI.parse configPath3 = Some uri3 →
       restoreRecentlyOpened
         (currentData [workspaceEntry id1 configPath1; workspaceEntry id2 configPath2;
                       workspaceEntry id3 configPath3])
       = {| recents :=
              {| workspaces :=
                   [IRecentWorkspace JS.Undefined JS.Undefined
                      (IWorkspaceIdentifier.Build id1 uri1);
                    IRecentWorkspace JS.Undefined JS.Undefined
                      (IWorkspaceIdentifier.Build id3 uri3)];
                 files := [] |};
            warnings := [(workspaceEntry id2 configPath2, JS.UriError configPath2)] |}).
Proof.
  split_and!.
  - intros data Hfalsy. unfold restoreRecentlyOpened. now rewrite Hfalsy.
  - intros data entries Hentries. unfold restoreRecentlyOpened, currentData.
    destruct data; try discriminate. simpl in *. now rewrite Hentries.
  - intros data Htruthy Hentries. unfold restoreRecentlyOpened, legacyData.
    rewrite Htruthy. simpl.
    destruct (JS.get "entries" data); try discriminate; reflexivity.
  - intros l1 e l2 err Hthrow. apply restoreGracefully_drop.
    + intros r. apply (restoreEntry_throw _ _ _ _ Hthrow).
    + reflexivity.
    + reflexivity.
  - intros labels files2 fileLabels l1 e l2 err Hthrow full rest.
    assert (let full := restoreGracefully (restoreLegacyWorkspace labels) (l1 ++ e :: l2)
                          {| recents := emptyRecents; warnings := [] |} in
            let rest := restoreGracefully
                          (restoreLegacyWorkspace (removeAt (length l1) labels)) (l1 ++ l2)
                          {| recents := emptyRecents; warnings := [] |} in
            recents full = recents rest
            ∧ ∃ w1 w2, warnings rest = w1 ++ w2 ∧ warnings full = w1 ++ (e, err) :: w2)
      as Hws.
    { apply restoreGracefully_drop.
      - intros r. apply (restoreLegacyWorkspace_throw _ _ _ _ _ Hthrow).
      - intros j e' r Hj. unfold restoreLegacyWorkspace.
        rewrite legacyLabel_removeAt, decide_True by exact Hj. reflexivity.
      - intros j e' r Hj. unfold restoreLegacyWorkspace.
        rewrite legacyLabel_removeAt, decide_False by lia. reflexivity. }
    destruct Hws as (Hrec & w1 & w2 & Hw & Hw').
    subst full rest. unfold restoreRecentlyOpened, legacyData. simpl.
    destruct files2; try (split; [exact Hrec | exists w1, w2; split; assumption]).
    now apply (restoreGracefully_one_more_warning _ _ _ _ w1 w2).
  - intros workspaces3 workspaceLabels labels l1 e l2 err Hthrow full rest.
    subst full rest. unfold restoreRecentlyOpened, legacyData. simpl.
    apply restoreGracefully_drop.
    + intros r. apply (restoreLegacyFile_throw _ _ _ _ _ Hthrow).
    + intros j e' r Hj. unfold restoreLegacyFile.
      rewrite legacyLabel_removeAt, decide_True by exact Hj. reflexivity.
    + intros j e' r Hj. unfold restoreLegacyFile.
      rewrite legacyLabel_removeAt, decide_False by lia. reflexivity.
  - intros id1 configPath1 id2 configPath2 id3 configPath3 uri1 uri3 H1 H2 H3.
    unfold restoreRecentlyOpened, currentData, workspaceEntry, restoreGracefully. simpl.
    unfold restoreEntry, URI.parse_. simpl. rewrite H1. simpl. rewrite H2. simpl.
    rewrite H3. reflexivity.
Qed.

Lemma isSerializedRecentWorkspace_true data :
  isSerializedRecentWorkspace data = true
  ↔ ∃ props id configPath,
      JS.get "workspace" data = JS.Obj props
      ∧ JS.assoc "id" props = JS.Str id
      ∧ JS.assoc "configPath" props = JS.Str configPath.
Proof.
  unfold isSerializedRecentWorkspace. split.
  - destruct (JS.get "workspace" data) as [| | | | | |props]; simpl;
      try discriminate; try (now rewrite !andb_false_r).
    destruct (JS.assoc "id" props) eqn:Hid; simpl; try discriminate.
    destruct (JS.assoc "configPath" props) eqn:Hcp; simpl; try discriminate.
    intros _. eexists _, _, _. split_and!; reflexivity || eassumption.
  - intros (props & id & configPath & -> & Hid & Hcp). simpl.
    now rewrite Hid, Hcp.
Qed.

Lemma isString_true v : JS.isString v = true ↔ ∃ s, v = JS.Str s.
Proof.
  destruct v; simpl; split; try discriminate; try (intros [? [=]]); eauto.
Qed.

(** C6, as the code has it. An entry of the current schema is restored by
    the first of three guards it passes: [workspace] is an object with a
    string [id] and a string [configPath] (a workspace), else [folderUri] is
    a string (a folder), else [fileUri] is a string (a file); an entry that
    passes none is skipped. An entry that passes an earlier guard is restored
    as that kind, or fails on its URI, whatever later properties it has. *)
Theorem restoreEntry_priority (entry : JS.Value) (i : nat) (result : IRecentlyOpened) :
  JS.nullish entry = false →
  let label := JS.get "label" entry in
  let remoteAuthority := JS.get "remoteAuthority" entry in
  let workspace := JS.get "workspace" entry in
  (isSerializedRecentWorkspace entry = true
   ↔ ∃ props id configPath,
       workspace = JS.Obj props
       ∧ JS.assoc "id" props = JS.Str id
       ∧ JS.assoc "configPath" props = JS.Str configPath)
  ∧ (isSerializedRecentFolder entry = true ↔ ∃ s, JS.get "folderUri" entry = JS.Str s)
  ∧ (isSerializedRecentFile entry = true ↔ ∃ s, JS.get "fileUri" entry = JS.Str s)
  ∧ (isSerializedRecentWorkspace entry = true →
     restoreEntry entry i result
     = match URI.parse (JS.str (JS.get "configPath" workspace)) with
       | Some configPath =>
           JS.Normal (pushWorkspace result
             (IRecentWorkspace label remoteAuthority
                (IWorkspaceIdentifier.Build (JS.str (JS.get "id" workspace)) configPath)))
       | None => JS.Throw (JS.UriError (JS.str (JS.get "configPath" workspace)))
       end)
  ∧ (isSerializedRecentWorkspace entry = false →
     isSerializedRecentFolder entry = true →
     restoreEntry entry i result
     = match URI.parse (JS.str (JS.get "folderUri" entry)) with
       | Some folderUri =>
           JS.Normal (pushWorkspace result (IRecentFolder label remoteAuthority folderUri))
       | None => JS.Throw (JS.UriError (JS.str (JS.get "folderUri" entry)))
       end)
  ∧ (isSerializedRecentWorkspace entry = false →
     isSerializedRecentFolder entry = false →
     isSerializedRecentFile entry = true →
     restoreEntry entry i result
     = match URI.parse (JS.str (JS.get "fileUri" entry)) with
       | Some fileUri =>
           JS.Normal (pushFile result (RecentFile label remoteAuthority fileUri))
       | None => JS.Throw (JS.UriError (JS.str (JS.get "fileUri" entry)))
       end)
  ∧ (isSerializedRecentWorkspace entry = false →
     isSerializedRecentFolder entry = false →
     isSerializedRecentFile entry = false →
     restoreEntry entry i result = JS.Normal result).
Proof.
  intros Hnn label remoteAuthority workspace.
  assert (∀ k, JS.member k entry = JS.Normal (JS.get k entry)) as Hmember.
  { intros k. unfold JS.member. now rewrite Hnn. }
  split_and!.
  - apply isSerializedRecentWorkspace_true.
  - apply isString_true.
  - apply isString_true.
  - intros Hw. unfold restoreEntry, URI.parse_. rewrite !Hmember. simpl. rewrite Hw.
    fold workspace. destruct (URI.parse _); reflexivity.
  - intros Hw Hf. unfold restoreEntry, URI.parse_. rewrite !Hmember. simpl. rewrite Hw, Hf.
    destruct (URI.parse _); reflexivity.
  - intros Hw Hf Hfile. unfold restoreEntry, URI.parse_. rewrite !Hmember. simpl.
    rewrite Hw, Hf, Hfile. destruct (URI.parse _); reflexivity.
  - intros Hw Hf Hfile. unfold restoreEntry. rewrite !Hmember. simpl.
    now rewrite Hw, Hf, Hfile.
Qed.

Lemma restoreEntry_serializeWorkspaceOrFolder recent i result :
  roundTrips (uriOfWorkspaceOrFolder recent) →
  restoreEntry (serializeWorkspaceOrFolder recent) i result
  = JS.Normal (pushWorkspace result recent).
Proof.
  unfold roundTrips.
  destruct recent as [label remoteAuthority [id configPath]|label remoteAuthority folderUri];
    simpl; intros Hrt; unfold restoreEntry, URI.parse_; simpl; now rewrite Hrt.
Qed.

Lemma restoreEntry_serializeFile recent i result :
  roundTrips (uriOfFile recent) →
  restoreEntry (serializeFile recent) i result = JS.Normal (pushFile result recent).
Proof.
  unfold roundTrips. destruct recent as [label remoteAuthority fileUri].
  simpl; intros Hrt; unfold restoreEntry, URI.parse_; simpl; now rewrite Hrt.
Qed.

Lemma restoreGracefully_from_serialized_workspaces elements i st :
  Forall roundTrips (uriOfWorkspaceOrFolder <$> elements) →
  restoreGracefully_from restoreEntry i (map serializeWorkspaceOrFolder elements) st
  = {| recents :=
         {| workspaces := workspaces (recents st) ++ elements;
            files := files (recents st) |};
       warnings := warnings st |}.
Proof.
  revert i st. induction elements as [|recent elements IH]; intros i [[ws fs] w] Hrt; simpl.
  - now rewrite app_nil_r.
  - apply Forall_cons in Hrt as [Hrt Hrts].
    rewrite restoreEntry_serializeWorkspaceOrFolder by exact Hrt.
    rewrite IH by exact Hrts. simpl. now rewrite <- app_assoc.
Qed.

Lemma restoreGracefully_from_serialized_files elements i st :
  Forall roundTrips (uriOfFile <$> elements) →
  restoreGracefully_from restoreEntry i (map serializeFile elements) st
  = {| recents :=
         {| workspaces := workspaces (recents st);
            files := files (recents st) ++ elements |};
       warnings := warnings st |}.
Proof.
  revert i st. induction elements as [|recent elements IH]; intros i [[ws fs] w] Hrt; simpl.
  - now rewrite app_nil_r.
  - apply Forall_cons in Hrt as [Hrt Hrts].
    rewrite restoreEntry_serializeFile by exact Hrt.
    rewrite IH by exact Hrts. simpl. now rewrite <- app_assoc.
Qed.

(** C4. For a recently-opened value whose URIs [URI.parse] gives back from
    their [toString()], restoring what [toStoreData] stores gives the value
    back: the same workspaces and folders and the same files, each with its
    identifier or URI, label and remote authority, in the same order, and no
    warning. [toStoreData] emits the current schema, one entry for each
    element, in which a folder has the [folderUri] property and a workspace
    the [workspace] property, and each entry passes the guard of its kind
    only. *)
Theorem restoreRecentlyOpened_toStoreData (x : IRecentlyOpened) :
  Forall roundTrips (uriOfWorkspaceOrFolder <$> workspaces x) →
  Forall roundTrips (uriOfFile <$> files x) →
  restoreRecentlyOpened (toStoreData x) = {| recents := x; warnings := [] |}
  ∧ toStoreData x
    = currentData (map serializeWorkspaceOrFolder (workspaces x)
                   ++ map serializeFile (files x))
  ∧ (∀ recent, recent ∈ workspaces x →
       let entry := serializeWorkspaceOrFolder recent in
       JS.hasOwnProperty "folderUri" entry = isRecentFolder recent
       ∧ JS.hasOwnProperty "workspace" entry = isRecentWorkspace recent
       ∧ JS.hasOwnProperty "fileUri" entry = false
       ∧ isSerializedRecentWorkspace entry = isRecentWorkspace recent
       ∧ isSerializedRecentFolder entry = isRecentFolder recent
       ∧ isSerializedRecentFile entry = false)
  ∧ (∀ recent, recent ∈ files x →
       let entry := serializeFile recent in
       JS.hasOwnProperty "fileUri" entry = true
       ∧ JS.hasOwnProperty "folderUri" entry = false
       ∧ JS.hasOwnProperty "workspace" entry = false
       ∧ isSerializedRecentWorkspace entry = false
       ∧ isSerializedRecentFolder entry = false
       ∧ isSerializedRecentFile entry = true).
Proof.
  intros Hws Hfs. split_and!.
  - unfold restoreRecentlyOpened, toStoreData. simpl. unfold restoreGracefully.
    rewrite restoreGracefully_from_app.
    rewrite restoreGracefully_from_serialized_workspaces by exact Hws.
    rewrite restoreGracefully_from_serialized_files by exact Hfs.
    destruct x as [ws fs]. reflexivity.
  - reflexivity.
  - intros [label remoteAuthority [id configPath]|label remoteAuthority folderUri] _;
      vm_compute; split_and!; reflexivity.
  - intros [label remoteAuthority fileUri] _; vm_compute; split_and!; reflexivity.
Qed.

End RecentsProperties.

(** ** Parsing and rewriting a workspace file *)

Lemma mapM_Normal {A B} (f : A → JS.Completion B) (l : list A) :
  Forall (λ a, ∃ b, f a = JS.Normal b) l →
  ∃ bs, JS.mapM f l = JS.Normal bs ∧ Forall2 (λ a b, f a = JS.Normal b) l bs.
Proof.
  induction 1 as [|a l [b Hb] _ (bs & Hbs & Hall)]; simpl.
  - exists []. split; [reflexivity | constructor].
  - exists (b :: bs). rewrite Hb. simpl. rewrite Hbs. simpl.
    split; [reflexivity | now constructor].
Qed.

Lemma mapM_inv {A B} (f : A → JS.Completion B) (l : list A) bs :
  JS.mapM f l = JS.Normal bs → Forall2 (λ a b, f a = JS.Normal b) l bs.
Proof.
  revert bs. induction l as [|a l IH]; simpl; intros bs.
  - intros [= <-]. constructor.
  - destruct (f a) as [b|] eqn:Hb; simpl; [|discriminate].
    destruct (JS.mapM f l) as [bs'|]; simpl; [|discriminate].
    intros [= <-]. constructor; [exact Hb | now apply IH].
Qed.

Lemma get_folders_truthy v items : JS.get "folders" v = JS.Arr items → JS.truthy v = true.
Proof. destruct v; simpl; try discriminate. reflexivity. Qed.

Section RewriteProperties.
Context `{PF : Platform} `{UO : URI.Ops} `{PO : PathOps} `{extUri : IExtUri}
        `{JP : json.Ops} `{JE : jsonEdit.Ops} `{RO : RemoteOps}.

Lemma doParseStoredWorkspace_Normal path contents items :
  JS.get "folders" (json.parse contents) = JS.Arr items →
  doParseStoredWorkspace path contents
  = JS.Normal (IStoredWorkspace.Build (List.filter isStoredWorkspaceFolder items)
                 (JS.get "remoteAuthority" (json.parse contents))).
Proof.
  intros Hf. unfold doParseStoredWorkspace.
  rewrite (get_folders_truthy _ _ Hf), Hf. reflexivity.
Qed.

Lemma doParseStoredWorkspace_Throw path contents :
  (∀ items, JS.get "folders" (json.parse contents) ≠ JS.Arr items) →
  doParseStoredWorkspace path contents
  = JS.Throw (JS.InvalidWorkspaceFile (URI.toString path false)).
Proof.
  intros Hf. unfold doParseStoredWorkspace.
  destruct (JS.get "folders" (json.parse contents)) as [| | | | |items|];
    rewrite ?andb_false_r; try reflexivity.
  now destruct (Hf items).
Qed.

(** C7. Parsing a workspace file fails, with the error that names the file
    as an invalid workspace file, exactly when the value the fault tolerant
    parser gives has no array under [folders]; otherwise it gives the stored
    folders of that array. [rewriteWorkspaceFileForNewLocation] then fails
    with the same error, whatever the other arguments and whatever
    [jsonEdit] would do: no text is returned. *)
Theorem doParseStoredWorkspace_fails_without_folders_array
    (path : URI.t) (contents : string) :
  let invalid := JS.InvalidWorkspaceFile (URI.toString path false) in
  ((∃ e, doParseStoredWorkspace path contents = JS.Throw e)
   ↔ ¬ ∃ items, JS.get "folders" (json.parse contents) = JS.Arr items)
  ∧ (∀ e, doParseStoredWorkspace path contents = JS.Throw e → e = invalid)
  ∧ (∀ items, JS.get "folders" (json.parse contents) = JS.Arr items →
       doParseStoredWorkspace path contents
       = JS.Normal (IStoredWorkspace.Build (List.filter isStoredWorkspaceFolder items)
                      (JS.get "remoteAuthority" (json.parse contents))))
  ∧ (∀ e isFromUntitledWorkspace targetConfigPathURI,
       doParseStoredWorkspace path contents = JS.Throw e →
       rewriteWorkspaceFileForNewLocation contents path isFromUntitledWorkspace
         targetConfigPathURI
       = JS.Throw invalid).
Proof.
  intros invalid.
  assert (∀ e, doParseStoredWorkspace path contents = JS.Throw e →
               e = invalid ∧ ¬ ∃ items, JS.get "folders" (json.parse contents) = JS.Arr items)
    as Hthrow.
  { intros e He.
    destruct (JS.get "folders" (json.parse contents)) as [| | | | |items|] eqn:Hf;
      try (rewrite doParseStoredWorkspace_Throw in He by (rewrite Hf; discriminate);
           injection He as <-; split; [reflexivity | intros [items' [=]]]).
    rewrite (doParseStoredWorkspace_Normal _ _ _ Hf) in He. discriminate. }
  split_and!.
  - split.
    + intros [e He]. apply (Hthrow e He).
    + intros Hno. exists invalid. apply doParseStoredWorkspace_Throw.
      intros items Hf. apply Hno. now exists items.
  - intros e He. apply (Hthrow e He).
  - apply doParseStoredWorkspace_Normal.
  - intros e isFromUntitledWorkspace targetConfigPathURI He.
    destruct (Hthrow e He) as [-> _].
    unfold rewriteWorkspaceFileForNewLocation. rewrite He. reflexivity.
Qed.

Lemma editWorkspaceFile_requests raw rewrittenFolders storedWorkspace target :
  editWorkspaceFile raw rewrittenFolders storedWorkspace target
  = fold_left applyRequest (editRequests rewrittenFolders storedWorkspace target) raw.
Proof.
  unfold editWorkspaceFile, editRequests.
  destruct (resources_isEqualAuthority _ _); reflexivity.
Qed.

Lemma rewriteFolder_name source target untitled slashForPath folder stored :
  rewriteFolder source target untitled slashForPath folder = JS.Normal stored →
  storedFolderName stored = JS.get "name" folder.
Proof.
  unfold rewriteFolder, URI.parse_.
  destruct (isRawFileWorkspaceFolder folder); simpl.
  2: destruct (URI.parse _); simpl; [|discriminate].
  all: intros [= <-]; unfold getStoredWorkspaceFolder;
    repeat (case_match; try reflexivity).
Qed.

Lemma rewriteFolder_Normal source target untitled slashForPath folder :
  (isRawFileWorkspaceFolder folder = false →
   is_Some (URI.parse (JS.str (JS.get "uri" folder)))) →
  ∃ stored, rewriteFolder source target untitled slashForPath folder = JS.Normal stored.
Proof.
  intros Huri. unfold rewriteFolder, URI.parse_.
  destruct (isRawFileWorkspaceFolder folder); simpl; [eauto|].
  destruct (Huri eq_refl) as [u ->]. simpl. eauto.
Qed.

Lemma isStoredWorkspaceFolder_true obj :
  isStoredWorkspaceFolder obj = true
  ↔ ((∃ s, JS.get "path" obj = JS.Str s) ∨ (∃ s, JS.get "uri" obj = JS.Str s))
    ∧ (JS.truthy (JS.get "name" obj) = false ∨ ∃ s, JS.get "name" obj = JS.Str s).
Proof.
  unfold isStoredWorkspaceFolder, isRawFileWorkspaceFolder, isRawUriWorkspaceFolder.
  rewrite <- andb_orb_distrib_l, andb_true_iff, !orb_true_iff, negb_true_iff,
    !isString_true.
  reflexivity.
Qed.

(** C10, as the code has it. An element of the [folders] array that fails
    [isStoredWorkspaceFolder] (no string [path] and no string [uri], or a
    [name] that is truthy and not a string) is filtered out by the parse
    step, which logs nothing; an element with a string [path] or [uri] and a
    falsy [name] is kept. When [URI.parse] accepts the [uri] of every
    uri-form folder that is kept, [rewriteWorkspaceFileForNewLocation]
    succeeds, and the [folders] property it sets has one stored folder, with
    the same name, for each element kept and none for the others. *)
Theorem rewriteWorkspaceFileForNewLocation_filters_folders
    (rawWorkspaceContents : string) (configPathURI : URI.t)
    (isFromUntitledWorkspace : bool) (targetConfigPathURI : URI.t)
    (items : list JS.Value) :
  JS.get "folders" (json.parse rawWorkspaceContents) = JS.Arr items →
  let kept := List.filter isStoredWorkspaceFolder items in
  let storedWorkspace :=
    IStoredWorkspace.Build kept
      (JS.get "remoteAuthority" (json.parse rawWorkspaceContents)) in
  Forall (λ folder, isRawFileWorkspaceFolder folder = false →
                    is_Some (URI.parse (JS.str (JS.get "uri" folder)))) kept →
  (∀ obj, isStoredWorkspaceFolder obj = true
          ↔ ((∃ s, JS.get "path" obj = JS.Str s) ∨ (∃ s, JS.get "uri" obj = JS.Str s))
            ∧ (JS.truthy (JS.get "name" obj) = false
               ∨ ∃ s, JS.get "name" obj = JS.Str s))
  ∧ doParseStoredWorkspace configPathURI rawWorkspaceContents = JS.Normal storedWorkspace
  ∧ (∀ obj, In obj kept ↔ In obj items ∧ isStoredWorkspaceFolder obj = true)
  ∧ ∃ rewrittenFolders,
      rewriteWorkspaceFileForNewLocation rawWorkspaceContents configPathURI
        isFromUntitledWorkspace targetConfigPathURI
      = JS.Normal (fold_left applyRequest
                     (editRequests rewrittenFolders storedWorkspace targetConfigPathURI)
                     rawWorkspaceContents)
      ∧ head (editRequests rewrittenFolders storedWorkspace targetConfigPathURI)
        = Some (SetProperty ["folders"]
                  (JS.Arr (map storedFolderToValue rewrittenFolders)) formattingOptions)
      ∧ length rewrittenFolders = length kept
      ∧ Forall2 (λ folder stored, storedFolderName stored = JS.get "name" folder)
          kept rewrittenFolders.
Proof.
  intros Hfolders kept storedWorkspace Huris.
  pose proof (doParseStoredWorkspace_Normal configPathURI _ _ Hfolders) as Hparse.
  fold kept storedWorkspace in Hparse.
  split_and!.
  - apply isStoredWorkspaceFolder_true.
  - exact Hparse.
  - intros obj. apply filter_In.
  - set (rewrite := rewriteFolder (dirname configPathURI) (dirname targetConfigPathURI)
                      isFromUntitledWorkspace (useSlashForPath kept)).
    destruct (mapM_Normal rewrite kept) as (rewrittenFolders & HmapM & Hall).
    { eapply Forall_impl; [exact Huris|]. intros folder Hfolder.
      apply rewriteFolder_Normal, Hfolder. }
    exists rewrittenFolders. split_and!.
    + unfold rewriteWorkspaceFileForNewLocation. rewrite Hparse. simpl.
      fold rewrite. rewrite HmapM. simpl.
      now rewrite editWorkspaceFile_requests.
    + reflexivity.
    + symmetry. eapply Forall2_length, Hall.
    + eapply Forall2_impl; [exact Hall|]. intros folder stored.
      apply rewriteFolder_name.
Qed.

(** C5. Once the workspace file is parsed and its folders are rewritten,
    [rewriteWorkspaceFileForNewLocation] returns the input text with the
    edits of two requests applied in order, each to the text it was computed
    from: [jsonEdit.setProperty] at the path [folders], with the rewritten
    folders, and, when the stored remote authority is the one of the new
    location, [jsonEdit.removeProperty] at the path [remoteAuthority]; it
    returns a text in no other way. The formatting options of both requests
    are supplied by the function, the caller of the edit utility: tabs, tab
    size 4, and the line end of the platform. With an edit utility that makes
    minimal edits, the text after the first edit is the input text but for the
    characters of its [folders] property, and the text returned is that text,
    or that text but for the characters of its [remoteAuthority] property:
    everything else, comments and formatting included, is kept. *)
Theorem rewriteWorkspaceFileForNewLocation_edits
    (rawWorkspaceContents : string) (configPathURI : URI.t)
    (isFromUntitledWorkspace : bool) (targetConfigPathURI : URI.t) :
  let rewrite storedWorkspace :=
    JS.mapM (rewriteFolder (dirname configPathURI) (dirname targetConfigPathURI)
               isFromUntitledWorkspace
               (useSlashForPath (IStoredWorkspace.folders storedWorkspace)))
      (IStoredWorkspace.folders storedWorkspace) in
  let setFolders rewrittenFolders :=
    SetProperty ["folders"] (JS.Arr (map storedFolderToValue rewrittenFolders))
      formattingOptions in
  let removeRemoteAuthority := RemoveProperty ["remoteAuthority"] formattingOptions in
  formattingOptions
  = {| insertSpaces := false; tabSize := 4;
       eol := if isLinux || isMacintosh then LF else CRLF |}
  ∧ (∀ storedWorkspace rewrittenFolders,
       doParseStoredWorkspace configPathURI rawWorkspaceContents = JS.Normal storedWorkspace →
       rewrite storedWorkspace = JS.Normal rewrittenFolders →
       let requests := editRequests rewrittenFolders storedWorkspace targetConfigPathURI in
       let newContent := fold_left applyRequest requests rawWorkspaceContents in
       rewriteWorkspaceFileForNewLocation rawWorkspaceContents configPathURI
         isFromUntitledWorkspace targetConfigPathURI = JS.Normal newContent
       ∧ (requests = [setFolders rewrittenFolders]
          ∨ requests = [setFolders rewrittenFolders; removeRemoteAuthority])
       ∧ (requests = [setFolders rewrittenFolders; removeRemoteAuthority]
          ↔ resources_isEqualAuthority (IStoredWorkspace.remoteAuthority storedWorkspace)
              (getRemoteAuthority targetConfigPathURI) = true)
       ∧ (∀ request, request ∈ requests → requestOptions request = formattingOptions)
       ∧ (∀ region, minimalEdits region →
            let afterFolders :=
              applyRequest rawWorkspaceContents (setFolders rewrittenFolders) in
            replacesOnly (region rawWorkspaceContents ["folders"]) rawWorkspaceContents
              afterFolders
            ∧ (if resources_isEqualAuthority
                    (IStoredWorkspace.remoteAuthority storedWorkspace)
                    (getRemoteAuthority targetConfigPathURI)
               then replacesOnly (region afterFolders ["remoteAuthority"]) afterFolders
                      newContent
               else newContent = afterFolders)))
  ∧ (∀ newContent,
       rewriteWorkspaceFileForNewLocation rawWorkspaceContents configPathURI
         isFromUntitledWorkspace targetConfigPathURI = JS.Normal newContent →
       ∃ storedWorkspace rewrittenFolders,
         doParseStoredWorkspace configPathURI rawWorkspaceContents = JS.Normal storedWorkspace
         ∧ rewrite storedWorkspace = JS.Normal rewrittenFolders
         ∧ newContent
           = fold_left applyRequest
               (editRequests rewrittenFolders storedWorkspace targetConfigPathURI)
               rawWorkspaceContents).
Proof.
  intros rewrite setFolders removeRemoteAuthority. split; [reflexivity|]. split.
  - intros storedWorkspace rewrittenFolders Hparse Hrewrite requests newContent.
    subst requests newContent rewrite. simpl in Hrewrite.
    unfold rewriteWorkspaceFileForNewLocation. rewrite Hparse. simpl.
    rewrite Hrewrite. simpl. rewrite editWorkspaceFile_requests.
    split; [reflexivity|]. unfold editRequests.
    destruct (resources_isEqualAuthority _ _); simpl.
    + split; [right; reflexivity|]. split; [tauto|]. split.
      * intros request Hin. repeat apply elem_of_cons in Hin as [->|Hin]; try reflexivity.
        now apply elem_of_nil in Hin.
      * intros region Hminimal. split.
        -- apply (Hminimal rawWorkspaceContents ["folders"] formattingOptions).
        -- apply (Hminimal _ ["remoteAuthority"] formattingOptions).
    + split; [left; reflexivity|]. split; [split; discriminate|]. split.
      * intros request Hin. repeat apply elem_of_cons in Hin as [->|Hin]; try reflexivity.
        now apply elem_of_nil in Hin.
      * intros region Hminimal. split; [|reflexivity].
        apply (Hminimal rawWorkspaceContents ["folders"] formattingOptions).
  - intros newContent. unfold rewriteWorkspaceFileForNewLocation.
    destruct (doParseStoredWorkspace configPathURI rawWorkspaceContents)
      as [storedWorkspace|] eqn:Hparse; simpl; [|discriminate].
    destruct (JS.mapM _ _) as [rewrittenFolders|] eqn:HmapM; simpl; [|discriminate].
    intros [= <-]. exists storedWorkspace, rewrittenFolders.
    split; [reflexivity|]. split; [exact HmapM|]. apply editWorkspaceFile_requests.
Qed.

End RewriteProperties.

(** ** The properties on concrete inputs *)

Section OnExamples.
Import Sample Examples.

Lemma getStoredWorkspaceFolder_other_scheme_witness :
  URI.scheme (remoteURI "host" "/ws/a") ≠ URI.scheme (fileURI "/ws")
  ∧ @getStoredWorkspaceFolder linux uriOps pathOps extUri
      (remoteURI "host" "/ws/a") false (JS.Str "a") (fileURI "/ws") None
    = IRawUriWorkspaceFolder (JS.Str "a") "vscode-remote://host/ws/a"
  ∧ @getStoredWorkspaceFolder linux uriOps pathOps extUri
      (remoteURI "host" "/ws/a") true (JS.Str "a") (fileURI "/ws") None
    = IRawUriWorkspaceFolder (JS.Str "a") "vscode-remote://host/ws/a".
Proof.
  split; [discriminate|].
  split.
  - apply (@getStoredWorkspaceFolder_other_scheme linux uriOps pathOps extUri
             (remoteURI "host" "/ws/a") false (JS.Str "a") (fileURI "/ws") None).
    discriminate.
  - apply (@getStoredWorkspaceFolder_other_scheme linux uriOps pathOps extUri
             (remoteURI "host" "/ws/a") true (JS.Str "a") (fileURI "/ws") None).
    discriminate.
Defined.

(** On Windows, with the slash flag off, the folder [/ws/a/b] of a remote
    host is stored relative to [/ws] as [a/b]: the slash is not replaced,
    because the scheme is not [file]. *)
Lemma getStoredWorkspaceFolder_windows_remote_keeps_slashes :
  @isWindows windows = true
  ∧ @relativePath extUri (remoteURI "host" "/ws") (remoteURI "host" "/ws/a/b") = Some "a/b"
  ∧ @getStoredWorkspaceFolder windows uriOps pathOps extUri
      (remoteURI "host" "/ws/a/b") false JS.Undefined (remoteURI "host" "/ws") (Some false)
    = IRawFileWorkspaceFolder JS.Undefined "a/b"
  ∧ replaceAll slash backslash "a/b" = "a\b"
  ∧ "a/b" ≠ "a\b"
  ∧ ∀ (UO : URI.Ops) (PO : PathOps) (E : IExtUri),
      @relativePath E (remoteURI "host" "/ws") (remoteURI "host" "/ws/a/b") = Some "a/b" →
      @getStoredWorkspaceFolder windows UO PO E
        (remoteURI "host" "/ws/a/b") false JS.Undefined (remoteURI "host" "/ws") (Some false)
      = IRawFileWorkspaceFolder JS.Undefined "a/b".
Proof.
  do 4 (split; [reflexivity|]). split; [discriminate|].
  intros UO PO E Hrel. unfold getStoredWorkspaceFolder. simpl. now rewrite Hrel.
Qed.

Lemma getStoredWorkspaceFolder_windows_backslashes_witness :
  @isWindows windows = true
  ∧ URI.scheme (fileURI "/ws/a/b") = URI.scheme (fileURI "/ws")
  ∧ URI.scheme (fileURI "/ws/a/b") = Schemas.file
  ∧ @relativePath extUri (fileURI "/ws") (fileURI "/ws/a/b") = Some "a/b"
  ∧ "a/b" ≠ EmptyString
  ∧ @getStoredWorkspaceFolder windows uriOps pathOps extUri
      (fileURI "/ws/a/b") false JS.Undefined (fileURI "/ws") (Some false)
    = IRawFileWorkspaceFolder JS.Undefined "a\b"
  ∧ URI.scheme (remoteURI "host" "/ws/a/b") = URI.scheme (remoteURI "host" "/ws")
  ∧ URI.scheme (remoteURI "host" "/ws/a/b") ≠ Schemas.file
  ∧ @relativePath extUri (remoteURI "host" "/ws") (remoteURI "host" "/ws/a/b") = Some "a/b"
  ∧ @getStoredWorkspaceFolder windows uriOps pathOps extUri
      (remoteURI "host" "/ws/a/b") false JS.Undefined (remoteURI "host" "/ws") (Some false)
    = IRawFileWorkspaceFolder JS.Undefined "a/b".
Proof.
  do 4 (split; [reflexivity|]). split; [discriminate|].
  split.
  - apply (proj1 (@getStoredWorkspaceFolder_windows_backslashes windows uriOps pathOps
                    extUri (fileURI "/ws/a/b") JS.Undefined (fileURI "/ws") "a/b"
                    eq_refl eq_refl eq_refl ltac:(discriminate)) eq_refl).
  - split; [reflexivity|]. split; [discriminate|]. split; [reflexivity|].
    apply (proj2 (@getStoredWorkspaceFolder_windows_backslashes windows uriOps pathOps
                    extUri (remoteURI "host" "/ws/a/b") JS.Undefined (remoteURI "host" "/ws")
                    "a/b" eq_refl eq_refl eq_refl ltac:(discriminate))).
    discriminate.
Defined.

(** The root of a remote host, a URI with an empty path, is stored for a
    config folder on that host, when forced absolute, with the empty path.
    Rewriting a workspace file that has this folder in the uri form gives a
    text whose only folder has the empty path. *)
Lemma getStoredWorkspaceFolder_empty_path :
  @getStoredWorkspaceFolder linux uriOps pathOps extUri
    (remoteURI "host" EmptyString) true JS.Undefined (remoteURI "host" "/ws") None
  = IRawFileWorkspaceFolder JS.Undefined EmptyString
  ∧ URI.parse "vscode-remote://host" = Some (remoteURI "host" EmptyString)
  ∧ (∃ newContent,
      @rewriteWorkspaceFileForNewLocation linux uriOps pathOps extUri jsonOps jsonEditOps
        remoteOps remoteWorkspaceFile (remoteURI "host" "/ws/w.code-workspace") false
        (remoteURI "host" "/other/w.code-workspace")
      = JS.Normal newContent
      ∧ JS.get "folders" (json.parse newContent)
        = JS.Arr [JS.Obj [("path", JS.Str EmptyString)]])
  ∧ ∀ (PF : Platform) (UO : URI.Ops) (PO : PathOps) (E : IExtUri) useSlash,
      @isEqualAuthority E "host" "host" = true →
      @getStoredWorkspaceFolder PF UO PO E
        (remoteURI "host" EmptyString) true JS.Undefined (remoteURI "host" "/ws") useSlash
      = IRawFileWorkspaceFolder JS.Undefined EmptyString.
Proof.
  split; [reflexivity|]. split; [reflexivity|]. split.
  - exists (sample_print (@formattingOptions linux)
              (JS.Obj [("folders", JS.Arr [JS.Obj [("path", JS.Str EmptyString)]])])).
    split; vm_compute; reflexivity.
  - intros PF UO PO E useSlash Hauth. unfold getStoredWorkspaceFolder. simpl.
    now rewrite Hauth.
Qed.

Lemma getStoredWorkspaceFolder_path_not_empty_witness :
  (@relativePath extUri (fileURI "/ws") (fileURI "/ws") = Some EmptyString
   ∧ @getStoredWorkspaceFolder linux uriOps pathOps extUri
       (fileURI "/ws") false JS.Undefined (fileURI "/ws") None
     = IRawFileWorkspaceFolder JS.Undefined ".")
  ∧ (@absoluteFormNotEmpty uriOps pathOps (fileURI "/ws/a")
     ∧ @getStoredWorkspaceFolder linux uriOps pathOps extUri
         (fileURI "/ws/a") true JS.Undefined (fileURI "/ws") None
       = IRawFileWorkspaceFolder JS.Undefined "/ws/a"
     ∧ "/ws/a" ≠ EmptyString).
Proof.
  pose proof (@getStoredWorkspaceFolder_path_not_empty linux uriOps pathOps extUri) as H.
  split.
  - split; [reflexivity|].
    apply (proj1 (H (fileURI "/ws") false JS.Undefined (fileURI "/ws") None));
      reflexivity.
  - assert (@absoluteFormNotEmpty uriOps pathOps (fileURI "/ws/a")) as Habs.
    { vm_compute. split_and!; discriminate. }
    split_and!; [exact Habs | reflexivity |].
    apply (proj2 (H (fileURI "/ws/a") true JS.Undefined (fileURI "/ws") None)
             JS.Undefined "/ws/a"); [right; exact Habs | reflexivity].
Defined.

Lemma toWorkspaceFolders_dedup_index_name_witness :
  let src := JS.Obj [("path", JS.Str "src")] in
  let lib := JS.Obj [("path", JS.Str "lib"); ("name", JS.Str "Library")] in
  let again := JS.Obj [("uri", JS.Str "file:///ws/src"); ("name", JS.Str "Again")] in
  let r := @toWorkspaceFolders uriOps extUri [src; lib; again]
             (fileURI "/ws/w.code-workspace") in
  r = [WorkspaceFolder.Build (fileURI "/ws/src") (JS.Str "src") 0 src;
       WorkspaceFolder.Build (fileURI "/ws/lib") (JS.Str "Library") 1 lib]
  ∧ WorkspaceFolder.index <$> r = seq 0 (length r)
  ∧ NoDup (comparisonKeyOf <$> (locationAndRaw <$> r)).
Proof.
  intros src lib again r.
  pose proof (@toWorkspaceFolders_dedup_index_name uriOps extUri [src; lib; again]
                (fileURI "/ws/w.code-workspace")) as H.
  cbv zeta in H. fold r in H.
  split; [vm_compute; reflexivity|].
  split; [apply H | apply H].
Defined.

Lemma restoreRecentlyOpened_toStoreData_witness :
  Forall (@roundTrips uriOps) (uriOfWorkspaceOrFolder <$> workspaces recentlyOpened)
  ∧ Forall (@roundTrips uriOps) (uriOfFile <$> files recentlyOpened)
  ∧ @restoreRecentlyOpened uriOps (@toStoreData uriOps recentlyOpened)
    = {| recents := recentlyOpened; warnings := [] |}.
Proof.
  assert (Forall (@roundTrips uriOps) (uriOfWorkspaceOrFolder <$> workspaces recentlyOpened))
    as Hws by (repeat constructor).
  assert (Forall (@roundTrips uriOps) (uriOfFile <$> files recentlyOpened))
    as Hfs by (repeat constructor).
  split; [exact Hws|]. split; [exact Hfs|].
  apply (@restoreRecentlyOpened_toStoreData uriOps recentlyOpened Hws Hfs).
Defined.

(** An entry that has the [workspace] property, without a [configPath], and
    a [folderUri] is restored as a folder. *)
Lemma restoreRecentlyOpened_workspace_key_as_folder :
  JS.hasOwnProperty "workspace" workspaceKeyWithFolderUri = true
  ∧ JS.hasOwnProperty "folderUri" workspaceKeyWithFolderUri = true
  ∧ @restoreRecentlyOpened uriOps (currentData [workspaceKeyWithFolderUri])
    = {| recents :=
           {| workspaces := [IRecentFolder JS.Undefined JS.Undefined (fileURI "/f")];
              files := [] |};
         warnings := [] |}
  ∧ ∀ (UO : URI.Ops) folderUri,
      @URI.parse UO "file:///f" = Some folderUri →
      @restoreRecentlyOpened UO (currentData [workspaceKeyWithFolderUri])
      = {| recents :=
             {| workspaces := [IRecentFolder JS.Undefined JS.Undefined folderUri];
                files := [] |};
           warnings := [] |}.
Proof.
  do 3 (split; [vm_compute; reflexivity|]).
  intros UO folderUri Hparse.
  unfold restoreRecentlyOpened, restoreGracefully, currentData. simpl.
  unfold restoreEntry, URI.parse_. simpl. now rewrite Hparse.
Qed.

Lemma restoreEntry_priority_witness :
  JS.nullish workspaceWithFolderUri = false
  ∧ isSerializedRecentWorkspace workspaceWithFolderUri = true
  ∧ isSerializedRecentFolder workspaceWithFolderUri = true
  ∧ @restoreEntry uriOps workspaceWithFolderUri 0 emptyRecents
    = JS.Normal
        {| workspaces :=
             [IRecentWorkspace JS.Undefined JS.Undefined
                (IWorkspaceIdentifier.Build "w" (fileURI "/a/w.code-workspace"))];
           files := [] |}.
Proof.
  do 3 (split; [reflexivity|]).
  destruct (@restoreEntry_priority uriOps workspaceWithFolderUri 0 emptyRecents eq_refl)
    as (_ & _ & _ & Hworkspace & _).
  rewrite Hworkspace by reflexivity. reflexivity.
Defined.

Lemma doParseStoredWorkspace_fails_without_folders_array_witness :
  (¬ ∃ items, JS.get "folders" (@json.parse jsonOps "[]") = JS.Arr items)
  ∧ (∃ e, @doParseStoredWorkspace uriOps jsonOps (fileURI "/ws/w.code-workspace") "[]"
          = JS.Throw e)
  ∧ @rewriteWorkspaceFileForNewLocation linux uriOps pathOps extUri jsonOps jsonEditOps
      remoteOps "[]" (fileURI "/ws/w.code-workspace") false
      (fileURI "/ws/sub/w.code-workspace")
    = JS.Throw (JS.InvalidWorkspaceFile "file:///ws/w.code-workspace").
Proof.
  destruct (@doParseStoredWorkspace_fails_without_folders_array linux uriOps pathOps extUri
              jsonOps jsonEditOps remoteOps (fileURI "/ws/w.code-workspace") "[]")
    as (Hiff & _ & _ & Hrewrite).
  assert (¬ ∃ items, JS.get "folders" (@json.parse jsonOps "[]") = JS.Arr items) as Hno.
  { intros [items Hitems]. vm_compute in Hitems. discriminate. }
  split; [exact Hno|]. split.
  - apply Hiff, Hno.
  - destruct (proj2 Hiff Hno) as [e He]. apply (Hrewrite e false _ He).
Defined.

(** The folder [{ path: a, name: 0 }] is not of a declared shape, as its
    name is a number; the parse step keeps it, and the rewritten text has a
    folder for it. *)
Lemma rewriteWorkspaceFileForNewLocation_keeps_folder_named_zero :
  isDeclaredStoredWorkspaceFolder folderNamedZero = false
  ∧ JS.get "folders" (@json.parse jsonOps workspaceFile) = JS.Arr workspaceFileFolders
  ∧ In folderNamedZero workspaceFileFolders
  ∧ @doParseStoredWorkspace uriOps jsonOps (fileURI "/ws/w.code-workspace") workspaceFile
    = JS.Normal (IStoredWorkspace.Build
                   [folderNamedZero; JS.Obj [("path", JS.Str "lib/b")]] JS.Undefined)
  ∧ (∃ newContent,
      @rewriteWorkspaceFileForNewLocation linux uriOps pathOps extUri jsonOps jsonEditOps
        remoteOps workspaceFile (fileURI "/ws/w.code-workspace") false
        (fileURI "/ws/sub/w.code-workspace")
      = JS.Normal newContent
      ∧ JS.get "folders" (json.parse newContent)
        = JS.Arr [JS.Obj [("name", JS.Num 0); ("path", JS.Str "../a")];
                  JS.Obj [("path", JS.Str "../lib/b")]])
  ∧ ∀ (UO : URI.Ops) (JP : json.Ops) path contents,
      JS.get "folders" (@json.parse JP contents) = JS.Arr workspaceFileFolders →
      IStoredWorkspace.folders <$> @doParseStoredWorkspace UO JP path contents
      = JS.Normal [folderNamedZero; JS.Obj [("path", JS.Str "lib/b")]].
Proof.
  split; [reflexivity|].
  split; [vm_compute; reflexivity|].
  split; [right; left; reflexivity|].
  split; [vm_compute; reflexivity|].
  split.
  - exists (sample_print (@formattingOptions linux) rewrittenWorkspace).
    split; vm_compute; reflexivity.
  - intros UO JP path contents Hfolders. unfold doParseStoredWorkspace.
    rewrite (get_folders_truthy _ _ Hfolders), Hfolders. reflexivity.
Qed.

Lemma rewriteWorkspaceFileForNewLocation_filters_folders_witness :
  JS.get "folders" (@json.parse jsonOps workspaceFile) = JS.Arr workspaceFileFolders
  ∧ Forall (λ folder, isRawFileWorkspaceFolder folder = false →
                      is_Some (@URI.parse uriOps (JS.str (JS.get "uri" folder))))
      (List.filter isStoredWorkspaceFolder workspaceFileFolders)
  ∧ List.filter isStoredWorkspaceFolder workspaceFileFolders
    = [folderNamedZero; JS.Obj [("path", JS.Str "lib/b")]]
  ∧ ∃ rewrittenFolders,
      @rewriteWorkspaceFileForNewLocation linux uriOps pathOps extUri jsonOps jsonEditOps
        remoteOps workspaceFile (fileURI "/ws/w.code-workspace") false
        (fileURI "/ws/sub/w.code-workspace")
      = JS.Normal
          (fold_left (@applyRequest jsonEditOps)
             (@editRequests linux remoteOps rewrittenFolders
                (IStoredWorkspace.Build
                   (List.filter isStoredWorkspaceFolder workspaceFileFolders)
                   (JS.get "remoteAuthority" (@json.parse jsonOps workspaceFile)))
                (fileURI "/ws/sub/w.code-workspace"))
             workspaceFile)
      ∧ length rewrittenFolders = 2.
Proof.
  assert (JS.get "folders" (@json.parse jsonOps workspaceFile) = JS.Arr workspaceFileFolders)
    as Hfolders by (vm_compute; reflexivity).
  assert (Forall (λ folder, isRawFileWorkspaceFolder folder = false →
                            is_Some (@URI.parse uriOps (JS.str (JS.get "uri" folder))))
            (List.filter isStoredWorkspaceFolder workspaceFileFolders)) as Huris.
  { repeat constructor; discriminate. }
  split; [exact Hfolders|]. split; [exact Huris|]. split; [reflexivity|].
  destruct (@rewriteWorkspaceFileForNewLocation_filters_folders linux uriOps pathOps extUri
              jsonOps jsonEditOps remoteOps workspaceFile (fileURI "/ws/w.code-workspace")
              false (fileURI "/ws/sub/w.code-workspace") workspaceFileFolders Hfolders Huris)
    as (_ & _ & _ & rewrittenFolders & Hrewrite & _ & Hlength & _).
  exists rewrittenFolders. split; [exact Hrewrite | exact Hlength].
Defined.

End OnExamples.

(** * More properties *)

(** ** Resolving the stored folders, continued *)

Section MoreToWorkspaceFolders.
Context `{UO : URI.Ops} `{extUri : IExtUri}.

(** The result in closed form: the resolved folders, deduplicated, each at
    its position. *)
Lemma toWorkspaceFolders_closed_form configuredFolders workspaceConfigFile :
  toWorkspaceFolders configuredFolders workspaceConfigFile
  = imap folderAt (keepFirst (resolvedFolders (dirname workspaceConfigFile) configuredFolders)).
Proof.
  destruct (toWorkspaceFolders_spec configuredFolders workspaceConfigFile)
    as (Hkeep & Hidx & Hname).
  cbv zeta in *. set (r := toWorkspaceFolders _ _) in *.
  rewrite <- Hkeep. apply list_eq. intros i.
  rewrite list_lookup_imap, list_lookup_fmap.
  destruct (r !! i) as [f|] eqn:Hf; simpl; [|reflexivity].
  f_equal.
  assert (WorkspaceFolder.index f = i) as Hi.
  { assert ((WorkspaceFolder.index <$> r) !! i = Some (WorkspaceFolder.index f)) as Hl
      by (rewrite list_lookup_fmap, Hf; reflexivity).
    rewrite Hidx in Hl. apply lookup_seq in Hl. lia. }
  assert (WorkspaceFolder.name f = nameOrDefault f) as Hn.
  { rewrite Forall_forall in Hname. apply Hname.
    apply list_elem_of_lookup. eauto. }
  destruct f as [uri name index raw]. simpl in Hi. subst index.
  unfold folderAt, locationAndRaw. simpl. f_equal. exact Hn.
Qed.

Lemma configuredFolderUri_Some_stored relativeTo folder uri :
  configuredFolderUri relativeTo folder = Some uri →
  isStoredWorkspaceFolder folder = true.
Proof.
  unfold configuredFolderUri, isStoredWorkspaceFolder.
  destruct (isRawFileWorkspaceFolder folder); [reflexivity|].
  destruct (isRawUriWorkspaceFolder folder); [reflexivity | discriminate].
Qed.

Lemma resolvedFolders_length relativeTo l :
  length (resolvedFolders relativeTo l) ≤ length l.
Proof.
  induction l as [|folder l IH]; [reflexivity|].
  rewrite resolvedFolders_cons.
  destruct (configuredFolderUri relativeTo folder); simpl; lia.
Qed.

Lemma resolvedFolders_app relativeTo l1 l2 :
  resolvedFolders relativeTo (l1 ++ l2)
  = resolvedFolders relativeTo l1 ++ resolvedFolders relativeTo l2.
Proof. apply omap_app. Qed.

Lemma resolvedFolders_filter relativeTo l :
  resolvedFolders relativeTo (List.filter isStoredWorkspaceFolder l)
  = resolvedFolders relativeTo l.
Proof.
  induction l as [|folder l IH]; [reflexivity|]. cbn [List.filter].
  destruct (isStoredWorkspaceFolder folder) eqn:Hstored.
  - rewrite !resolvedFolders_cons, IH. reflexivity.
  - rewrite resolvedFolders_cons, IH.
    destruct (configuredFolderUri relativeTo folder) as [uri|] eqn:Huri; [|reflexivity].
    apply configuredFolderUri_Some_stored in Huri. congruence.
Qed.

Lemma keepFirstFrom_app earlier l1 l2 :
  keepFirstFrom earlier (l1 ++ l2)
  = keepFirstFrom earlier l1 ++ keepFirstFrom (earlier ++ l1) l2.
Proof.
  revert earlier. induction l1 as [|x l1 IH]; intros earlier; simpl.
  - now rewrite app_nil_r.
  - rewrite IH, <- !app_assoc. reflexivity.
Qed.

Lemma keepFirstFrom_absorbed earlier l :
  (∀ x, x ∈ l → comparisonKeyOf x ∈ comparisonKeyOf <$> earlier) →
  keepFirstFrom earlier l = [].
Proof.
  revert earlier. induction l as [|x l IH]; intros earlier Hin; simpl; [reflexivity|].
  rewrite decide_True by (apply Hin; left). simpl.
  apply IH. intros y Hy. rewrite fmap_app, elem_of_app. left. apply Hin. now right.
Qed.

(** X1. A configured folder has no location exactly when it is of neither
    form, or of the path form with the empty path (whatever [uri] it has),
    or of the uri form only with a uri that [URI.parse] rejects. Such a
    folder leaves no trace: the result is the one of the list without it, so
    the folders after it keep their index. *)
Theorem toWorkspaceFolders_skips_folders_without_location
    (workspaceConfigFile : URI.t) (folder : JS.Value) :
  (configuredFolderUri (dirname workspaceConfigFile) folder = None
   ↔ isStoredWorkspaceFolder folder = false
     ∨ (isRawFileWorkspaceFolder folder = true ∧ JS.get "path" folder = JS.Str EmptyString)
     ∨ (isRawFileWorkspaceFolder folder = false
        ∧ isRawUriWorkspaceFolder folder = true
        ∧ URI.parse (JS.str (JS.get "uri" folder)) = None))
  ∧ (configuredFolderUri (dirname workspaceConfigFile) folder = None →
     ∀ before after,
       toWorkspaceFolders (before ++ folder :: after) workspaceConfigFile
       = toWorkspaceFolders (before ++ after) workspaceConfigFile).
Proof.
  split.
  - unfold configuredFolderUri, isStoredWorkspaceFolder.
    destruct (isRawFileWorkspaceFolder folder) eqn:Hfile; simpl.
    + unfold isRawFileWorkspaceFolder in Hfile.
      apply andb_true_iff in Hfile as [Hpath _]. apply isString_true in Hpath as [p Hp].
      rewrite Hp. simpl. destruct p as [|a p]; simpl.
      * split; [intros _; right; left; auto | reflexivity].
      * split; [discriminate|].
        intros [H|[[_ H]|[H _]]]; discriminate.
    + destruct (isRawUriWorkspaceFolder folder) eqn:Huri; simpl.
      * destruct (URI.parse _) as [u|] eqn:Hparse.
        -- split.
           ++ destruct (URI.path u) as [|a rest]; [discriminate|].
              destruct (Ascii.eqb_spec a "/"); [subst|]; try discriminate.
              destruct a as [[] [] [] [] [] [] [] []]; discriminate.
           ++ intros [H|[[H _]|(_ & _ & H)]]; discriminate.
        -- split; [intros _; right; right; auto | reflexivity].
      * split; [intros _; left; reflexivity | reflexivity].
  - intros Huri before after. rewrite !toWorkspaceFolders_closed_form.
    rewrite !resolvedFolders_app, resolvedFolders_cons, Huri. reflexivity.
Qed.

(** X2. The filter of [doParseStoredWorkspace] changes nothing for
    [toWorkspaceFolders]: the folders it removes have no location. *)
Theorem toWorkspaceFolders_of_filtered
    (folders : list JS.Value) (workspaceConfigFile : URI.t) :
  toWorkspaceFolders (List.filter isStoredWorkspaceFolder folders) workspaceConfigFile
  = toWorkspaceFolders folders workspaceConfigFile.
Proof.
  rewrite !toWorkspaceFolders_closed_form, resolvedFolders_filter. reflexivity.
Qed.

(** X3. Every workspace folder of the result comes from a configured folder
    of the list that passes [isStoredWorkspaceFolder]; its name is a string,
    and when it comes from a folder of the uri form its path starts with a
    slash. There are no more folders than configured ones. *)
Theorem toWorkspaceFolders_result_well_formed
    (configuredFolders : list JS.Value) (workspaceConfigFile : URI.t) :
  let r := toWorkspaceFolders configuredFolders workspaceConfigFile in
  length r ≤ length configuredFolders
  ∧ ∀ f, f ∈ r →
      WorkspaceFolder.raw f ∈ configuredFolders
      ∧ isStoredWorkspaceFolder (WorkspaceFolder.raw f) = true
      ∧ configuredFolderUri (dirname workspaceConfigFile) (WorkspaceFolder.raw f)
        = Some (WorkspaceFolder.uri f)
      ∧ (∃ s, WorkspaceFolder.name f = JS.Str s)
      ∧ (isRawFileWorkspaceFolder (WorkspaceFolder.raw f) = false →
         startsWithSlash (URI.path (WorkspaceFolder.uri f))).
Proof.
  intros r.
  destruct (toWorkspaceFolders_spec configuredFolders workspaceConfigFile)
    as (Hkeep & _ & Hname).
  fold r in Hkeep, Hname.
  assert ((locationAndRaw <$> r)
            `sublist_of` resolvedFolders (dirname workspaceConfigFile) configuredFolders)
    as Hsub by (rewrite Hkeep; apply keepFirstFrom_sublist).
  split.
  - apply sublist_length in Hsub. rewrite length_fmap in Hsub.
    etransitivity; [exact Hsub|]. apply resolvedFolders_length.
  - intros f Hf.
    assert (locationAndRaw f
              ∈ resolvedFolders (dirname workspaceConfigFile) configuredFolders) as Hres.
    { eapply elem_of_sublist; [|exact Hsub]. now apply list_elem_of_fmap_2. }
    apply list_elem_of_omap in Hres as (folder & Hin & Hsome).
    destruct (configuredFolderUri _ folder) as [uri|] eqn:Huri; [|discriminate].
    simpl in Hsome. unfold locationAndRaw in Hsome.
    injection Hsome as Huri' Hraw. subst folder uri.
    pose proof (configuredFolderUri_Some_stored _ _ _ Huri) as Hstored.
    split_and!; try assumption.
    + rewrite Forall_forall in Hname. rewrite (Hname f Hf). unfold nameOrDefault, JS.or.
      destruct (JS.truthy (JS.get "name" (WorkspaceFolder.raw f))) eqn:Htruthy; [|eauto].
      apply isStoredWorkspaceFolder_true in Hstored as [_ [Hfalsy|Hstr]];
        [congruence | exact Hstr].
    + intros Hnotfile. unfold configuredFolderUri in Huri. rewrite Hnotfile in Huri.
      destruct (isRawUriWorkspaceFolder _); [|discriminate].
      destruct (URI.parse _) as [u|]; [|discriminate].
      destruct (URI.path u) as [|a rest] eqn:Hpath.
      * injection Huri as <-. simpl. now exists EmptyString.
      * destruct (Ascii.eqb_spec a "/") as [->|Hne].
        -- injection Huri as <-. rewrite Hpath. now exists rest.
        -- assert (WorkspaceFolder.uri f = URI.with_path u ("/" ++ URI.path u)) as ->.
           { destruct a as [[] [] [] [] [] [] [] []]; try congruence;
               injection Huri as <-; now rewrite Hpath. }
           simpl. eexists. reflexivity.
Qed.

(** X4. Adding configured folders at the end keeps the workspace folders
    already there, with their index and name: the result for a list is a
    prefix of the result for a longer list. *)
Theorem toWorkspaceFolders_prefix
    (configuredFolders more : list JS.Value) (workspaceConfigFile : URI.t) :
  toWorkspaceFolders configuredFolders workspaceConfigFile
  `prefix_of` toWorkspaceFolders (configuredFolders ++ more) workspaceConfigFile.
Proof.
  rewrite !toWorkspaceFolders_closed_form, resolvedFolders_app.
  unfold keepFirst. rewrite keepFirstFrom_app, imap_app.
  eexists. reflexivity.
Qed.

(** X5. Configured folders that resolve to locations already resolved add
    nothing; in particular a list followed by itself gives the result of the
    list. *)
Theorem toWorkspaceFolders_absorbs_known_locations
    (configuredFolders more : list JS.Value) (workspaceConfigFile : URI.t) :
  ((∀ x, x ∈ resolvedFolders (dirname workspaceConfigFile) more →
         comparisonKeyOf x
         ∈ comparisonKeyOf
           <$> resolvedFolders (dirname workspaceConfigFile) configuredFolders) →
   toWorkspaceFolders (configuredFolders ++ more) workspaceConfigFile
   = toWorkspaceFolders configuredFolders workspaceConfigFile)
  ∧ toWorkspaceFolders (configuredFolders ++ configuredFolders) workspaceConfigFile
    = toWorkspaceFolders configuredFolders workspaceConfigFile.
Proof.
  assert (∀ more',
            (∀ x, x ∈ resolvedFolders (dirname workspaceConfigFile) more' →
                  comparisonKeyOf x
                  ∈ comparisonKeyOf
                    <$> resolvedFolders (dirname workspaceConfigFile) configuredFolders) →
            toWorkspaceFolders (configuredFolders ++ more') workspaceConfigFile
            = toWorkspaceFolders configuredFolders workspaceConfigFile) as Habsorb.
  { intros more' Hknown. rewrite !toWorkspaceFolders_closed_form, resolvedFolders_app.
    unfold keepFirst. rewrite keepFirstFrom_app. simpl.
    rewrite (keepFirstFrom_absorbed _ _ Hknown). now rewrite app_nil_r. }
  split; [apply Habsorb|].
  apply Habsorb. intros x Hx. now apply list_elem_of_fmap_2.
Qed.

End MoreToWorkspaceFolders.

(** ** The folder path resolver, continued *)

Section MoreGetStoredWorkspaceFolder.
Context `{PF : Platform} `{UO : URI.Ops} `{PO : PathOps} `{extUri : IExtUri}.

(** X6. The slash flag plays a part only on Windows and only for a folder
    of the [file] scheme: off Windows, or for a folder of another scheme, the
    stored folder is the same for every value of the flag, given or left
    out. *)
Theorem getStoredWorkspaceFolder_slash_flag
    (folderURI : URI.t) (forceAbsolute : bool) (folderName : JS.Value)
    (targetConfigFolderURI : URI.t) (useSlash useSlash' : option bool) :
  isWindows = false ∨ URI.scheme folderURI ≠ Schemas.file →
  getStoredWorkspaceFolder folderURI forceAbsolute folderName targetConfigFolderURI useSlash
  = getStoredWorkspaceFolder folderURI forceAbsolute folderName targetConfigFolderURI useSlash'.
Proof.
  intros [Hwin|Hfile]; unfold getStoredWorkspaceFolder.
  - rewrite Hwin. simpl. reflexivity.
  - apply String.eqb_neq in Hfile. rewrite Hfile, andb_false_r. simpl. reflexivity.
Qed.

(** X7. The stored folder always carries the name it was given. It is of
    the uri form exactly when the schemes differ, or when no relative path is
    used (forced absolute, or none exists), the scheme is not [file] and the
    authorities differ; its uri is then [folderURI.toString(true)]. So a
    [file] folder is stored by path for every config folder of the [file]
    scheme, whatever the authorities. *)
Theorem getStoredWorkspaceFolder_form
    (folderURI : URI.t) (forceAbsolute : bool) (folderName : JS.Value)
    (targetConfigFolderURI : URI.t) (useSlash : option bool) :
  let relative :=
    if forceAbsolute then None else relativePath targetConfigFolderURI folderURI in
  let stored :=
    getStoredWorkspaceFolder folderURI forceAbsolute folderName targetConfigFolderURI
      useSlash in
  storedFolderName stored = folderName
  ∧ ((∃ uri, stored = IRawUriWorkspaceFolder folderName uri)
     ↔ URI.scheme folderURI ≠ URI.scheme targetConfigFolderURI
       ∨ (relative = None
          ∧ URI.scheme folderURI ≠ Schemas.file
          ∧ isEqualAuthority (URI.authority folderURI)
              (URI.authority targetConfigFolderURI) = false))
  ∧ (∀ uri, stored = IRawUriWorkspaceFolder folderName uri →
            uri = URI.toString folderURI true).
Proof.
  intros relative stored. subst relative stored. unfold getStoredWorkspaceFolder.
  destruct (String.eqb_spec (URI.scheme folderURI) (URI.scheme targetConfigFolderURI))
    as [Hscheme|Hscheme]; simpl.
  2: { split_and!; [reflexivity | | now intros uri [= <-]].
       split; [intros _; now left | intros _; eauto]. }
  assert (∀ name path uri,
            IRawFileWorkspaceFolder name path ≠ IRawUriWorkspaceFolder folderName uri)
    as Hpath by discriminate.
  destruct forceAbsolute; simpl.
  2: destruct (relativePath targetConfigFolderURI folderURI) as [folderPath|].
  2: { repeat case_match; simpl.
       all: split; [reflexivity|].
       all: split; [split | intros uri Heq; now apply Hpath in Heq].
       all: try (intros [uri Heq]; now apply Hpath in Heq).
       all: intros [?|(? & ? & ?)]; [contradiction | discriminate]. }
  all: destruct (String.eqb_spec (URI.scheme folderURI) Schemas.file) as [Hfile|Hfile].
  all: repeat case_match; simpl.
  all: split; [reflexivity|].
  all: split; [split | intros uri Heq; try (now apply Hpath in Heq);
                       now injection Heq as <-].
  all: repeat match goal with
              | H : negb _ = true |- _ => apply negb_true_iff in H
              | H : negb _ = false |- _ => apply negb_false_iff in H
              end.
  all: try (intros [uri Heq]; now apply Hpath in Heq).
  all: try (intros [?|(? & ? & ?)]; try contradiction; try congruence; eauto; fail).
  all: intros _; right; split_and!; try reflexivity; assumption.
Qed.

(** X8. What is stored is read back. Off Windows, a folder stored by its
    relative path, or by [.] for the empty one, is resolved by
    [toWorkspaceFolders] to its location when [resolvePath] undoes
    [relativePath]; a folder stored by uri is resolved to its location when
    [URI.parse] undoes [toString(true)] and its path starts with a slash. The
    name is read back too, or the default for a missing one. *)
Theorem getStoredWorkspaceFolder_read_back
    (folderURI : URI.t) (forceAbsolute : bool) (folderName : JS.Value)
    (workspaceConfigFile : URI.t) (useSlash : option bool) :
  JS.truthy folderName = false ∨ (∃ s, folderName = JS.Str s) →
  let stored :=
    getStoredWorkspaceFolder folderURI forceAbsolute folderName
      (dirname workspaceConfigFile) useSlash in
  let readBack :=
    [WorkspaceFolder.Build folderURI
       (JS.or folderName (JS.Str (basenameOrAuthority folderURI))) 0
       (storedFolderToValue stored)] in
  (∀ relative,
     isWindows = false →
     forceAbsolute = false →
     URI.scheme folderURI = URI.scheme (dirname workspaceConfigFile) →
     relativePath (dirname workspaceConfigFile) folderURI = Some relative →
     resolvePath (dirname workspaceConfigFile)
       (if String.eqb relative EmptyString then "." else relative) = folderURI →
     toWorkspaceFolders [storedFolderToValue stored] workspaceConfigFile = readBack)
  ∧ (URI.scheme folderURI ≠ URI.scheme (dirname workspaceConfigFile) →
     URI.parse (URI.toString folderURI true) = Some folderURI →
     startsWithSlash (URI.path folderURI) →
     toWorkspaceFolders [storedFolderToValue stored] workspaceConfigFile = readBack).
Proof.
  intros Hname stored readBack.
  assert (negb (JS.truthy folderName) || JS.isString folderName = true) as Hguard.
  { destruct Hname as [->|[s ->]]; [reflexivity | apply orb_true_r]. }
  split.
  - intros relative Hwin -> Hscheme Hrel Hresolve.
    assert (stored = IRawFileWorkspaceFolder folderName
                       (if String.eqb relative EmptyString then "." else relative))
      as Hstored.
    { subst stored. unfold getStoredWorkspaceFolder.
      rewrite Hscheme, String.eqb_refl, Hrel, Hwin. simpl.
      destruct relative; reflexivity. }
    subst readBack. rewrite Hstored.
    unfold toWorkspaceFolders. cbn [toWorkspaceFolders_loop].
    assert (configuredFolderUri (dirname workspaceConfigFile)
              (storedFolderToValue
                 (IRawFileWorkspaceFolder folderName
                    (if String.eqb relative EmptyString then "." else relative)))
            = Some folderURI) as ->.
    { unfold configuredFolderUri, isRawFileWorkspaceFolder. simpl. rewrite Hguard. simpl.
      destruct relative; simpl; now rewrite <- Hresolve. }
    rewrite decide_False by apply not_elem_of_empty. reflexivity.
  - intros Hscheme Hparse [rest Hpath].
    assert (stored = IRawUriWorkspaceFolder folderName (URI.toString folderURI true))
      as Hstored.
    { subst stored. unfold getStoredWorkspaceFolder.
      apply String.eqb_neq in Hscheme. now rewrite Hscheme. }
    subst readBack. rewrite Hstored.
    unfold toWorkspaceFolders. cbn [toWorkspaceFolders_loop].
    assert (configuredFolderUri (dirname workspaceConfigFile)
              (storedFolderToValue
                 (IRawUriWorkspaceFolder folderName (URI.toString folderURI true)))
            = Some folderURI) as ->.
    { unfold configuredFolderUri, isRawFileWorkspaceFolder, isRawUriWorkspaceFolder.
      simpl. rewrite Hguard. simpl. rewrite Hparse, Hpath. reflexivity. }
    rewrite decide_False by apply not_elem_of_empty. reflexivity.
Qed.

(** X9. Off Windows [useSlashForPath] is [true]. On Windows it is [true]
    exactly when a stored folder of the path form has a [/] in its path; so it
    is [false] for no folder at all, which is the default of
    [getStoredWorkspaceFolder], and it stays [true] when folders are added. *)
Theorem useSlashForPath_iff (storedFolders : list JS.Value) :
  (isWindows = false → useSlashForPath storedFolders = true)
  ∧ (isWindows = true →
     (useSlashForPath storedFolders = true
      ↔ ∃ folder path,
          folder ∈ storedFolders
          ∧ isRawFileWorkspaceFolder folder = true
          ∧ JS.get "path" folder = JS.Str path
          ∧ contains slash path = true))
  ∧ useSlashForPath [] = negb isWindows
  ∧ (∀ more, useSlashForPath storedFolders = true →
             useSlashForPath (storedFolders ++ more) = true).
Proof.
  unfold useSlashForPath. destruct isWindows; split_and!; try reflexivity; try discriminate.
  - intros _. rewrite existsb_exists. split.
    + intros (folder & Hin & Hboth). apply andb_true_iff in Hboth as [Hfile Hslash].
      pose proof Hfile as Hpath. unfold isRawFileWorkspaceFolder in Hpath.
      apply andb_true_iff in Hpath as [Hpath _]. apply isString_true in Hpath as [path Hpath].
      exists folder, path. rewrite Hpath in Hslash.
      split_and!; try assumption. now apply list_elem_of_In.
    + intros (folder & path & Hin & Hfile & Hpath & Hslash).
      exists folder. split; [now apply list_elem_of_In|].
      rewrite Hfile, Hpath. exact Hslash.
  - intros more Hsome. rewrite existsb_app, Hsome. reflexivity.
Qed.

End MoreGetStoredWorkspaceFolder.

(** ** Rewriting a workspace file, continued *)

Lemma mapM_Throw {A B} (f : A → JS.Completion B) (l : list A) e :
  JS.mapM f l = JS.Throw e
  ↔ ∃ before a after,
      l = before ++ a :: after
      ∧ Forall (λ a, ∃ b, f a = JS.Normal b) before
      ∧ f a = JS.Throw e.
Proof.
  split.
  - induction l as [|a l IH]; simpl; [discriminate|].
    destruct (f a) as [b|e'] eqn:Hfa; simpl.
    + destruct (JS.mapM f l) as [bs|e'] eqn:Hl; simpl; [discriminate|].
      intros [= ->]. destruct (IH eq_refl) as (before & a' & after & -> & Hall & Ha').
      exists (a :: before), a', after. split_and!; [reflexivity | | exact Ha'].
      constructor; eauto.
    + intros [= ->]. exists [], a, l. split_and!; [reflexivity | constructor | exact Hfa].
  - intros (before & a & after & -> & Hall & Ha).
    induction Hall as [|x before [b Hb] _ IH]; simpl.
    + now rewrite Ha.
    + rewrite Hb. simpl. now rewrite IH.
Qed.

Section MoreRewrite.
Context `{PF : Platform} `{UO : URI.Ops} `{PO : PathOps} `{extUri : IExtUri}
        `{JP : json.Ops} `{JE : jsonEdit.Ops} `{RO : RemoteOps}.

Lemma rewriteFolder_Throw source target untitled slashForPath folder e :
  rewriteFolder source target untitled slashForPath folder = JS.Throw e
  ↔ isRawFileWorkspaceFolder folder = false
    ∧ URI.parse (JS.str (JS.get "uri" folder)) = None
    ∧ e = JS.UriError (JS.str (JS.get "uri" folder)).
Proof.
  unfold rewriteFolder, URI.parse_.
  destruct (isRawFileWorkspaceFolder folder); simpl.
  - split; [discriminate | now intros [? _]].
  - destruct (URI.parse _); simpl.
    + split; [discriminate | now intros (_ & ? & _)].
    + split; [now intros [= <-] | now intros (_ & _ & ->)].
Qed.

(** X10. The two ways [rewriteWorkspaceFileForNewLocation] fails, and no
    other: with the error of [doParseStoredWorkspace], when the text does not
    parse to a value whose [folders] is an array; and with the error of
    [URI.parse], for the first of the stored workspace folders that is not of
    the path form and whose [uri] is rejected. Unlike in [toWorkspaceFolders],
    where such a folder is skipped, the file is then not rewritten at all. *)
Theorem rewriteWorkspaceFileForNewLocation_throws
    (rawWorkspaceContents : string) (configPathURI : URI.t)
    (isFromUntitledWorkspace : bool) (targetConfigPathURI : URI.t) (e : JS.Error) :
  rewriteWorkspaceFileForNewLocation rawWorkspaceContents configPathURI
    isFromUntitledWorkspace targetConfigPathURI = JS.Throw e
  ↔ ((∀ items, JS.get "folders" (json.parse rawWorkspaceContents) ≠ JS.Arr items)
     ∧ e = JS.InvalidWorkspaceFile (URI.toString configPathURI false))
    ∨ (∃ items before folder after,
         JS.get "folders" (json.parse rawWorkspaceContents) = JS.Arr items
         ∧ List.filter isStoredWorkspaceFolder items = before ++ folder :: after
         ∧ (∀ f, f ∈ before → isRawFileWorkspaceFolder f = false →
                 is_Some (URI.parse (JS.str (JS.get "uri" f))))
         ∧ isRawFileWorkspaceFolder folder = false
         ∧ URI.parse (JS.str (JS.get "uri" folder)) = None
         ∧ e = JS.UriError (JS.str (JS.get "uri" folder))).
Proof.
  unfold rewriteWorkspaceFileForNewLocation.
  destruct (JS.get "folders" (json.parse rawWorkspaceContents)) as [| | | | |items|] eqn:Hf.
  6: { rewrite (doParseStoredWorkspace_Normal _ _ _ Hf). simpl.
       match goal with
       | |- context [JS.mapM ?f ?l] =>
           destruct (JS.mapM f l) as [bs|e'] eqn:Hm; simpl
       end.
       - split; [discriminate|].
         intros [[Hno _]|(items' & before & folder & after & [= <-] & Hkept & Hbefore
                          & Hfile & Hparse & ->)].
         + now destruct (Hno items).
         + assert (JS.mapM
                     (rewriteFolder (dirname configPathURI) (dirname targetConfigPathURI)
                        isFromUntitledWorkspace
                        (useSlashForPath (List.filter isStoredWorkspaceFolder items)))
                     (List.filter isStoredWorkspaceFolder items)
                   = JS.Throw (JS.UriError (JS.str (JS.get "uri" folder)))) as Hthrow.
           { apply mapM_Throw. exists before, folder, after.
             split_and!; [exact Hkept | | now apply rewriteFolder_Throw].
             apply Forall_forall. intros f Hin. apply rewriteFolder_Normal.
             intros Hnot. now apply Hbefore. }
           rewrite Hthrow in Hm. discriminate.
       - apply mapM_Throw in Hm as (before & folder & after & Hkept & Hbefore & Hthrow).
         apply rewriteFolder_Throw in Hthrow as (Hfile & Hparse & ->).
         split.
         + intros [= <-]. right. exists items, before, folder, after.
           split_and!; try reflexivity; try assumption.
           intros f Hin Hnot. rewrite Forall_forall in Hbefore.
           destruct (Hbefore f Hin) as [b Hb].
           destruct (URI.parse (JS.str (JS.get "uri" f))) eqn:Hp; [eauto|].
           assert (rewriteFolder (dirname configPathURI) (dirname targetConfigPathURI)
                     isFromUntitledWorkspace
                     (useSlashForPath (List.filter isStoredWorkspaceFolder items)) f
                   = JS.Throw (JS.UriError (JS.str (JS.get "uri" f)))) as Hx
             by now apply rewriteFolder_Throw.
           rewrite Hx in Hb. discriminate.
         + intros [[Hno _]|(items' & before' & folder' & after' & [= <-] & Hkept'
                            & Hbefore' & Hfile' & Hparse' & ->)].
           * now destruct (Hno items).
           * f_equal. f_equal.
             assert (before = before' ∧ folder = folder') as [_ ->]; [|reflexivity].
             rewrite Hkept in Hkept'. clear Hkept.
             revert before' Hkept' Hbefore'.
             induction Hbefore as [|x before [b Hb] _ IH]; intros [|x' before'] Heq Hb'.
             -- now injection Heq as -> _.
             -- injection Heq as <- _.
                assert (is_Some (URI.parse (JS.str (JS.get "uri" folder)))) as [? Hs]
                  by (apply Hb'; [left | exact Hfile]).
                congruence.
             -- injection Heq as -> _.
                assert (rewriteFolder (dirname configPathURI) (dirname targetConfigPathURI)
                          isFromUntitledWorkspace
                          (useSlashForPath (List.filter isStoredWorkspaceFolder items))
                          folder'
                        = JS.Throw (JS.UriError (JS.str (JS.get "uri" folder')))) as Hx
                  by now apply rewriteFolder_Throw.
                rewrite Hx in Hb. discriminate.
             -- injection Heq as <- Heq.
                destruct (IH before' Heq) as [-> ->]; [|split; reflexivity].
                intros f Hin. apply Hb'. now right. }
  all: rewrite doParseStoredWorkspace_Throw by (rewrite Hf; discriminate); simpl.
  all: split;
    [ intros [= <-]; left; split; [discriminate | reflexivity]
    | intros [[_ ->]|(items & _ & _ & _ & [=] & _)]; reflexivity ].
Qed.

End MoreRewrite.

(** ** The recently opened list, continued *)

Lemma appendRecents_empty_r r : appendRecents r emptyRecents = r.
Proof. destruct r as [ws fs]. unfold appendRecents. simpl. now rewrite !app_nil_r. Qed.

Lemma appendRecents_empty_l r : appendRecents emptyRecents r = r.
Proof. now destruct r. Qed.

Lemma appendRecents_assoc a b c :
  appendRecents (appendRecents a b) c = appendRecents a (appendRecents b c).
Proof. unfold appendRecents. simpl. now rewrite !app_assoc. Qed.

Lemma pushWorkspace_append r w : pushWorkspace r w = appendRecents r (pushWorkspace emptyRecents w).
Proof. unfold pushWorkspace, appendRecents. simpl. now rewrite app_nil_r. Qed.

Lemma pushFile_append r f : pushFile r f = appendRecents r (pushFile emptyRecents f).
Proof. unfold pushFile, appendRecents. simpl. now rewrite app_nil_r. Qed.

Lemma restoreGracefully_from_adds func i l st :
  adds func →
  restoreGracefully_from func i l st
  = appendRestored st
      (restoreGracefully_from func i l {| recents := emptyRecents; warnings := [] |}).
Proof.
  intros Hadds. revert i st. induction l as [|e l IH]; intros i [r w].
  - simpl. unfold appendRestored. simpl. now rewrite appendRecents_empty_r, app_nil_r.
  - simpl. rewrite (Hadds e i r).
    destruct (func e i emptyRecents) as [d|err].
    + rewrite (IH (S i) {| recents := appendRecents r d; warnings := w |}).
      rewrite (IH (S i) {| recents := d; warnings := [] |}).
      unfold appendRestored. simpl. now rewrite appendRecents_assoc.
    + rewrite (IH (S i) {| recents := r; warnings := w ++ [(e, err)] |}).
      rewrite (IH (S i) {| recents := emptyRecents; warnings := [(e, err)] |}).
      unfold appendRestored. simpl.
      now rewrite appendRecents_empty_l, <- app_assoc.
Qed.

(** What the loop adds to the lists it was given: at most one element for
    each entry, of the kind the callback pushes, and warnings for entries of
    the list. *)
Lemma restoreGracefully_from_pushes
    (P : IRecentWorkspaceOrFolder → Prop) (Q : IRecentFile → Prop) func i l st :
  (∀ e j r r', func e j r = JS.Normal r' →
     r' = r ∨ (∃ w, r' = pushWorkspace r w ∧ P w) ∨ (∃ f, r' = pushFile r f ∧ Q f)) →
  let out := restoreGracefully_from func i l st in
  ∃ ws fs ww,
    workspaces (recents out) = workspaces (recents st) ++ ws
    ∧ files (recents out) = files (recents st) ++ fs
    ∧ warnings out = warnings st ++ ww
    ∧ length ws + length fs + length ww ≤ length l
    ∧ Forall P ws ∧ Forall Q fs ∧ Forall (λ x, x.1 ∈ l) ww.
Proof.
  intros Hstep. revert i st. induction l as [|e l IH]; intros i [r w]; simpl.
  - exists [], [], []. rewrite !app_nil_r. split_and!; auto.
  - destruct (func e i r) as [r'|err] eqn:Hf.
    + destruct (IH (S i) {| recents := r'; warnings := w |})
        as (ws & fs & ww & Hws & Hfs & Hww & Hlen & HP & HQ & Hin).
      simpl in Hws, Hfs, Hww.
      assert (Forall (λ x : JS.Value * JS.Error, x.1 ∈ e :: l) ww) as Hin'
        by (eapply Forall_impl; [exact Hin | intros x Hx; now right]).
      apply Hstep in Hf as [->|[(x & -> & Hx)|(x & -> & Hx)]].
      * exists ws, fs, ww. split_and!; auto; lia.
      * exists (x :: ws), fs, ww. simpl in Hws. rewrite <- app_assoc in Hws.
        split_and!; auto; simpl; lia.
      * exists ws, (x :: fs), ww. simpl in Hfs. rewrite <- app_assoc in Hfs.
        split_and!; auto; simpl; lia.
    + destruct (IH (S i) {| recents := r; warnings := w ++ [(e, err)] |})
        as (ws & fs & ww & Hws & Hfs & Hww & Hlen & HP & HQ & Hin).
      simpl in Hws, Hfs, Hww. rewrite <- app_assoc in Hww.
      exists ws, fs, ((e, err) :: ww). split_and!; auto; [simpl; lia|].
      constructor; [now left|].
      eapply Forall_impl; [exact Hin | intros x Hx; now right].
Qed.

Lemma legacyLabel_absent_or_truthy labels i :
  legacyLabel labels i = JS.Undefined ∨ JS.truthy (legacyLabel labels i) = true.
Proof.
  unfold legacyLabel, JS.or.
  destruct (JS.truthy (if JS.isArray labels then JS.at_ i labels else JS.Bool false)) eqn:Ht;
    [now right | now left].
Qed.

Section MoreRecents.
Context `{UO : URI.Ops}.

Lemma restoreEntry_adds : adds restoreEntry.
Proof.
  intros e j r. unfold restoreEntry, URI.parse_.
  destruct (JS.member "label" e); simpl; [|reflexivity].
  destruct (JS.member "remoteAuthority" e); simpl; [|reflexivity].
  repeat (case_match; simpl; try reflexivity).
  all: try (now rewrite pushWorkspace_append).
  all: try (now rewrite pushFile_append).
  all: now rewrite appendRecents_empty_r.
Qed.

Lemma restoreLegacyWorkspace_adds labels : adds (restoreLegacyWorkspace labels).
Proof.
  intros e j r. unfold restoreLegacyWorkspace, URI.parse_.
  destruct (isLegacyWorkspace e) as [[]|]; simpl; [| |reflexivity].
  all: repeat (case_match; simpl; try reflexivity).
  all: try (now rewrite pushWorkspace_append).
  all: now rewrite appendRecents_empty_r.
Qed.

Lemma restoreLegacyFile_adds labels : adds (restoreLegacyFile labels).
Proof.
  intros e j r. unfold restoreLegacyFile, URI.parse_.
  repeat (case_match; simpl; try reflexivity).
  all: try (now rewrite pushFile_append).
  all: now rewrite appendRecents_empty_r.
Qed.

Lemma restoreEntry_pushes e j r r' :
  restoreEntry e j r = JS.Normal r' →
  r' = r ∨ (∃ w, r' = pushWorkspace r w ∧ True) ∨ (∃ f, r' = pushFile r f ∧ True).
Proof.
  unfold restoreEntry, URI.parse_.
  destruct (JS.member "label" e); simpl; [|discriminate].
  destruct (JS.member "remoteAuthority" e); simpl; [|discriminate].
  repeat (case_match; simpl; try discriminate).
  all: intros [= <-]; eauto.
Qed.

Lemma restoreLegacyWorkspace_pushes labels e j r r' :
  restoreLegacyWorkspace labels e j r = JS.Normal r' →
  r' = r
  ∨ (∃ w, r' = pushWorkspace r w
          ∧ legacyLabelled (labelOfWorkspaceOrFolder w)
              (remoteAuthorityOfWorkspaceOrFolder w))
  ∨ (∃ f : IRecentFile, r' = pushFile r f ∧ False).
Proof.
  unfold restoreLegacyWorkspace, URI.parse_.
  destruct (isLegacyWorkspace e) as [[]|]; simpl; [| |discriminate].
  all: repeat (case_match; simpl; try discriminate).
  all: intros [= <-]; auto.
  all: right; left; eexists; split; [reflexivity|].
  all: split; [reflexivity | apply legacyLabel_absent_or_truthy].
Qed.

Lemma restoreLegacyFile_pushes labels e j r r' :
  restoreLegacyFile labels e j r = JS.Normal r' →
  r' = r
  ∨ (∃ w : IRecentWorkspaceOrFolder, r' = pushWorkspace r w ∧ False)
  ∨ (∃ f, r' = pushFile r f ∧ legacyLabelled (labelOfFile f) (remoteAuthorityOfFile f)).
Proof.
  unfold restoreLegacyFile, URI.parse_.
  repeat (case_match; simpl; try discriminate).
  all: intros [= <-]; auto.
  right; right; eexists; split; [reflexivity|].
  split; [reflexivity | apply legacyLabel_absent_or_truthy].
Qed.

Lemma restoreGracefully_from_restoreEntry_index i j l st :
  restoreGracefully_from restoreEntry i l st = restoreGracefully_from restoreEntry j l st.
Proof.
  revert i j st. induction l as [|e l IH]; intros i j st; simpl; [reflexivity|].
  apply IH.
Qed.

(** X11. [restoreRecentlyOpened] accounts for every entry it visits at most
    once: the workspaces, folders and files restored and the warnings logged
    are together no more than the entries visited, and every warning names
    an entry that was visited. Nothing is restored or logged out of nothing. *)
Theorem restoreRecentlyOpened_bounded (data : JS.Value) :
  let r := restoreRecentlyOpened data in
  restoredCount (recents r) + length (warnings r) ≤ length (visitedEntries data)
  ∧ (∀ entry e, (entry, e) ∈ warnings r → entry ∈ visitedEntries data).
Proof.
  assert (∀ (P : IRecentWorkspaceOrFolder → Prop) (Q : IRecentFile → Prop) func l st,
            (∀ e j r r', func e j r = JS.Normal r' →
               r' = r ∨ (∃ w, r' = pushWorkspace r w ∧ P w)
               ∨ (∃ f, r' = pushFile r f ∧ Q f)) →
            let out := restoreGracefully func l st in
            ∃ ww, warnings out = warnings st ++ ww
                  ∧ restoredCount (recents out) + length ww
                    ≤ restoredCount (recents st) + length l
                  ∧ Forall (λ x, x.1 ∈ l) ww) as Hloop.
  { intros P Q func l st Hstep out.
    destruct (restoreGracefully_from_pushes P Q func 0 l st Hstep)
      as (ws & fs & ww & Hws & Hfs & Hww & Hlen & _ & _ & Hin).
    exists ww. subst out. unfold restoreGracefully, restoredCount.
    rewrite Hws, Hfs, !length_app. split_and!; [exact Hww | lia | exact Hin]. }
  intros r. subst r. unfold restoreRecentlyOpened, visitedEntries.
  destruct (JS.truthy data); [|simpl; split; [lia | intros ? ? Hin; inversion Hin]].
  destruct (JS.get "entries" data) as [| | | | |entries|] eqn:Hentries.
  6: { destruct (Hloop _ _ restoreEntry entries
                   {| recents := emptyRecents; warnings := [] |} restoreEntry_pushes)
         as (ww & Hww & Hlen & Hin).
       rewrite Hww. simpl in *. split; [lia|].
       intros entry e Hx. rewrite Forall_forall in Hin. exact (Hin _ Hx). }
  all: set (st0 := {| recents := emptyRecents; warnings := [] |}).
  all: set (st1 := match JS.get "workspaces3" data with
                   | JS.Arr workspaces3 =>
                       restoreGracefully
                         (restoreLegacyWorkspace (JS.get "workspaceLabels" data))
                         workspaces3 st0
                   | _ => st0
                   end).
  all: set (l1 := match JS.get "workspaces3" data with JS.Arr items => items | _ => [] end).
  all: set (l2 := match JS.get "files2" data with JS.Arr items => items | _ => [] end).
  all: assert (∃ ww, warnings st1 = ww
                     ∧ restoredCount (recents st1) + length ww ≤ length l1
                     ∧ Forall (λ x, x.1 ∈ l1) ww) as (w1 & Hw1 & Hlen1 & Hin1).
  all: try (subst st1 l1; destruct (JS.get "workspaces3" data) as [| | | | |ws3|];
            try (exists []; simpl; split_and!; [reflexivity | lia | constructor]);
            destruct (Hloop _ _ (restoreLegacyWorkspace (JS.get "workspaceLabels" data))
                        ws3 st0 (restoreLegacyWorkspace_pushes _))
              as (ww & Hww & Hlen & Hin);
            exists ww; simpl in *; split_and!; [exact Hww | lia | exact Hin]).
  all: assert (∃ ww, warnings (match JS.get "files2" data with
                               | JS.Arr files2 =>
                                   restoreGracefully
                                     (restoreLegacyFile (JS.get "fileLabels" data))
                                     files2 st1
                               | _ => st1
                               end) = warnings st1 ++ ww
                     ∧ restoredCount
                         (recents (match JS.get "files2" data with
                                   | JS.Arr files2 =>
                                       restoreGracefully
                                         (restoreLegacyFile (JS.get "fileLabels" data))
                                         files2 st1
                                   | _ => st1
                                   end)) + length ww
                       ≤ restoredCount (recents st1) + length l2
                     ∧ Forall (λ x, x.1 ∈ l2) ww) as (w2 & Hw2 & Hlen2 & Hin2).
  all: try (subst l2; destruct (JS.get "files2" data) as [| | | | |f2|];
            try (exists []; rewrite app_nil_r; simpl;
                 split_and!; [reflexivity | lia | constructor]);
            exact (Hloop _ _ (restoreLegacyFile (JS.get "fileLabels" data)) f2 st1
                     (restoreLegacyFile_pushes _))).
  all: rewrite Hw2, Hw1, !length_app.
  all: split; [lia|].
  all: intros entry e [Hx|Hx]%elem_of_app; apply elem_of_app.
  all: rewrite Forall_forall in Hin1; rewrite Forall_forall in Hin2.
  all: try (left; exact (Hin1 _ Hx)).
  all: right; exact (Hin2 _ Hx).
Qed.

(** X12. In the current schema each entry is restored on its own: the data
    of two lists of entries, one after the other, restores to what the first
    list restores followed by what the second restores, for the workspaces,
    the files and the warnings alike. So the order of the entries is kept
    within each list, and what an entry restores to does not depend on the
    entries around it. *)
Theorem restoreRecentlyOpened_concatenation (entries more : list JS.Value) :
  restoreRecentlyOpened (currentData (entries ++ more))
  = appendRestored (restoreRecentlyOpened (currentData entries))
                   (restoreRecentlyOpened (currentData more)).
Proof.
  unfold restoreRecentlyOpened, currentData. simpl. unfold restoreGracefully.
  rewrite restoreGracefully_from_app.
  rewrite (restoreGracefully_from_restoreEntry_index (0 + length entries) 0).
  apply restoreGracefully_from_adds, restoreEntry_adds.
Qed.

(** X13. Which persisted entries are logged rather than restored. An entry
    of [entries] fails with a [TypeError] exactly when it is [null] or
    [undefined]. An element of [workspaces3] fails exactly when it is [null]
    (a [TypeError]: [typeof null] is ['object'] and the read of its [id]
    throws), or has a string [id] and a string [configURIPath] that
    [URI.parse] rejects, or is itself a string that [URI.parse] rejects. An
    element of [files2] fails only when it is a string that [URI.parse]
    rejects; [null] there is skipped without a warning. *)
Theorem restoreRecentlyOpened_entry_failures
    (labels entry : JS.Value) (i : nat) (result : IRecentlyOpened) (e : JS.Error) :
  (restoreEntry entry i result = JS.Throw JS.TypeError ↔ JS.nullish entry = true)
  ∧ (restoreLegacyWorkspace labels entry i result = JS.Throw e
     ↔ (entry = JS.Null ∧ e = JS.TypeError)
       ∨ (JS.isString (JS.get "id" entry) = true
          ∧ JS.isString (JS.get "configURIPath" entry) = true
          ∧ URI.parse (JS.str (JS.get "configURIPath" entry)) = None
          ∧ e = JS.UriError (JS.str (JS.get "configURIPath" entry)))
       ∨ (∃ s, entry = JS.Str s ∧ URI.parse s = None ∧ e = JS.UriError s))
  ∧ (restoreLegacyFile labels entry i result = JS.Throw e
     ↔ ∃ s, entry = JS.Str s ∧ URI.parse s = None ∧ e = JS.UriError s).
Proof.
  split_and!.
  - unfold restoreEntry, URI.parse_, JS.member.
    destruct (JS.nullish entry); simpl; [tauto|].
    split; [|discriminate].
    repeat (case_match; simpl; try discriminate).
  - unfold restoreLegacyWorkspace, isLegacyWorkspace, URI.parse_, JS.member.
    destruct entry as [| |b|n|s|items|props]; simpl.
    all: try (split; [discriminate|];
              intros [[[=] _]|[([=] & _)|(s' & [=] & _)]]; fail).
    + split; [intros [= <-]; now left|].
      intros [[_ ->]|[([=] & _)|(s' & [=] & _)]]; reflexivity.
    + destruct (URI.parse s) eqn:Hp; simpl.
      * split; [discriminate|].
        intros [[[=] _]|[([=] & _)|(s' & [= <-] & Hp' & _)]]. congruence.
      * split.
        -- intros [= <-]. right; right. eauto.
        -- intros [[[=] _]|[([=] & _)|(s' & [= <-] & _ & ->)]]. reflexivity.
    + destruct (JS.isString (JS.assoc "id" props)) eqn:Hid; simpl.
      2: { split; [discriminate|].
           intros [[[=] _]|[([=] & _)|(s' & [=] & _)]]. }
      destruct (JS.isString (JS.assoc "configURIPath" props)) eqn:Hcfg; simpl.
      2: { split; [discriminate|].
           intros [[[=] _]|[(_ & [=] & _)|(s' & [=] & _)]]. }
      destruct (URI.parse (JS.str (JS.assoc "configURIPath" props))) eqn:Hp; simpl.
      * split; [discriminate|].
        intros [[[=] _]|[(_ & _ & [=] & _)|(s' & [=] & _)]].
      * split.
        -- intros [= <-]. right; left. auto.
        -- intros [[[=] _]|[(_ & _ & _ & ->)|(s' & [=] & _)]]. reflexivity.
  - unfold restoreLegacyFile, URI.parse_.
    destruct entry as [| |b|n|s|items|props]; simpl.
    all: try (split; [discriminate | intros (s' & [=] & _)]; fail).
    destruct (URI.parse s) eqn:Hp; simpl.
    + split; [discriminate | intros (s' & [= <-] & Hp' & _); congruence].
    + split; [intros [= <-]; eauto | now intros (s' & [= <-] & _ & ->)].
Qed.

(** X14. What the legacy schema restores carries no remote authority, and a
    label that is absent or truthy: when [entries] is not an array, every
    workspace, folder and file restored has [remoteAuthority] undefined, and a
    [label] that is [undefined] or a truthy value. An empty string in the
    array of labels is restored as no label. *)
Theorem restoreRecentlyOpened_legacy_labels (data : JS.Value) :
  JS.isArray (JS.get "entries" data) = false →
  let r := restoreRecentlyOpened data in
  (∀ w, w ∈ workspaces (recents r) →
        legacyLabelled (labelOfWorkspaceOrFolder w) (remoteAuthorityOfWorkspaceOrFolder w))
  ∧ (∀ f, f ∈ files (recents r) →
          legacyLabelled (labelOfFile f) (remoteAuthorityOfFile f)).
Proof.
  intros Hentries r.
  set (P := λ w, legacyLabelled (labelOfWorkspaceOrFolder w)
                   (remoteAuthorityOfWorkspaceOrFolder w)).
  set (Q := λ f, legacyLabelled (labelOfFile f) (remoteAuthorityOfFile f)).
  enough (Forall P (workspaces (recents r)) ∧ Forall Q (files (recents r))) as [HP HQ].
  { rewrite Forall_forall in HP. rewrite Forall_forall in HQ. split; assumption. }
  assert (∀ func l st,
            (∀ e j r r', func e j r = JS.Normal r' →
               r' = r ∨ (∃ w, r' = pushWorkspace r w ∧ P w)
               ∨ (∃ f, r' = pushFile r f ∧ Q f)) →
            Forall P (workspaces (recents st)) → Forall Q (files (recents st)) →
            Forall P (workspaces (recents (restoreGracefully func l st)))
            ∧ Forall Q (files (recents (restoreGracefully func l st)))) as Hloop.
  { intros func l st Hstep HP HQ.
    destruct (restoreGracefully_from_pushes P Q func 0 l st Hstep)
      as (ws & fs & ww & Hws & Hfs & _ & _ & HPs & HQs & _).
    unfold restoreGracefully. rewrite Hws, Hfs.
    split; apply Forall_app; split; assumption. }
  subst r. unfold restoreRecentlyOpened.
  destruct (JS.truthy data); [|split; constructor].
  destruct (JS.get "entries" data) as [| | | | |entries|]; [..|discriminate Hentries|].
  all: set (st0 := {| recents := emptyRecents; warnings := [] |}).
  all: set (st1 := match JS.get "workspaces3" data with
                   | JS.Arr workspaces3 =>
                       restoreGracefully
                         (restoreLegacyWorkspace (JS.get "workspaceLabels" data))
                         workspaces3 st0
                   | _ => st0
                   end).
  all: assert (Forall P (workspaces (recents st1)) ∧ Forall Q (files (recents st1)))
         as [HP1 HQ1].
  all: try (subst st1; destruct (JS.get "workspaces3" data) as [| | | | |ws3|];
            try (split; constructor);
            apply Hloop; [|constructor|constructor];
            intros e j r r' Hf;
            apply restoreLegacyWorkspace_pushes in Hf as [->|[(w & -> & Hw)|(f & _ & [])]];
            [now left | right; left; eauto]).
  all: destruct (JS.get "files2" data) as [| | | | |f2|]; try (split; assumption).
  all: apply Hloop; [|assumption|assumption].
  all: intros e j r r' Hf.
  all: apply restoreLegacyFile_pushes in Hf as [->|[(w & _ & [])|(f & -> & Hf)]].
  all: try (now left).
  all: right; right; eauto.
Qed.

(** X15. In the legacy schema the two arrays are restored independently:
    the result is what [workspaces3] with its labels restores, followed by
    what [files2] with its labels restores. The first gives no file and the
    second no workspace or folder. *)
Theorem restoreRecentlyOpened_legacy_arrays
    (workspaces3 workspaceLabels files2 fileLabels : JS.Value) :
  let fromWorkspaces :=
    restoreRecentlyOpened
      (legacyData workspaces3 workspaceLabels JS.Undefined JS.Undefined) in
  let fromFiles :=
    restoreRecentlyOpened (legacyData JS.Undefined JS.Undefined files2 fileLabels) in
  restoreRecentlyOpened (legacyData workspaces3 workspaceLabels files2 fileLabels)
  = appendRestored fromWorkspaces fromFiles
  ∧ files (recents fromWorkspaces) = []
  ∧ workspaces (recents fromFiles) = [].
Proof.
  intros fromWorkspaces fromFiles. subst fromWorkspaces fromFiles.
  unfold restoreRecentlyOpened, legacyData. simpl.
  set (st0 := {| recents := emptyRecents; warnings := [] |}).
  set (st1 := match workspaces3 with
              | JS.Arr workspaces3 =>
                  restoreGracefully (restoreLegacyWorkspace workspaceLabels) workspaces3 st0
              | _ => st0
              end).
  assert (∀ st, appendRestored st st0 = st) as Hst0.
  { intros [r w]. unfold appendRestored. simpl.
    now rewrite appendRecents_empty_r, app_nil_r. }
  split_and!.
  - destruct files2 as [| | | | |f2|]; try (now rewrite Hst0).
    unfold restoreGracefully.
    apply restoreGracefully_from_adds, restoreLegacyFile_adds.
  - subst st1. destruct workspaces3 as [| | | | |ws3|]; try reflexivity.
    destruct (restoreGracefully_from_pushes (λ _, True) (λ _, False)
                (restoreLegacyWorkspace workspaceLabels) 0 ws3 st0)
      as (ws & fs & ww & _ & Hfs & _ & _ & _ & HQ & _).
    { intros e j r r' Hf.
      apply restoreLegacyWorkspace_pushes in Hf as [->|[(w & -> & _)|(f & _ & [])]];
        [now left | right; left; eauto]. }
    unfold restoreGracefully. rewrite Hfs. simpl.
    destruct HQ as [|f fs []]. reflexivity.
  - destruct files2 as [| | | | |f2|]; try reflexivity.
    destruct (restoreGracefully_from_pushes (λ _, False) (λ _, True)
                (restoreLegacyFile fileLabels) 0 f2 st0)
      as (ws & fs & ww & Hws & _ & _ & _ & HP & _ & _).
    { intros e j r r' Hf.
      apply restoreLegacyFile_pushes in Hf as [->|[(w & _ & [])|(f & -> & _)]];
        [now left | right; right; eauto]. }
    unfold restoreGracefully. rewrite Hws. simpl.
    destruct HP as [|w ws []]. reflexivity.
Qed.

End MoreRecents.

(** ** Workspace identifiers *)

Section MoreIdentifiers.
Context `{UR : UriRevive}.

(** X16. What [reviveIdentifier] answers is decided by the first of [uri],
    [configPath] and [id] that is truthy, in this order: an identifier with a
    [uri] is revived as a single folder even if it has a [configPath]; the
    result is [undefined] exactly when all three are falsy, as for an [id]
    that is the empty string; the [id] is copied as it is; and the call fails
    only if [URI.revive] does, on the property that decided. *)
Theorem reviveIdentifier_kinds (identifier : JS.Value) :
  let uri := JS.get "uri" identifier in
  let configPath := JS.get "configPath" identifier in
  let id := JS.get "id" identifier in
  (reviveIdentifier identifier = JS.Normal None
   ↔ JS.truthy uri = false ∧ JS.truthy configPath = false ∧ JS.truthy id = false)
  ∧ (∀ revived, reviveIdentifier identifier = JS.Normal (Some revived) →
       revivedId revived = id
       ∧ match revived with
         | RevivedSingleFolder _ u => JS.truthy uri = true ∧ URI_revive uri = Some u
         | RevivedWorkspace _ c =>
             JS.truthy uri = false ∧ JS.truthy configPath = true
             ∧ URI_revive configPath = Some c
         | RevivedEmpty _ =>
             JS.truthy uri = false ∧ JS.truthy configPath = false ∧ JS.truthy id = true
         end)
  ∧ (∀ e, reviveIdentifier identifier = JS.Throw e →
       (JS.truthy uri = true ∧ URI_revive uri = None)
       ∨ (JS.truthy uri = false ∧ JS.truthy configPath = true
          ∧ URI_revive configPath = None)).
Proof.
  intros uri configPath id. subst uri configPath id. unfold reviveIdentifier, revive_.
  destruct (JS.truthy (JS.get "uri" identifier)); simpl;
    [destruct (URI_revive (JS.get "uri" identifier)); simpl|].
  3: destruct (JS.truthy (JS.get "configPath" identifier)); simpl;
       [destruct (URI_revive (JS.get "configPath" identifier)); simpl|].
  5: destruct (JS.truthy (JS.get "id" identifier)); simpl.
  all: split; [|split].
  all: try (split; [discriminate | intros (? & ? & ?); discriminate]).
  all: try (split; [intros _; split_and!; reflexivity | intros _; reflexivity]).
  all: try (intros revived Hr; discriminate Hr).
  all: try (intros revived Hr; injection Hr as <-; simpl; split_and!; reflexivity).
  all: intros e He; first [ discriminate He
                          | left; split; reflexivity
                          | right; split_and!; reflexivity ].
Qed.

(** X17. [reviveIdentifier] undoes the sending of the identifier that
    [toWorkspaceIdentifier] gives: when [URI.revive] gives back a URI from its
    components, which are truthy, the identifier of a workspace, sent and
    revived, is the same identifier, for every [id], the empty string too; and
    no identifier for an empty workspace. [toWorkspaceIdentifier] answers
    [undefined] exactly for a workspace with no configuration whose folders
    are not exactly one. *)
Theorem reviveIdentifier_toWorkspaceIdentifier
    (components : URI.t → JS.Value) (workspace : IWorkspace.t) :
  (∀ u, JS.truthy (components u) = true ∧ URI_revive (components u) = Some u) →
  reviveIdentifier (serializedIdentifier components (toWorkspaceIdentifier workspace))
  = JS.Normal (revivedOf (toWorkspaceIdentifier workspace))
  ∧ (revivedOf (toWorkspaceIdentifier workspace) = None
     ↔ IWorkspace.configuration workspace = None
       ∧ length (IWorkspace.folders workspace) ≠ 1)
  ∧ (∀ id, revivedOf (toWorkspaceIdentifier workspace) ≠ Some (RevivedEmpty id)).
Proof.
  intros Hcomponents. unfold toWorkspaceIdentifier.
  destruct workspace as [id folders transient [configuration|]]; simpl.
  - unfold reviveIdentifier, revive_. simpl.
    destruct (Hcomponents configuration) as [-> ->]. simpl.
    split_and!; [reflexivity | split; [discriminate | now intros [? _]] | discriminate].
  - destruct folders as [|folder [|folder' folders]]; simpl.
    + split_and!; [reflexivity | split; auto | discriminate].
    + unfold reviveIdentifier, revive_. simpl.
      destruct (Hcomponents (WorkspaceFolder.uri folder)) as [-> ->]. simpl.
      split_and!; [reflexivity | split; [discriminate | now intros [_ ?]] | discriminate].
    + split_and!; [reflexivity | split; auto | discriminate].
Qed.

End MoreIdentifiers.

(** ** The workspace object *)

Section MoreWorkspace.
Context `{UO : URI.Ops} `{TST : TernarySearchTree.Ops}.

Lemma call_index this c :
  Workspace._foldersMap this
  = indexOf (Workspace._ignorePathCasing this) (Workspace._folders this) →
  Workspace._foldersMap (call this c)
  = indexOf (Workspace._ignorePathCasing (call this c)) (Workspace._folders (call this c)).
Proof.
  intros Hthis. destruct c as [workspace|folders|configuration]; simpl; try reflexivity.
  exact Hthis.
Qed.

Lemma calls_index calls this :
  Workspace._foldersMap this
  = indexOf (Workspace._ignorePathCasing this) (Workspace._folders this) →
  Workspace._foldersMap (fold_left call calls this)
  = indexOf (Workspace._ignorePathCasing (fold_left call calls this))
      (Workspace._folders (fold_left call calls this)).
Proof.
  revert this. induction calls as [|c calls IH]; intros this Hthis; simpl.
  - exact Hthis.
  - apply IH, call_index, Hthis.
Qed.

(** X18. The index that [getFolder] searches is never stale: after the
    constructor and any sequence of calls of [update], of the setter of
    [folders] and of the setter of [configuration], the folder index is the one
    built from the current folders with the current [ignorePathCasing], and
    [getFolder] answers what it answers on a workspace newly made of the
    current fields. [update] takes the [ignorePathCasing] of the other
    workspace along with its folders. *)
Theorem Workspace_index_follows_folders
    (id : string) (folders : list WorkspaceFolder.t) (transient : bool)
    (configuration : option URI.t) (ignorePathCasing : URI.t → bool)
    (calls : list WorkspaceCall) :
  let this :=
    fold_left call calls (Workspace.new id folders transient configuration ignorePathCasing)
  in
  Workspace._foldersMap this
  = indexOf (Workspace._ignorePathCasing this) (Workspace._folders this)
  ∧ (∀ resource,
       Workspace.getFolder resource this
       = Workspace.getFolder resource
           (Workspace.new (Workspace._id this) (Workspace._folders this)
              (Workspace._transient this) (Workspace._configuration this)
              (Workspace._ignorePathCasing this)))
  ∧ (∀ other,
       Workspace._ignorePathCasing (call this (CallUpdate other))
       = Workspace._ignorePathCasing other
       ∧ Workspace.toJSON (call this (CallUpdate other)) = Workspace.toJSON other).
Proof.
  intros this.
  assert (Workspace._foldersMap this
          = indexOf (Workspace._ignorePathCasing this) (Workspace._folders this)) as Hindex.
  { subst this. apply calls_index. reflexivity. }
  split_and!.
  - exact Hindex.
  - intros [resource|]; simpl; [|reflexivity]. now rewrite Hindex.
  - intros other. split; reflexivity.
Qed.

End MoreWorkspace.

Section MoreToWorkspaceFolder.
Context `{PF : Platform} `{UO : URI.Ops} `{PO : PathOps} `{extUri : IExtUri}
        `{RS : ResourcesOps}.

(** X19. The folder that [toWorkspaceFolder] makes for a resource is the
    folder that [toWorkspaceFolders] reads from its [raw] value, for every
    workspace file: the [raw] value is a stored folder of the uri form, and it
    is resolved to the same location, name and index when [URI.parse] gives
    the resource back from its [toString()], the path of the resource starts
    with a slash, and the two base name functions agree on it. *)
Theorem toWorkspaceFolder_read_back (resource workspaceConfigFile : URI.t) :
  roundTrips resource →
  startsWithSlash (URI.path resource) →
  basenameOrAuthority resource = resources_basenameOrAuthority resource →
  isRawUriWorkspaceFolder (WorkspaceFolder.raw (toWorkspaceFolder resource)) = true
  ∧ isRawFileWorkspaceFolder (WorkspaceFolder.raw (toWorkspaceFolder resource)) = false
  ∧ toWorkspaceFolders [WorkspaceFolder.raw (toWorkspaceFolder resource)]
      workspaceConfigFile
    = [toWorkspaceFolder resource].
Proof.
  intros Hparse [rest Hpath] Hname. unfold roundTrips in Hparse.
  split_and!; try reflexivity.
  unfold toWorkspaceFolders, toWorkspaceFolder. cbn [toWorkspaceFolders_loop].
  assert (configuredFolderUri (dirname workspaceConfigFile)
            (JS.Obj [("uri", JS.Str (URI.toString resource false))])
          = Some resource) as Huri.
  { unfold configuredFolderUri, isRawFileWorkspaceFolder, isRawUriWorkspaceFolder. simpl.
    rewrite Hparse, Hpath. reflexivity. }
  cbn [WorkspaceFolder.raw]. rewrite Huri.
  rewrite decide_False by apply not_elem_of_empty.
  simpl. unfold JS.or. simpl. now rewrite Hname.
Qed.

End MoreToWorkspaceFolder.

(** ** Each entry on its own *)

Lemma appendRestored_empty_l st :
  appendRestored {| recents := emptyRecents; warnings := [] |} st = st.
Proof. destruct st as [r w]. unfold appendRestored. simpl. now rewrite appendRecents_empty_l. Qed.

Lemma appendRestored_empty_r st :
  appendRestored st {| recents := emptyRecents; warnings := [] |} = st.
Proof.
  destruct st as [r w]. unfold appendRestored. simpl.
  now rewrite appendRecents_empty_r, app_nil_r.
Qed.

(** The loop gives the outcomes of the calls of the callback, each on the
    empty result and at the index of its entry, one after the other. *)
Lemma restoreGracefully_from_outcomes func i l :
  adds func →
  restoreGracefully_from func i l {| recents := emptyRecents; warnings := [] |}
  = concatRestored (imap (λ j entry, outcome entry (func entry (i + j) emptyRecents)) l).
Proof.
  intros Hadds. revert i. induction l as [|e l IH]; intros i; [reflexivity|].
  cbn [restoreGracefully_from imap concatRestored foldr recents warnings].
  rewrite Nat.add_0_r.
  assert (match func e i emptyRecents with
          | JS.Normal r => {| recents := r; warnings := [] |}
          | JS.Throw err => {| recents := emptyRecents; warnings := [] ++ [(e, err)] |}
          end = outcome e (func e i emptyRecents)) as ->
    by (destruct (func e i emptyRecents); reflexivity).
  rewrite restoreGracefully_from_adds by exact Hadds.
  rewrite IH. f_equal. unfold concatRestored. f_equal.
  apply imap_ext. intros j x _. simpl. do 3 f_equal. lia.
Qed.

(** An entry for which the callback returns the result it was given leaves
    no trace: the entries after it are restored, each at its own index, onto
    what the entries before it gave. [func'] is the callback for the array
    without the entry. *)
Lemma restoreGracefully_skip func func' l1 e l2 st :
  (∀ r, func e (length l1) r = JS.Normal r) →
  (∀ j e' r, (j < length l1)%nat → func e' j r = func' e' j r) →
  (∀ j e' r, (length l1 ≤ j)%nat → func e' (S j) r = func' e' j r) →
  restoreGracefully func (l1 ++ e :: l2) st = restoreGracefully func' (l1 ++ l2) st.
Proof.
  intros Hskip Hbefore Hafter. unfold restoreGracefully.
  rewrite !restoreGracefully_from_app. simpl.
  rewrite (restoreGracefully_from_ext func func' 0 l1)
    by (intros; apply Hbefore; lia).
  destruct (restoreGracefully_from func' 0 l1 st) as [r1 w1]. simpl.
  rewrite Hskip.
  now rewrite (restoreGracefully_from_shift func func' (length l1)) by exact Hafter.
Qed.

Lemma adds_nothing func e i :
  adds func →
  func e i emptyRecents = JS.Normal emptyRecents →
  ∀ r, func e i r = JS.Normal r.
Proof.
  intros Hadds Hnothing r. rewrite Hadds, Hnothing. now rewrite appendRecents_empty_r.
Qed.

Section FailureIsolation.
Context `{UO : URI.Ops}.

Lemma restoreEntry_cases entry i result :
  (JS.nullish entry = true → restoreEntry entry i result = JS.Throw JS.TypeError)
  ∧ (isSerializedRecentWorkspace entry = true →
     restoreEntry entry i result
     = match URI.parse (JS.str (JS.get "configPath" (JS.get "workspace" entry))) with
       | Some configPath =>
           JS.Normal
             {| workspaces :=
                  workspaces result
                  ++ [IRecentWorkspace (JS.get "label" entry)
                        (JS.get "remoteAuthority" entry)
                        (IWorkspaceIdentifier.Build
                           (JS.str (JS.get "id" (JS.get "workspace" entry))) configPath)];
                files :=
                  files result |}
       | None =>
           JS.Throw (JS.UriError (JS.str (JS.get "configPath" (JS.get "workspace" entry))))
       end)
  ∧ (isSerializedRecentWorkspace entry = false →
     isSerializedRecentFolder entry = true →
     restoreEntry entry i result
     = match URI.parse (JS.str (JS.get "folderUri" entry)) with
       | Some folderUri =>
           JS.Normal
             {| workspaces :=
                  workspaces result
                  ++ [IRecentFolder (JS.get "label" entry)
                        (JS.get "remoteAuthority" entry) folderUri];
                files :=
                  files result |}
       | None => JS.Throw (JS.UriError (JS.str (JS.get "folderUri" entry)))
       end)
  ∧ (isSerializedRecentWorkspace entry = false →
     isSerializedRecentFolder entry = false →
     isSerializedRecentFile entry = true →
     restoreEntry entry i result
     = match URI.parse (JS.str (JS.get "fileUri" entry)) with
       | Some fileUri =>
           JS.Normal
             {| workspaces :=
                  workspaces result;
                files :=
                  files result
                  ++ [RecentFile (JS.get "label" entry) (JS.get "remoteAuthority" entry)
                        fileUri] |}
       | None => JS.Throw (JS.UriError (JS.str (JS.get "fileUri" entry)))
       end)
  ∧ (JS.nullish entry = false →
     isSerializedRecentWorkspace entry = false →
     isSerializedRecentFolder entry = false →
     isSerializedRecentFile entry = false →
     restoreEntry entry i result = JS.Normal result).
Proof.
  destruct (JS.nullish entry) eqn:Hnullish.
  - assert (isSerializedRecentWorkspace entry = false
            ∧ isSerializedRecentFolder entry = false
            ∧ isSerializedRecentFile entry = false) as (Hw & Hf & Hfile)
      by (destruct entry; try discriminate; split_and!; reflexivity).
    rewrite Hw, Hf, Hfile. split_and!; try discriminate.
    intros _. unfold restoreEntry, JS.member. now rewrite Hnullish.
  - assert (∀ k, JS.member k entry = JS.Normal (JS.get k entry)) as Hmember
      by (intros k; unfold JS.member; now rewrite Hnullish).
    unfold restoreEntry, URI.parse_. rewrite !Hmember. simpl.
    split_and!.
    + discriminate.
    + intros ->. destruct (URI.parse _); reflexivity.
    + intros -> ->. destruct (URI.parse _); reflexivity.
    + intros -> -> ->. destruct (URI.parse _); reflexivity.
    + intros _ -> -> ->. reflexivity.
Qed.

Lemma restoreLegacyWorkspace_cases labels entry i result :
  (entry = JS.Null →
   restoreLegacyWorkspace labels entry i result = JS.Throw JS.TypeError)
  ∧ (JS.isString (JS.get "id" entry) = true →
     JS.isString (JS.get "configURIPath" entry) = true →
     restoreLegacyWorkspace labels entry i result
     = match URI.parse (JS.str (JS.get "configURIPath" entry)) with
       | Some configPath =>
           JS.Normal
             {| workspaces :=
                  workspaces result
                  ++ [IRecentWorkspace (legacyLabel labels i) JS.Undefined
                        (IWorkspaceIdentifier.Build (JS.str (JS.get "id" entry)) configPath)];
                files :=
                  files result |}
       | None => JS.Throw (JS.UriError (JS.str (JS.get "configURIPath" entry)))
       end)
  ∧ (∀ s, entry = JS.Str s →
     restoreLegacyWorkspace labels entry i result
     = match URI.parse s with
       | Some folderUri =>
           JS.Normal
             {| workspaces :=
                  workspaces result
                  ++ [IRecentFolder (legacyLabel labels i) JS.Undefined folderUri];
                files :=
                  files result |}
       | None => JS.Throw (JS.UriError s)
       end)
  ∧ (entry ≠ JS.Null →
     JS.isString entry = false →
     JS.isString (JS.get "id" entry) && JS.isString (JS.get "configURIPath" entry) = false →
     restoreLegacyWorkspace labels entry i result = JS.Normal result).
Proof.
  unfold restoreLegacyWorkspace, isLegacyWorkspace, URI.parse_, JS.member.
  destruct entry as [| |b|n|s|items|props]; simpl.
  all: split_and!; try discriminate; try reflexivity; try congruence.
  all: try (intros s' [= <-]; destruct (URI.parse s); reflexivity).
  - intros -> ->. simpl. destruct (URI.parse _); reflexivity.
  - intros _ _ Hguard.
    destruct (JS.isString (JS.assoc "id" props)); simpl in *; [|reflexivity].
    rewrite Hguard. reflexivity.
Qed.

Lemma restoreLegacyFile_cases labels entry i result :
  (∀ s, entry = JS.Str s →
     restoreLegacyFile labels entry i result
     = match URI.parse s with
       | Some fileUri =>
           JS.Normal
             {| workspaces :=
                  workspaces result;
                files :=
                  files result
                  ++ [RecentFile (legacyLabel labels i) JS.Undefined fileUri] |}
       | None => JS.Throw (JS.UriError s)
       end)
  ∧ (JS.isString entry = false →
     restoreLegacyFile labels entry i result = JS.Normal result).
Proof.
  unfold restoreLegacyFile, URI.parse_. split.
  - intros s ->. simpl. destruct (URI.parse s); reflexivity.
  - intros ->. reflexivity.
Qed.

(** C1, as the code has it. [restoreRecentlyOpened] returns a value for
    every input, read as the current schema when [entries] is an array and as
    the legacy schema otherwise, and it interprets each entry on its own: the
    result is made of the outcomes of the entries, one after the other, each
    computed on the empty result at the index of the entry. An entry whose
    interpretation raises (a [null] or [undefined] entry, a [null] element of
    [workspaces3], a uri string that [URI.parse] rejects) is caught and logged
    as one warning; an entry of a wrong shape, which passes none of the guards
    and raises nothing, is skipped without a warning; every other entry is
    restored as the workspace, folder or file it describes, legacy entries with
    the label of their own index. An entry that gives nothing is the only one
    dropped: what is restored is what the data without it restores (for the
    legacy arrays, without its label too), and the warnings are the same with
    the warning for that entry, if any, added. For three workspace entries of
    the current schema of which the second has a [configPath] that [URI.parse]
    rejects, the first and the third are restored, in this order, and one
    warning is logged. *)
Theorem restoreRecentlyOpened_isolates_failures :
  (∀ data, JS.truthy data = false →
     restoreRecentlyOpened data = {| recents := emptyRecents; warnings := [] |})
  ∧ (∀ data entries, JS.get "entries" data = JS.Arr entries →
       restoreRecentlyOpened data = restoreRecentlyOpened (currentData entries))
  ∧ (∀ data, JS.truthy data = true → JS.isArray (JS.get "entries" data) = false →
       restoreRecentlyOpened data
       = restoreRecentlyOpened
           (legacyData (JS.get "workspaces3" data) (JS.get "workspaceLabels" data)
              (JS.get "files2" data) (JS.get "fileLabels" data)))
  ∧ (∀ entries,
       restoreRecentlyOpened (currentData entries)
       = concatRestored
           (imap (λ i entry, outcome entry (restoreEntry entry i emptyRecents)) entries))
  ∧ (∀ workspaces3 workspaceLabels files2 fileLabels,
       restoreRecentlyOpened (legacyData workspaces3 workspaceLabels files2 fileLabels)
       = appendRestored
           (concatRestored
              (imap (λ i entry,
                       outcome entry
                         (restoreLegacyWorkspace workspaceLabels entry i emptyRecents))
                    (itemsOf workspaces3)))
           (concatRestored
              (imap (λ i entry,
                       outcome entry (restoreLegacyFile fileLabels entry i emptyRecents))
                    (itemsOf files2))))
  ∧ (∀ entry i result,
       (JS.nullish entry = true → restoreEntry entry i result = JS.Throw JS.TypeError)
       ∧ (isSerializedRecentWorkspace entry = true →
          restoreEntry entry i result
          = match URI.parse (JS.str (JS.get "configPath" (JS.get "workspace" entry))) with
            | Some configPath =>
                JS.Normal
                  {| workspaces :=
                       workspaces result
                       ++ [IRecentWorkspace (JS.get "label" entry)
                             (JS.get "remoteAuthority" entry)
                             (IWorkspaceIdentifier.Build
                                (JS.str (JS.get "id" (JS.get "workspace" entry))) configPath)];
                     files :=
                       files result |}
            | None =>
                JS.Throw
                  (JS.UriError (JS.str (JS.get "configPath" (JS.get "workspace" entry))))
            end)
       ∧ (isSerializedRecentWorkspace entry = false →
          isSerializedRecentFolder entry = true →
          restoreEntry entry i result
          = match URI.parse (JS.str (JS.get "folderUri" entry)) with
            | Some folderUri =>
                JS.Normal
                  {| workspaces :=
                       workspaces result
                       ++ [IRecentFolder (JS.get "label" entry)
                             (JS.get "remoteAuthority" entry) folderUri];
                     files :=
                       files result |}
            | None => JS.Throw (JS.UriError (JS.str (JS.get "folderUri" entry)))
            end)
       ∧ (isSerializedRecentWorkspace entry = false →
          isSerializedRecentFolder entry = false →
          isSerializedRecentFile entry = true →
          restoreEntry entry i result
          = match URI.parse (JS.str (JS.get "fileUri" entry)) with
            | Some fileUri =>
                JS.Normal
                  {| workspaces :=
                       workspaces result;
                     files :=
                       files result
                       ++ [RecentFile (JS.get "label" entry)
                             (JS.get "remoteAuthority" entry) fileUri] |}
            | None => JS.Throw (JS.UriError (JS.str (JS.get "fileUri" entry)))
            end)
       ∧ (JS.nullish entry = false →
          isSerializedRecentWorkspace entry = false →
          isSerializedRecentFolder entry = false →
          isSerializedRecentFile entry = false →
          restoreEntry entry i result = JS.Normal result))
  ∧ (∀ labels entry i result,
       (entry = JS.Null →
        restoreLegacyWorkspace labels entry i result = JS.Throw JS.TypeError)
       ∧ (JS.isString (JS.get "id" entry) = true →
          JS.isString (JS.get "configURIPath" entry) = true →
          restoreLegacyWorkspace labels entry i result
          = match URI.parse (JS.str (JS.get "configURIPath" entry)) with
            | Some configPath =>
                JS.Normal
                  {| workspaces :=
                       workspaces result
                       ++ [IRecentWorkspace (legacyLabel labels i) JS.Undefined
                             (IWorkspaceIdentifier.Build (JS.str (JS.get "id" entry)) configPath)];
                     files :=
                       files result |}
            | None => JS.Throw (JS.UriError (JS.str (JS.get "configURIPath" entry)))
            end)
       ∧ (∀ s, entry = JS.Str s →
          restoreLegacyWorkspace labels entry i result
          = match URI.parse s with
            | Some folderUri =>
                JS.Normal
                  {| workspaces :=
                       workspaces result
                       ++ [IRecentFolder (legacyLabel labels i) JS.Undefined folderUri];
                     files :=
                       files result |}
            | None => JS.Throw (JS.UriError s)
            end)
       ∧ (entry ≠ JS.Null →
          JS.isString entry = false →
          JS.isString (JS.get "id" entry) && JS.isString (JS.get "configURIPath" entry)
          = false →
          restoreLegacyWorkspace labels entry i result = JS.Normal result))
  ∧ (∀ labels entry i result,
       (∀ s, entry = JS.Str s →
          restoreLegacyFile labels entry i result
          = match URI.parse s with
            | Some fileUri =>
                JS.Normal
                  {| workspaces :=
                       workspaces result;
                     files :=
                       files result
                       ++ [RecentFile (legacyLabel labels i) JS.Undefined fileUri] |}
            | None => JS.Throw (JS.UriError s)
            end)
       ∧ (JS.isString entry = false →
          restoreLegacyFile labels entry i result = JS.Normal result))
  ∧ (∀ l1 e l2,
       let o := outcome e (restoreEntry e (length l1) emptyRecents) in
       recents o = emptyRecents →
       let full := restoreRecentlyOpened (currentData (l1 ++ e :: l2)) in
       let rest := restoreRecentlyOpened (currentData (l1 ++ l2)) in
       recents full = recents rest
       ∧ ∃ w1 w2, warnings rest = w1 ++ w2 ∧ warnings full = w1 ++ warnings o ++ w2)
  ∧ (∀ labels files2 fileLabels l1 e l2,
       let o := outcome e (restoreLegacyWorkspace labels e (length l1) emptyRecents) in
       recents o = emptyRecents →
       let full := restoreRecentlyOpened
                     (legacyData (JS.Arr (l1 ++ e :: l2)) labels files2 fileLabels) in
       let rest := restoreRecentlyOpened
                     (legacyData (JS.Arr (l1 ++ l2)) (removeAt (length l1) labels)
                        files2 fileLabels) in
       recents full = recents rest
       ∧ ∃ w1 w2, warnings rest = w1 ++ w2 ∧ warnings full = w1 ++ warnings o ++ w2)
  ∧ (∀ workspaces3 workspaceLabels labels l1 e l2,
       let o := outcome e (restoreLegacyFile labels e (length l1) emptyRecents) in
       recents o = emptyRecents →
       let full := restoreRecentlyOpened
                     (legacyData workspaces3 workspaceLabels (JS.Arr (l1 ++ e :: l2)) labels) in
       let rest := restoreRecentlyOpened
                     (legacyData workspaces3 workspaceLabels (JS.Arr (l1 ++ l2))
                        (removeAt (length l1) labels)) in
       recents full = recents rest
       ∧ ∃ w1 w2, warnings rest = w1 ++ w2 ∧ warnings full = w1 ++ warnings o ++ w2)
  ∧ (∀ id1 configPath1 id2 configPath2 id3 configPath3 uri1 uri3,
       URI.parse configPath1 = Some uri1 →
       URI.parse configPath2 = None →
       URI.parse configPath3 = Some uri3 →
       restoreRecentlyOpened
         (currentData [workspaceEntry id1 configPath1; workspaceEntry id2 configPath2;
                       workspaceEntry id3 configPath3])
       = {| recents :=
              {| workspaces :=
                   [IRecentWorkspace JS.Undefined JS.Undefined
                      (IWorkspaceIdentifier.Build id1 uri1);
                    IRecentWorkspace JS.Undefined JS.Undefined
                      (IWorkspaceIdentifier.Build id3 uri3)];
                 files := [] |};
            warnings := [(workspaceEntry id2 configPath2, JS.UriError configPath2)] |}).
Proof.
  destruct restoreRecentlyOpened_drops_throwing_entry
    as (Hfalsy & Hcurrent & Hlegacy & Hdrop & Hdropw & Hdropf & Hthree).
  set (st0 := {| recents := emptyRecents; warnings := [] |}).
  assert (∀ rest : Restored, ∃ w1 w2, warnings rest = w1 ++ w2
                                      ∧ warnings rest = w1 ++ [] ++ w2) as Hsame
    by (intros rest; exists (warnings rest), []; now rewrite !app_nil_r).
  split_and!; try assumption.
  - intros entries. unfold restoreRecentlyOpened, currentData. simpl.
    apply (restoreGracefully_from_outcomes restoreEntry 0), restoreEntry_adds.
  - intros workspaces3 workspaceLabels files2 fileLabels.
    unfold restoreRecentlyOpened, legacyData. simpl. fold st0.
    assert (match workspaces3 with
            | JS.Arr workspaces3 =>
                restoreGracefully (restoreLegacyWorkspace workspaceLabels) workspaces3 st0
            | _ => st0
            end
            = concatRestored
                (imap (λ i entry,
                         outcome entry
                           (restoreLegacyWorkspace workspaceLabels entry i emptyRecents))
                      (itemsOf workspaces3))) as ->.
    { destruct workspaces3; try reflexivity.
      apply (restoreGracefully_from_outcomes (restoreLegacyWorkspace workspaceLabels) 0),
        restoreLegacyWorkspace_adds. }
    destruct files2; simpl; try (now rewrite appendRestored_empty_r).
    unfold restoreGracefully.
    rewrite restoreGracefully_from_adds by apply restoreLegacyFile_adds.
    f_equal.
    apply (restoreGracefully_from_outcomes (restoreLegacyFile fileLabels) 0),
      restoreLegacyFile_adds.
  - intros entry i result. apply restoreEntry_cases.
  - intros labels entry i result. apply restoreLegacyWorkspace_cases.
  - intros labels entry i result. apply restoreLegacyFile_cases.
  - intros l1 e l2 o Ho full rest. subst o full rest.
    destruct (restoreEntry e (length l1) emptyRecents) as [r|err] eqn:He; simpl in *.
    + subst r.
      assert (restoreRecentlyOpened (currentData (l1 ++ e :: l2))
              = restoreRecentlyOpened (currentData (l1 ++ l2))) as ->; [|auto].
      unfold restoreRecentlyOpened, currentData. simpl.
      apply restoreGracefully_skip; [|reflexivity|reflexivity].
      apply adds_nothing; [apply restoreEntry_adds | exact He].
    + exact (Hdrop l1 e l2 err He).
  - intros labels files2 fileLabels l1 e l2 o Ho full rest. subst o full rest.
    destruct (restoreLegacyWorkspace labels e (length l1) emptyRecents) as [r|err] eqn:He;
      simpl in Ho |- *.
    + subst r.
      assert (restoreRecentlyOpened
                (legacyData (JS.Arr (l1 ++ e :: l2)) labels files2 fileLabels)
              = restoreRecentlyOpened
                  (legacyData (JS.Arr (l1 ++ l2)) (removeAt (length l1) labels)
                     files2 fileLabels)) as ->; [|auto].
      unfold restoreRecentlyOpened, legacyData. simpl.
      rewrite (restoreGracefully_skip (restoreLegacyWorkspace labels)
                 (restoreLegacyWorkspace (removeAt (length l1) labels)) l1 e l2).
      * reflexivity.
      * apply adds_nothing; [apply restoreLegacyWorkspace_adds | exact He].
      * intros j e' r Hj. unfold restoreLegacyWorkspace.
        rewrite legacyLabel_removeAt, decide_True by exact Hj. reflexivity.
      * intros j e' r Hj. unfold restoreLegacyWorkspace.
        rewrite legacyLabel_removeAt, decide_False by lia. reflexivity.
    + exact (Hdropw labels files2 fileLabels l1 e l2 err He).
  - intros workspaces3 workspaceLabels labels l1 e l2 o Ho full rest. subst o full rest.
    destruct (restoreLegacyFile labels e (length l1) emptyRecents) as [r|err] eqn:He;
      simpl in Ho |- *.
    + subst r.
      assert (restoreRecentlyOpened
                (legacyData workspaces3 workspaceLabels (JS.Arr (l1 ++ e :: l2)) labels)
              = restoreRecentlyOpened
                  (legacyData workspaces3 workspaceLabels (JS.Arr (l1 ++ l2))
                     (removeAt (length l1) labels))) as ->; [|auto].
      unfold restoreRecentlyOpened, legacyData. simpl.
      apply restoreGracefully_skip.
      * apply adds_nothing; [apply restoreLegacyFile_adds | exact He].
      * intros j e' r Hj. unfold restoreLegacyFile.
        rewrite legacyLabel_removeAt, decide_True by exact Hj. reflexivity.
      * intros j e' r Hj. unfold restoreLegacyFile.
        rewrite legacyLabel_removeAt, decide_False by lia. reflexivity.
    + exact (Hdropf workspaces3 workspaceLabels labels l1 e l2 err He).
Qed.

End FailureIsolation.

(** ** Texts and spans *)

Lemma substring_all s m : String.length s ≤ m → String.substring 0 m s = s.
Proof.
  revert m. induction s as [|a s IH]; intros [|m] Hm; simpl in *; try reflexivity; try lia.
  rewrite IH by lia. reflexivity.
Qed.

Lemma substring_split_at s len m :
  len ≤ String.length s →
  String.length s ≤ m →
  s = (String.substring 0 len s ++ String.substring len m s)%string.
Proof.
  revert len m. induction s as [|a s IH]; intros len m Hbound Hm.
  - simpl in Hbound. assert (len = 0) as -> by lia. destruct m; reflexivity.
  - destruct len as [|len].
    + change (String a s = String.substring 0 m (String a s)).
      now rewrite substring_all by exact Hm.
    + change (String a s
              = String a (String.substring 0 len s ++ String.substring len m s)%string).
      f_equal. apply IH; simpl in *; lia.
Qed.

Lemma substring_split s offset len m :
  offset + len ≤ String.length s →
  String.length s ≤ m →
  s = (String.substring 0 offset s ++ String.substring offset len s
       ++ String.substring (offset + len) m s)%string.
Proof.
  revert offset len m. induction s as [|a s IH]; intros offset len m Hbound Hm.
  - simpl in Hbound. assert (offset = 0) as -> by lia. assert (len = 0) as -> by lia.
    destruct m; reflexivity.
  - destruct offset as [|offset].
    + change (String a s
              = (String.substring 0 len (String a s)
                 ++ String.substring len m (String a s))%string).
      apply substring_split_at; [exact Hbound | exact Hm].
    + change (String a s
              = String a (String.substring 0 offset s ++ String.substring offset len s
                          ++ String.substring (offset + len) m s)%string).
      f_equal. apply IH; simpl in *; lia.
Qed.

Lemma substring_length s offset len :
  offset + len ≤ String.length s → String.length (String.substring offset len s) = len.
Proof.
  revert offset len. induction s as [|a s IH]; intros offset len Hbound.
  - simpl in Hbound. assert (offset = 0) as -> by lia. assert (len = 0) as -> by lia.
    reflexivity.
  - destruct offset as [|offset].
    + destruct len as [|len]; [reflexivity|].
      simpl. f_equal. apply (IH 0 len). simpl in *. lia.
    + simpl. apply IH. simpl in *. lia.
Qed.

(** The editor that edits in place makes minimal edits, on every text. *)
Lemma minimalEdits_inPlace :
  @minimalEdits SampleInPlace.jsonEditOps SampleInPlace.region.
Proof.
  assert (∀ text path content,
            replacesOnly (SampleInPlace.region text path) text
              (Sample.applyEdit text
                 {| Sample.offset := (SampleInPlace.region text path).1;
                    Sample.length_ := (SampleInPlace.region text path).2;
                    Sample.content := content |})) as Hedit.
  { intros text path content.
    assert ((SampleInPlace.region text path).1 + (SampleInPlace.region text path).2
            ≤ String.length text) as Hbound
      by (unfold SampleInPlace.region, SampleInPlace.clamp; cbn [fst snd]; lia).
    destruct (SampleInPlace.region text path) as [offset len]. cbn [fst snd] in *.
    exists (String.substring 0 offset text), (String.substring offset len text), content,
           (String.substring (offset + len) (String.length text) text).
    split_and!.
    - now apply substring_split.
    - reflexivity.
    - apply (substring_length text 0 offset). lia.
    - now apply substring_length. }
  intros text path options. split.
  - intros value. exact (Hedit text path (SampleInPlace.setMember text path value options)).
  - exact (Hedit text path (SampleInPlace.removeMember text path options)).
Qed.

(** ** More examples *)

Section MoreOnExamples.
Import Sample Examples SampleMore.

Lemma getStoredWorkspaceFolder_slash_flag_witness :
  (@isWindows linux = false ∨ URI.scheme (fileURI "/ws/a") ≠ Schemas.file)
  ∧ (@isWindows windows = false ∨ URI.scheme (remoteURI "host" "/ws/a/b") ≠ Schemas.file)
  ∧ @getStoredWorkspaceFolder linux uriOps pathOps extUri
      (fileURI "/ws/a") false (JS.Str "a") (fileURI "/ws") (Some false)
    = @getStoredWorkspaceFolder linux uriOps pathOps extUri
        (fileURI "/ws/a") false (JS.Str "a") (fileURI "/ws") None
  ∧ @getStoredWorkspaceFolder windows uriOps pathOps extUri
      (remoteURI "host" "/ws/a/b") false (JS.Str "a") (remoteURI "host" "/ws") (Some false)
    = @getStoredWorkspaceFolder windows uriOps pathOps extUri
        (remoteURI "host" "/ws/a/b") false (JS.Str "a") (remoteURI "host" "/ws") (Some true).
Proof.
  split; [left; reflexivity|].
  split; [right; discriminate|].
  split.
  - apply (@getStoredWorkspaceFolder_slash_flag linux uriOps pathOps extUri
             (fileURI "/ws/a") false (JS.Str "a") (fileURI "/ws") (Some false) None).
    left; reflexivity.
  - apply (@getStoredWorkspaceFolder_slash_flag windows uriOps pathOps extUri
             (remoteURI "host" "/ws/a/b") false (JS.Str "a") (remoteURI "host" "/ws")
             (Some false) (Some true)).
    right; discriminate.
Defined.

Lemma getStoredWorkspaceFolder_read_back_witness :
  @toWorkspaceFolders uriOps extUri
    [storedFolderToValue
       (@getStoredWorkspaceFolder linux uriOps pathOps extUri
          (fileURI "/ws/a") false (JS.Str "a")
          (@dirname extUri (fileURI "/ws/w.code-workspace")) None)]
    (fileURI "/ws/w.code-workspace")
  = [WorkspaceFolder.Build (fileURI "/ws/a") (JS.Str "a") 0
       (JS.Obj [("name", JS.Str "a"); ("path", JS.Str "a")])]
  ∧ @toWorkspaceFolders uriOps extUri
      [storedFolderToValue
         (@getStoredWorkspaceFolder linux uriOps pathOps extUri
            (remoteURI "host" "/r/a") false JS.Undefined
            (@dirname extUri (fileURI "/ws/w.code-workspace")) None)]
      (fileURI "/ws/w.code-workspace")
    = [WorkspaceFolder.Build (remoteURI "host" "/r/a") (JS.Str "a") 0
         (JS.Obj [("name", JS.Undefined); ("uri", JS.Str "vscode-remote://host/r/a")])].
Proof.
  split.
  - pose proof (@getStoredWorkspaceFolder_read_back linux uriOps pathOps extUri
                  (fileURI "/ws/a") false (JS.Str "a") (fileURI "/ws/w.code-workspace") None
                  (or_intror (ex_intro _ "a" eq_refl))) as H.
    cbv zeta in H. destruct H as [H _].
    exact (H "a" eq_refl eq_refl eq_refl eq_refl eq_refl).
  - pose proof (@getStoredWorkspaceFolder_read_back linux uriOps pathOps extUri
                  (remoteURI "host" "/r/a") false JS.Undefined
                  (fileURI "/ws/w.code-workspace") None (or_introl eq_refl)) as H.
    cbv zeta in H. destruct H as [_ H].
    apply H; [discriminate | reflexivity | exists "r/a"; reflexivity].
Defined.

Lemma restoreRecentlyOpened_legacy_labels_witness :
  let data :=
    legacyData (JS.Arr [JS.Str "file:///a"; JS.Null; JS.Str "file:///b"])
      (JS.Arr [JS.Str EmptyString; JS.Str "x"; JS.Str "B"])
      (JS.Arr [JS.Null; JS.Str "file:///f.txt"]) JS.Undefined in
  JS.isArray (JS.get "entries" data) = false
  ∧ @restoreRecentlyOpened uriOps data
    = {| recents :=
           {| workspaces := [IRecentFolder JS.Undefined JS.Undefined (fileURI "/a");
                             IRecentFolder (JS.Str "B") JS.Undefined (fileURI "/b")];
              files := [RecentFile JS.Undefined JS.Undefined (fileURI "/f.txt")] |};
         warnings := [(JS.Null, JS.TypeError)] |}
  ∧ legacyLabelled JS.Undefined JS.Undefined
  ∧ legacyLabelled (JS.Str "B") JS.Undefined.
Proof.
  intros data.
  split; [reflexivity|].
  split; [vm_compute; reflexivity|].
  pose proof (@restoreRecentlyOpened_legacy_labels uriOps data eq_refl) as H.
  cbv zeta in H. destruct H as [H _].
  split.
  - apply (H (IRecentFolder JS.Undefined JS.Undefined (fileURI "/a"))).
    vm_compute. left.
  - apply (H (IRecentFolder (JS.Str "B") JS.Undefined (fileURI "/b"))).
    vm_compute. right. left.
Defined.

Lemma reviveIdentifier_toWorkspaceIdentifier_witness :
  (∀ u, JS.truthy (components u) = true ∧ @URI_revive uriRevive (components u) = Some u)
  ∧ @reviveIdentifier uriRevive
      (serializedIdentifier components
         (toWorkspaceIdentifier
            (IWorkspace.Build EmptyString [] None (Some (fileURI "/ws/w.code-workspace")))))
    = JS.Normal (Some (RevivedWorkspace (JS.Str EmptyString)
                         (fileURI "/ws/w.code-workspace")))
  ∧ @reviveIdentifier uriRevive
      (serializedIdentifier components
         (toWorkspaceIdentifier
            (IWorkspace.Build "id"
               [WorkspaceFolder.Build (fileURI "/ws/a") (JS.Str "a") 0 JS.Undefined]
               None None)))
    = JS.Normal (Some (RevivedSingleFolder (JS.Str "id") (fileURI "/ws/a"))).
Proof.
  assert (∀ u, JS.truthy (components u) = true
               ∧ @URI_revive uriRevive (components u) = Some u) as Hcomponents
    by (intros [scheme authority path query fragment]; split; reflexivity).
  split; [exact Hcomponents|].
  split.
  - apply (@reviveIdentifier_toWorkspaceIdentifier uriRevive components
             (IWorkspace.Build EmptyString [] None (Some (fileURI "/ws/w.code-workspace")))
             Hcomponents).
  - apply (@reviveIdentifier_toWorkspaceIdentifier uriRevive components
             (IWorkspace.Build "id"
                [WorkspaceFolder.Build (fileURI "/ws/a") (JS.Str "a") 0 JS.Undefined]
                None None)
             Hcomponents).
Defined.

Lemma toWorkspaceFolder_read_back_witness :
  @roundTrips uriOps (fileURI "/ws/a")
  ∧ startsWithSlash (URI.path (fileURI "/ws/a"))
  ∧ @basenameOrAuthority extUri (fileURI "/ws/a")
    = @resources_basenameOrAuthority resourcesOps (fileURI "/ws/a")
  ∧ @toWorkspaceFolders uriOps extUri
      [WorkspaceFolder.raw (@toWorkspaceFolder uriOps resourcesOps (fileURI "/ws/a"))]
      (fileURI "/x/w.code-workspace")
    = [WorkspaceFolder.Build (fileURI "/ws/a") (JS.Str "a") 0
         (JS.Obj [("uri", JS.Str "file:///ws/a")])].
Proof.
  split; [reflexivity|].
  split; [exists "ws/a"; reflexivity|].
  split; [reflexivity|].
  apply (@toWorkspaceFolder_read_back uriOps extUri resourcesOps
           (fileURI "/ws/a") (fileURI "/x/w.code-workspace")).
  - reflexivity.
  - exists "ws/a"; reflexivity.
  - reflexivity.
Defined.

Lemma rewriteWorkspaceFileForNewLocation_throws_witness :
  let text :=
    ("{" ++ quoted "folders" ++ ": [{" ++ quoted "path" ++ ": " ++ quoted "a" ++ "}, {"
     ++ quoted "uri" ++ ": " ++ quoted "not a scheme://two" ++ "}, {"
     ++ quoted "uri" ++ ": " ++ quoted "also bad://x" ++ "}]}")%string in
  @rewriteWorkspaceFileForNewLocation linux uriOps pathOps extUri jsonOps jsonEditOps
    remoteOps text (fileURI "/ws/w.code-workspace") false (fileURI "/ws/sub/w.code-workspace")
  = JS.Throw (JS.UriError "not a scheme://two")
  ∧ @rewriteWorkspaceFileForNewLocation linux uriOps pathOps extUri jsonOps jsonEditOps
      remoteOps "[]" (fileURI "/ws/w.code-workspace") false
      (fileURI "/ws/sub/w.code-workspace")
    = JS.Throw (JS.InvalidWorkspaceFile "file:///ws/w.code-workspace")
  ∧ @toWorkspaceFolders uriOps extUri
      [JS.Obj [("path", JS.Str "a")]; JS.Obj [("uri", JS.Str "not a scheme://two")];
       JS.Obj [("uri", JS.Str "also bad://x")]]
      (fileURI "/ws/w.code-workspace")
    = [WorkspaceFolder.Build (fileURI "/ws/a") (JS.Str "a") 0
         (JS.Obj [("path", JS.Str "a")])].
Proof.
  intros text. split; [|split; [|vm_compute; reflexivity]].
  - apply (proj2 (@rewriteWorkspaceFileForNewLocation_throws linux uriOps pathOps extUri
                    jsonOps jsonEditOps remoteOps text (fileURI "/ws/w.code-workspace")
                    false (fileURI "/ws/sub/w.code-workspace")
                    (JS.UriError "not a scheme://two"))).
    right.
    exists [JS.Obj [("path", JS.Str "a")]; JS.Obj [("uri", JS.Str "not a scheme://two")];
            JS.Obj [("uri", JS.Str "also bad://x")]],
           [JS.Obj [("path", JS.Str "a")]],
           (JS.Obj [("uri", JS.Str "not a scheme://two")]),
           [JS.Obj [("uri", JS.Str "also bad://x")]].
    split; [vm_compute; reflexivity|].
    split; [reflexivity|].
    split; [intros f Hin; apply list_elem_of_singleton in Hin as ->; discriminate|].
    split; [reflexivity|].
    split; [vm_compute; reflexivity | reflexivity].
  - apply (proj2 (@rewriteWorkspaceFileForNewLocation_throws linux uriOps pathOps extUri
                    jsonOps jsonEditOps remoteOps "[]" (fileURI "/ws/w.code-workspace")
                    false (fileURI "/ws/sub/w.code-workspace")
                    (JS.InvalidWorkspaceFile "file:///ws/w.code-workspace"))).
    left. split; [intros items; vm_compute; discriminate | reflexivity].
Defined.

Lemma restoreRecentlyOpened_isolates_failures_witness :
  @restoreEntry uriOps (workspaceEntry "w2" "not a scheme://two") 1 emptyRecents
  = JS.Throw (JS.UriError "not a scheme://two")
  ∧ @URI.parse uriOps "file:///a/one.code-workspace" = Some (fileURI "/a/one.code-workspace")
  ∧ @URI.parse uriOps "not a scheme://two" = None
  ∧ @URI.parse uriOps "file:///c/three.code-workspace"
    = Some (fileURI "/c/three.code-workspace")
  ∧ @restoreRecentlyOpened uriOps (currentData threeEntries)
    = {| recents :=
           {| workspaces :=
                [IRecentWorkspace JS.Undefined JS.Undefined
                   (IWorkspaceIdentifier.Build "w1" (fileURI "/a/one.code-workspace"));
                 IRecentWorkspace JS.Undefined JS.Undefined
                   (IWorkspaceIdentifier.Build "w3" (fileURI "/c/three.code-workspace"))];
              files := [] |};
         warnings := [(workspaceEntry "w2" "not a scheme://two",
                       JS.UriError "not a scheme://two")] |}
  ∧ recents (@restoreRecentlyOpened uriOps (currentData threeEntries))
    = recents (@restoreRecentlyOpened uriOps
                 (currentData [workspaceEntry "w1" "file:///a/one.code-workspace";
                               workspaceEntry "w3" "file:///c/three.code-workspace"]))
  ∧ @restoreRecentlyOpened uriOps
      (legacyData (JS.Arr [JS.Str "file:///a"; JS.Null; JS.Str "file:///b"])
         (JS.Arr [JS.Str "A"; JS.Str "x"; JS.Str "B"])
         (JS.Arr [JS.Num 7; JS.Str "file:///f.txt"]) JS.Undefined)
    = {| recents :=
           {| workspaces := [IRecentFolder (JS.Str "A") JS.Undefined (fileURI "/a");
                             IRecentFolder (JS.Str "B") JS.Undefined (fileURI "/b")];
              files := [RecentFile JS.Undefined JS.Undefined (fileURI "/f.txt")] |};
         warnings := [(JS.Null, JS.TypeError)] |}.
Proof.
  destruct (@restoreRecentlyOpened_isolates_failures uriOps)
    as (_ & _ & _ & _ & Hlegacy & _ & _ & _ & Hcurrent & _ & _ & Hthree).
  do 4 (split; [reflexivity|]). split; [|split].
  - apply (Hthree "w1" "file:///a/one.code-workspace" "w2" "not a scheme://two"
             "w3" "file:///c/three.code-workspace"); reflexivity.
  - apply (Hcurrent [workspaceEntry "w1" "file:///a/one.code-workspace"]
             (workspaceEntry "w2" "not a scheme://two")
             [workspaceEntry "w3" "file:///c/three.code-workspace"]).
    reflexivity.
  - rewrite (Hlegacy (JS.Arr [JS.Str "file:///a"; JS.Null; JS.Str "file:///b"])
               (JS.Arr [JS.Str "A"; JS.Str "x"; JS.Str "B"])
               (JS.Arr [JS.Num 7; JS.Str "file:///f.txt"]) JS.Undefined).
    vm_compute. reflexivity.
Defined.

(** An entry of a wrong shape is dropped without a warning: of three
    entries of the current schema of which the second is a workspace whose
    [configPath] is the number 7, the first and the third are restored and
    nothing is logged. The entry passes none of the guards, so the callback
    returns the result it was given, whatever [URI.parse] does. *)
Lemma restoreRecentlyOpened_wrong_shape_not_logged :
  @restoreRecentlyOpened uriOps
    (currentData
       [workspaceEntry "w1" "file:///a/one.code-workspace";
        JS.Obj [("workspace", JS.Obj [("id", JS.Str "w2"); ("configPath", JS.Num 7)])];
        workspaceEntry "w3" "file:///c/three.code-workspace"])
  = {| recents :=
         {| workspaces :=
              [IRecentWorkspace JS.Undefined JS.Undefined
                 (IWorkspaceIdentifier.Build "w1" (fileURI "/a/one.code-workspace"));
               IRecentWorkspace JS.Undefined JS.Undefined
                 (IWorkspaceIdentifier.Build "w3" (fileURI "/c/three.code-workspace"))];
            files := [] |};
       warnings := [] |}
  ∧ ∀ (UO : URI.Ops) i result,
      @restoreEntry UO
        (JS.Obj [("workspace", JS.Obj [("id", JS.Str "w2"); ("configPath", JS.Num 7)])])
        i result
      = JS.Normal result.
Proof.
  split; [vm_compute; reflexivity|].
  intros UO i result. reflexivity.
Qed.

Lemma rewriteWorkspaceFileForNewLocation_edits_witness :
  let options := {| insertSpaces := false; tabSize := 4; eol := LF |} in
  let storedWorkspace :=
    IStoredWorkspace.Build [JS.Obj [("uri", JS.Str "vscode-remote://host/ws/a")]]
      (JS.Str "host") in
  let rewrittenFolders := [IRawFileWorkspaceFolder JS.Undefined "../a"] in
  let folders :=
    (quoted "folders" ++ ": " ++ print options 1 (JS.Arr [JS.Obj [("path", JS.Str "../a")]])
     ++ ",")%string in
  let afterFolders :=
    ("{ /* roots */ " ++ folders ++ "  " ++ quoted "remoteAuthority" ++ ": " ++ quoted "host"
     ++ ", // kept" ++ LF ++ "   " ++ quoted "settings" ++ ":{" ++ quoted "tabs"
     ++ ":2} /* end */ }")%string in
  let newContent :=
    ("{ /* roots */ " ++ folders ++ "  " ++ " // kept" ++ LF ++ "   " ++ quoted "settings"
     ++ ":{" ++ quoted "tabs" ++ ":2} /* end */ }")%string in
  @minimalEdits SampleInPlace.jsonEditOps SampleInPlace.region
  ∧ @doParseStoredWorkspace uriOps SampleInPlace.jsonOps
      (remoteURI "host" "/ws/w.code-workspace") SampleInPlace.commentedWorkspaceFile
    = JS.Normal storedWorkspace
  ∧ JS.mapM (@rewriteFolder linux uriOps pathOps extUri (remoteURI "host" "/ws")
               (remoteURI "host" "/ws/sub") true true)
      (IStoredWorkspace.folders storedWorkspace)
    = JS.Normal rewrittenFolders
  ∧ @rewriteWorkspaceFileForNewLocation linux uriOps pathOps extUri SampleInPlace.jsonOps
      SampleInPlace.jsonEditOps remoteOps SampleInPlace.commentedWorkspaceFile
      (remoteURI "host" "/ws/w.code-workspace") true
      (remoteURI "host" "/ws/sub/w.code-workspace")
    = JS.Normal newContent
  ∧ replacesOnly (SampleInPlace.region SampleInPlace.commentedWorkspaceFile ["folders"])
      SampleInPlace.commentedWorkspaceFile afterFolders
  ∧ replacesOnly (SampleInPlace.region afterFolders ["remoteAuthority"]) afterFolders
      newContent.
Proof.
  intros options storedWorkspace rewrittenFolders folders afterFolders newContent.
  assert (@doParseStoredWorkspace uriOps SampleInPlace.jsonOps
            (remoteURI "host" "/ws/w.code-workspace") SampleInPlace.commentedWorkspaceFile
          = JS.Normal storedWorkspace) as Hparse
    by (vm_compute; reflexivity).
  assert (JS.mapM (@rewriteFolder linux uriOps pathOps extUri (remoteURI "host" "/ws")
                     (remoteURI "host" "/ws/sub") true true)
            (IStoredWorkspace.folders storedWorkspace)
          = JS.Normal rewrittenFolders) as Hrewrite
    by (vm_compute; reflexivity).
  destruct (@rewriteWorkspaceFileForNewLocation_edits linux uriOps pathOps extUri
              SampleInPlace.jsonOps SampleInPlace.jsonEditOps remoteOps
              SampleInPlace.commentedWorkspaceFile (remoteURI "host" "/ws/w.code-workspace")
              true (remoteURI "host" "/ws/sub/w.code-workspace")) as (_ & Hedits & _).
  destruct (Hedits storedWorkspace rewrittenFolders Hparse Hrewrite)
    as (Hreturns & _ & _ & _ & Hframe).
  destruct (Hframe SampleInPlace.region minimalEdits_inPlace) as [Hfolders Hremote].
  split; [exact minimalEdits_inPlace|].
  split; [exact Hparse|]. split; [exact Hrewrite|].
  split; [rewrite Hreturns; vm_compute; reflexivity|].
  split.
  - vm_compute. vm_compute in Hfolders. exact Hfolders.
  - vm_compute. vm_compute in Hremote. exact Hremote.
Defined.

End MoreOnExamples.
